(** * Perspective streaming view of IDKAI_IDOKNOW: a shallow embedding

    The development follows
    [frontend/src/components/component3/cards/ExpandablePerspectiveCards.js],
    which holds the card grid ([ExpandablePerspectiveCards]) and the
    streaming pipeline view ([Component3]): its React state, the handlers of
    the WebSocket, of the status poll and of the timers, and the helper
    [buildSignificanceExplanation].

    - [JsObject]     plain JavaScript objects used as colour-keyed maps,
                     with the enumeration order of own property keys;
    - [Prototype]    the prototype chain behind such an object: what a
                     read [o[k]] finds beyond the own properties, and what
                     an assignment to [__proto__] does;
    - [Pipeline]     the state of [Component3] and its handlers, written in
                     a small state-and-log monad;
    - [Cards]        the spectral order used by the card grid;
    - [Significance] the significance explanation (real-number idealisation
                     of the floating-point arithmetic);
    - [Quota]        the quota allocator of the stratified reducer;
    - [Views], [Scenarios]  readings of the state and concrete runs used in
                     the statements;
    - [CardGrid], [Chart]  the cards memo of the grid and the points memo of
                     the scatter chart;
    - [JsObjectFacts], [HandlerFacts], [MergeFacts], [EventFacts]  facts
                     about objects, the monad, the cache merge and the
                     fields each event writes;
    - [Reconciler], [Controller], [Reveal], [SignificanceFacts],
      [QuotaFacts]   the properties, by component;
    - [RunInvariants], [RevealProgress], [PollingFacts], [ResultsFacts],
      [CardGridFacts], [ChartFacts], [SizerFacts]  further properties of
                     the handlers, of the grid and of the chart. *)

From Stdlib Require Import List String Ascii Bool ZArith NArith QArith Lia.
From Stdlib Require Import Reals Lra.
From Stdlib Require Import Permutation Sorted.
Import ListNotations.

Local Open Scope string_scope.
Local Open Scope list_scope.
Local Open Scope Z_scope.

(* ================================================================== *)
(** * JavaScript objects as ordered maps *)
(* ================================================================== *)

Module JsObject.

(** An object is the list of its own enumerable string-keyed properties,
    kept in the order in which [Object.keys], [Object.entries] and the
    spread [{...o}] enumerate them: array-index keys first, in ascending
    numeric order, then the other keys in insertion order. *)
Definition t (V : Type) : Type := list (string * V).

Definition digitOf (c : ascii) : option N :=
  let n := N_of_ascii c in
  if ((48 <=? n) && (n <=? 57))%N then Some (n - 48)%N else None.

Fixpoint parseDigits (acc : N) (s : string) : option N :=
  match s with
  | EmptyString => Some acc
  | String c r =>
      match digitOf c with
      | Some d => parseDigits (10 * acc + d)%N r
      | None => None
      end
  end.

(** A key is an array index when it is the canonical decimal form of an
    integer below 2^32 - 1. *)
Definition arrayIndex (k : string) : option N :=
  match k with
  | EmptyString => None
  | String c r =>
      if (Ascii.eqb c "0"%char) && negb (String.eqb r EmptyString) then None
      else match parseDigits 0%N k with
           | Some n => if (n <? 2 ^ 32 - 1)%N then Some n else None
           | None => None
           end
  end.

Section WithValues.
Context {V : Type}.

Definition empty : t V := [].

(** The own property [k] of [o], if there is one. A read [o[k]] that finds
    no own property goes on to the prototype of [o]: see
    [Prototype.lookup]. *)
Fixpoint get (k : string) (o : t V) : option V :=
  match o with
  | [] => None
  | (k', v) :: r => if String.eqb k k' then Some v else get k r
  end.

Definition has (k : string) (o : t V) : bool :=
  match get k o with Some _ => true | None => false end.

(** [Object.keys(o)]. *)
Definition keys (o : t V) : list string := map fst o.

(** Assignment to an existing property keeps its place. *)
Fixpoint replace (k : string) (v : V) (o : t V) : t V :=
  match o with
  | [] => []
  | (k', v') :: r =>
      if String.eqb k k' then (k', v) :: r else (k', v') :: replace k v r
  end.

(** A new array-index key goes after the smaller indices and before
    every other key. *)
Fixpoint insertIndex (n : N) (k : string) (v : V) (o : t V) : t V :=
  match o with
  | [] => [(k, v)]
  | (k', v') :: r =>
      match arrayIndex k' with
      | Some n' =>
          if (n' <? n)%N then (k', v') :: insertIndex n k v r
          else (k, v) :: o
      | None => (k, v) :: o
      end
  end.

(** The own property [k] of [o] defined as [v]: what a computed key
    [[k]: v] of an object literal does for every key, and an assignment
    [o[k] = v] for every key but [__proto__] (see [Prototype.assign]). *)
Definition set (k : string) (v : V) (o : t V) : t V :=
  if has k o then replace k v o
  else match arrayIndex k with
       | Some n => insertIndex n k v o
       | None => o ++ [(k, v)]
       end.

(** [{...o, [k]: v}]: the copy enumerates as [o] does. *)
Definition spreadSet (o : t V) (k : string) (v : V) : t V := set k v o.

End WithValues.

Arguments empty {V}.

End JsObject.


(* ================================================================== *)
(** * Prototypes and property reads *)
(* ================================================================== *)

Module Prototype.

(** The prototype of an object of the view. An object literal and a spread
    have [Object.prototype]; an assignment [o['__proto__'] = arr] runs the
    setter of [Object.prototype.__proto__] and makes the array [arr] the
    prototype of [o]. *)
Inductive t (A : Type) : Type :=
| Plain
| ArrayProto (items : list A).

Arguments Plain {A}.
Arguments ArrayProto {A} items.

(** What a read [o[k]] can yield on such an object: an array held under an
    own key (or the array that is the prototype, for the key [__proto__]),
    an element or the length of the array that is the prototype, a
    built-in method with its [length], [Object.prototype] itself, or
    [undefined]. *)
Inductive Found (A : Type) : Type :=
| AnArray (items : list A)
| AnItem (a : A)
| ANumber (n : nat)
| AFunction (arity : nat)
| TheObjectPrototype
| Undefined.

Arguments AnArray {A} items.
Arguments AnItem {A} a.
Arguments ANumber {A} n.
Arguments AFunction {A} arity.
Arguments TheObjectPrototype {A}.
Arguments Undefined {A}.

(** The function-valued properties of [Object.prototype], each with the
    [length] of the function (ECMAScript, with its annex B). The property
    [__proto__] is an accessor and is treated apart. *)
Definition objectMethods : list (string * nat) :=
  [("constructor", 1); ("__defineGetter__", 2); ("__defineSetter__", 2);
   ("hasOwnProperty", 1); ("__lookupGetter__", 1); ("__lookupSetter__", 1);
   ("isPrototypeOf", 1); ("propertyIsEnumerable", 1); ("toString", 0);
   ("valueOf", 0); ("toLocaleString", 0)]%nat.

(** The function-valued properties of [Array.prototype] (ECMAScript
    2023). *)
Definition arrayMethods : list (string * nat) :=
  [("at", 1); ("concat", 1); ("constructor", 1); ("copyWithin", 2);
   ("entries", 0); ("every", 1); ("fill", 1); ("filter", 1); ("find", 1);
   ("findIndex", 1); ("findLast", 1); ("findLastIndex", 1); ("flat", 0);
   ("flatMap", 1); ("forEach", 1); ("includes", 1); ("indexOf", 1);
   ("join", 1); ("keys", 0); ("lastIndexOf", 1); ("map", 1); ("pop", 0);
   ("push", 1); ("reduce", 1); ("reduceRight", 1); ("reverse", 0);
   ("shift", 0); ("slice", 2); ("some", 1); ("sort", 1); ("splice", 2);
   ("toLocaleString", 0); ("toReversed", 0); ("toSorted", 1);
   ("toSpliced", 2); ("toString", 0); ("unshift", 1); ("values", 0);
   ("with", 2)]%nat.

Section WithItems.
Context {A : Type}.

(** The read of [k] on [Object.prototype], at the end of the chain of an
    object whose prototype is [proto]: the getter of [__proto__] returns
    that prototype. *)
Definition inObjectPrototype (proto : t A) (k : string) : Found A :=
  if String.eqb k "__proto__" then
    match proto with
    | Plain => TheObjectPrototype
    | ArrayProto items => AnArray items
    end
  else
    match JsObject.get k objectMethods with
    | Some arity => AFunction arity
    | None => Undefined
    end.

(** The read of [k] along the prototype chain: for an array, its elements
    and its [length], then [Array.prototype], then [Object.prototype]. *)
Definition inherited (proto : t A) (k : string) : Found A :=
  match proto with
  | Plain => inObjectPrototype proto k
  | ArrayProto items =>
      match JsObject.arrayIndex k with
      | Some n =>
          match nth_error items (N.to_nat n) with
          | Some a => AnItem a
          | None => Undefined
          end
      | None =>
          if String.eqb k "length" then ANumber (List.length items)
          else
            match JsObject.get k arrayMethods with
            | Some arity => AFunction arity
            | None => inObjectPrototype proto k
            end
      end
  end.

(** [o[k]]: the own property if there is one, else what the chain has. *)
Definition lookup (k : string) (own : JsObject.t (list A)) (proto : t A)
  : Found A :=
  match JsObject.get k own with
  | Some items => AnArray items
  | None => inherited proto k
  end.

(** Truthiness: only [undefined] and the number 0 are falsy here. *)
Definition truthy (v : Found A) : bool :=
  match v with
  | Undefined => false
  | ANumber n => negb (n =? 0)%nat
  | _ => true
  end.

(** [v.length], [None] for [undefined]: arrays and functions have a
    length; a number, [Object.prototype] and an element of an array (a
    perspective, which carries no such field) have none. *)
Definition lengthOf (v : Found A) : option nat :=
  match v with
  | AnArray items => Some (List.length items)
  | AFunction arity => Some arity
  | _ => None
  end.

(** [v || []]. *)
Definition orEmptyArray (v : Found A) : Found A :=
  if truthy v then v else AnArray [].

(** [o[k] = arr] for an array [arr], on an object given by its own
    properties and its prototype. For [__proto__] (no own property of that
    name being there) the setter replaces the prototype and no property is
    created; every other key becomes or stays an own property, the
    inherited properties of that name being writable data properties. *)
Definition assign (k : string) (arr : list A)
  (o : JsObject.t (list A) * t A) : JsObject.t (list A) * t A :=
  if String.eqb k "__proto__" && negb (JsObject.has k (fst o))
  then (fst o, ArrayProto arr)
  else (JsObject.set k arr (fst o), snd o).

End WithItems.

End Prototype.


(* ================================================================== *)
(** * The streaming pipeline view ([Component3]) *)
(* ================================================================== *)

Module Pipeline.

(** ** Data received from the orchestrator *)

(** One generated perspective, as the view reads it: [p.id], [p.color],
    [p.bias_x], [p.significance_y] and [p.text]. A field the generator left
    out is [None]; JSON numbers are kept as rationals. *)
Record Perspective : Type := {
  p_id : option string;
  p_color : option string;
  p_bias_x : option Q;
  p_significance_y : option Q;
  p_text : option string
}.

(** A JSON value at the places where the view tests [Array.isArray]. *)
Inductive JsonValue : Type :=
| JArray (items : list Perspective)
| JOther.

Definition isArray (v : JsonValue) : bool :=
  match v with JArray _ => true | JOther => false end.

Definition elements (v : JsonValue) : list Perspective :=
  match v with JArray l => l | JOther => [] end.

(** Truthiness of a string-or-missing field: missing and [""] are falsy. *)
Definition truthy (o : option string) : bool :=
  match o with Some s => negb (String.eqb s "") | None => false end.

(** The property key a field denotes when used as [obj[field]]. *)
Definition propertyKey (o : option string) : string :=
  match o with Some s => s | None => "undefined" end.

(** [field === name] for a string-or-missing field. *)
Definition fieldIs (o : option string) (name : string) : bool :=
  match o with Some s => String.eqb s name | None => false end.

(** The reconciled per-colour state and the body of [GET /ws/cache]. *)
Definition ColorMap : Type := JsObject.t (list Perspective).
Definition CacheData : Type := JsObject.t JsonValue.

(** The prototype of an object that holds perspectives by colour, and what
    a read on such an object yields. *)
Definition Proto : Type := Prototype.t Perspective.
Definition Found : Type := Prototype.Found Perspective.

(** A WebSocket frame: [JSON.parse(event.data)] either throws (or yields a
    value whose properties cannot be read), or yields an object of which
    the handler reads [color], [perspectives] and [type]. *)
Record WsMessage : Type := {
  m_color : option string;
  m_perspectives : JsonValue;
  m_type : option string
}.

Inductive WsData : Type :=
| Unparseable
| Parsed (data : WsMessage).

(** The body of [GET /status]. *)
Record StatusData : Type := {
  st_stage : option string;
  st_progress : option Z;
  st_error : option string
}.

Inductive CacheResponse : Type :=
| CacheFailed                  (* fetch or json() throws *)
| CacheNotOk                   (* !cacheRes.ok *)
| CacheOk (cacheData : CacheData).

(** One firing of the interval callback: the status request fails, or
    answers [data]; [cache] is the answer the cache request gets if the
    callback issues it. *)
Inductive PollResponse : Type :=
| PollFailed (message : string)
| PollOk (data : StatusData) (cache : CacheResponse).

(** The body of [GET /results]; [r_perspectives] is [None] when the field
    is missing or falsy. *)
Record Results : Type := {
  r_perspectives : option (list Perspective);
  r_input_significance : option Q;
  r_significance : option Q
}.

(** The answer of [GET /results]: the request fails (or is not ok, or its
    body does not parse) with [message], or answers [data]; [typeError] is
    the message of the [TypeError] the engine raises if the continuation
    calls a value that is no function. *)
Inductive ResultsResponse : Type :=
| ResultsFailed (message : string)
| ResultsOk (data : Results) (typeError : string).

Inductive RunResponse : Type :=
| RunOk
| RunNotOk (status : string)
| RunFailed (message : string).

(** ** Component state *)

(** The [useState] cells and [useRef] boxes of [Component3]. [pollRef] and
    [wsRef] record whether an interval is armed and whether a socket object
    is held. The handlers are closures over the values of one render:
    [startScope] is the [perspectivesByColor] seen by the closures of the
    latest [startPipeline] call, [pollScope] the one seen by the running
    interval callback. [perspectivesByColor], [startScope] and [pollScope]
    hold the own properties of these objects; [perspectivesProto],
    [startScopeProto] and [pollScopeProto] are their prototypes. *)
Record State : Type := {
  stage : string;
  progress : Z;
  error : option string;
  results : option Results;
  pollRef : bool;
  perspectivesByColor : ColorMap;
  wsRef : bool;
  selectedPerspectives : list Perspective;
  cacheAvailable : bool;
  cacheSnapshotRef : option CacheData;
  showChart : bool;
  revealedColors : list string;
  chartFullyLoaded : bool;
  startScope : ColorMap;
  pollScope : ColorMap;
  perspectivesProto : Proto;
  startScopeProto : Proto;
  pollScopeProto : Proto
}.

Definition initialState : State :=
  {| stage := "idle"; progress := 0; error := None; results := None;
     pollRef := false; perspectivesByColor := JsObject.empty; wsRef := false;
     selectedPerspectives := []; cacheAvailable := false;
     cacheSnapshotRef := None; showChart := false; revealedColors := [];
     chartFullyLoaded := false; startScope := JsObject.empty;
     pollScope := JsObject.empty; perspectivesProto := Prototype.Plain;
     startScopeProto := Prototype.Plain; pollScopeProto := Prototype.Plain |}.

Definition with_stage (v : string) (s : State) : State :=
  {| stage := v; progress := progress s; error := error s;
     results := results s; pollRef := pollRef s;
     perspectivesByColor := perspectivesByColor s; wsRef := wsRef s;
     selectedPerspectives := selectedPerspectives s;
     cacheAvailable := cacheAvailable s;
     cacheSnapshotRef := cacheSnapshotRef s; showChart := showChart s;
     revealedColors := revealedColors s;
     chartFullyLoaded := chartFullyLoaded s; startScope := startScope s;
     pollScope := pollScope s; perspectivesProto := perspectivesProto s;
     startScopeProto := startScopeProto s;
     pollScopeProto := pollScopeProto s |}.

Definition with_progress (v : Z) (s : State) : State :=
  {| stage := stage s; progress := v; error := error s; results := results s;
     pollRef := pollRef s; perspectivesByColor := perspectivesByColor s;
     wsRef := wsRef s; selectedPerspectives := selectedPerspectives s;
     cacheAvailable := cacheAvailable s;
     cacheSnapshotRef := cacheSnapshotRef s; showChart := showChart s;
     revealedColors := revealedColors s;
     chartFullyLoaded := chartFullyLoaded s; startScope := startScope s;
     pollScope := pollScope s; perspectivesProto := perspectivesProto s;
     startScopeProto := startScopeProto s;
     pollScopeProto := pollScopeProto s |}.

Definition with_error (v : option string) (s : State) : State :=
  {| stage := stage s; progress := progress s; error := v;
     results := results s; pollRef := pollRef s;
     perspectivesByColor := perspectivesByColor s; wsRef := wsRef s;
     selectedPerspectives := selectedPerspectives s;
     cacheAvailable := cacheAvailable s;
     cacheSnapshotRef := cacheSnapshotRef s; showChart := showChart s;
     revealedColors := revealedColors s;
     chartFullyLoaded := chartFullyLoaded s; startScope := startScope s;
     pollScope := pollScope s; perspectivesProto := perspectivesProto s;
     startScopeProto := startScopeProto s;
     pollScopeProto := pollScopeProto s |}.

Definition with_results (v : option Results) (s : State) : State :=
  {| stage := stage s; progress := progress s; error := error s; results := v;
     pollRef := pollRef s; perspectivesByColor := perspectivesByColor s;
     wsRef := wsRef s; selectedPerspectives := selectedPerspectives s;
     cacheAvailable := cacheAvailable s;
     cacheSnapshotRef := cacheSnapshotRef s; showChart := showChart s;
     revealedColors := revealedColors s;
     chartFullyLoaded := chartFullyLoaded s; startScope := startScope s;
     pollScope := pollScope s; perspectivesProto := perspectivesProto s;
     startScopeProto := startScopeProto s;
     pollScopeProto := pollScopeProto s |}.

Definition with_pollRef (v : bool) (s : State) : State :=
  {| stage := stage s; progress := progress s; error := error s;
     results := results s; pollRef := v;
     perspectivesByColor := perspectivesByColor s; wsRef := wsRef s;
     selectedPerspectives := selectedPerspectives s;
     cacheAvailable := cacheAvailable s;
     cacheSnapshotRef := cacheSnapshotRef s; showChart := showChart s;
     revealedColors := revealedColors s;
     chartFullyLoaded := chartFullyLoaded s; startScope := startScope s;
     pollScope := pollScope s; perspectivesProto := perspectivesProto s;
     startScopeProto := startScopeProto s;
     pollScopeProto := pollScopeProto s |}.

Definition with_perspectivesByColor (v : ColorMap) (s : State) : State :=
  {| stage := stage s; progress := progress s; error := error s;
     results := results s; pollRef := pollRef s; perspectivesByColor := v;
     wsRef := wsRef s; selectedPerspectives := selectedPerspectives s;
     cacheAvailable := cacheAvailable s;
     cacheSnapshotRef := cacheSnapshotRef s; showChart := showChart s;
     revealedColors := revealedColors s;
     chartFullyLoaded := chartFullyLoaded s; startScope := startScope s;
     pollScope := pollScope s; perspectivesProto := perspectivesProto s;
     startScopeProto := startScopeProto s;
     pollScopeProto := pollScopeProto s |}.

Definition with_wsRef (v : bool) (s : State) : State :=
  {| stage := stage s; progress := progress s; error := error s;
     results := results s; pollRef := pollRef s;
     perspectivesByColor := perspectivesByColor s; wsRef := v;
     selectedPerspectives := selectedPerspectives s;
     cacheAvailable := cacheAvailable s;
     cacheSnapshotRef := cacheSnapshotRef s; showChart := showChart s;
     revealedColors := revealedColors s;
     chartFullyLoaded := chartFullyLoaded s; startScope := startScope s;
     pollScope := pollScope s; perspectivesProto := perspectivesProto s;
     startScopeProto := startScopeProto s;
     pollScopeProto := pollScopeProto s |}.

Definition with_selectedPerspectives (v : list Perspective) (s : State)
  : State :=
  {| stage := stage s; progress := progress s; error := error s;
     results := results s; pollRef := pollRef s;
     perspectivesByColor := perspectivesByColor s; wsRef := wsRef s;
     selectedPerspectives := v; cacheAvailable := cacheAvailable s;
     cacheSnapshotRef := cacheSnapshotRef s; showChart := showChart s;
     revealedColors := revealedColors s;
     chartFullyLoaded := chartFullyLoaded s; startScope := startScope s;
     pollScope := pollScope s; perspectivesProto := perspectivesProto s;
     startScopeProto := startScopeProto s;
     pollScopeProto := pollScopeProto s |}.

Definition with_cacheAvailable (v : bool) (s : State) : State :=
  {| stage := stage s; progress := progress s; error := error s;
     results := results s; pollRef := pollRef s;
     perspectivesByColor := perspectivesByColor s; wsRef := wsRef s;
     selectedPerspectives := selectedPerspectives s; cacheAvailable := v;
     cacheSnapshotRef := cacheSnapshotRef s; showChart := showChart s;
     revealedColors := revealedColors s;
     chartFullyLoaded := chartFullyLoaded s; startScope := startScope s;
     pollScope := pollScope s; perspectivesProto := perspectivesProto s;
     startScopeProto := startScopeProto s;
     pollScopeProto := pollScopeProto s |}.

Definition with_cacheSnapshotRef (v : option CacheData) (s : State) : State :=
  {| stage := stage s; progress := progress s; error := error s;
     results := results s; pollRef := pollRef s;
     perspectivesByColor := perspectivesByColor s; wsRef := wsRef s;
     selectedPerspectives := selectedPerspectives s;
     cacheAvailable := cacheAvailable s; cacheSnapshotRef := v;
     showChart := showChart s; revealedColors := revealedColors s;
     chartFullyLoaded := chartFullyLoaded s; startScope := startScope s;
     pollScope := pollScope s; perspectivesProto := perspectivesProto s;
     startScopeProto := startScopeProto s;
     pollScopeProto := pollScopeProto s |}.

Definition with_showChart (v : bool) (s : State) : State :=
  {| stage := stage s; progress := progress s; error := error s;
     results := results s; pollRef := pollRef s;
     perspectivesByColor := perspectivesByColor s; wsRef := wsRef s;
     selectedPerspectives := selectedPerspectives s;
     cacheAvailable := cacheAvailable s;
     cacheSnapshotRef := cacheSnapshotRef s; showChart := v;
     revealedColors := revealedColors s;
     chartFullyLoaded := chartFullyLoaded s; startScope := startScope s;
     pollScope := pollScope s; perspectivesProto := perspectivesProto s;
     startScopeProto := startScopeProto s;
     pollScopeProto := pollScopeProto s |}.

Definition with_revealedColors (v : list string) (s : State) : State :=
  {| stage := stage s; progress := progress s; error := error s;
     results := results s; pollRef := pollRef s;
     perspectivesByColor := perspectivesByColor s; wsRef := wsRef s;
     selectedPerspectives := selectedPerspectives s;
     cacheAvailable := cacheAvailable s;
     cacheSnapshotRef := cacheSnapshotRef s; showChart := showChart s;
     revealedColors := v; chartFullyLoaded := chartFullyLoaded s;
     startScope := startScope s; pollScope := pollScope s;
     perspectivesProto := perspectivesProto s;
     startScopeProto := startScopeProto s;
     pollScopeProto := pollScopeProto s |}.

Definition with_chartFullyLoaded (v : bool) (s : State) : State :=
  {| stage := stage s; progress := progress s; error := error s;
     results := results s; pollRef := pollRef s;
     perspectivesByColor := perspectivesByColor s; wsRef := wsRef s;
     selectedPerspectives := selectedPerspectives s;
     cacheAvailable := cacheAvailable s;
     cacheSnapshotRef := cacheSnapshotRef s; showChart := showChart s;
     revealedColors := revealedColors s; chartFullyLoaded := v;
     startScope := startScope s; pollScope := pollScope s;
     perspectivesProto := perspectivesProto s;
     startScopeProto := startScopeProto s;
     pollScopeProto := pollScopeProto s |}.

Definition with_startScope (v : ColorMap) (s : State) : State :=
  {| stage := stage s; progress := progress s; error := error s;
     results := results s; pollRef := pollRef s;
     perspectivesByColor := perspectivesByColor s; wsRef := wsRef s;
     selectedPerspectives := selectedPerspectives s;
     cacheAvailable := cacheAvailable s;
     cacheSnapshotRef := cacheSnapshotRef s; showChart := showChart s;
     revealedColors := revealedColors s;
     chartFullyLoaded := chartFullyLoaded s; startScope := v;
     pollScope := pollScope s; perspectivesProto := perspectivesProto s;
     startScopeProto := startScopeProto s;
     pollScopeProto := pollScopeProto s |}.

Definition with_pollScope (v : ColorMap) (s : State) : State :=
  {| stage := stage s; progress := progress s; error := error s;
     results := results s; pollRef := pollRef s;
     perspectivesByColor := perspectivesByColor s; wsRef := wsRef s;
     selectedPerspectives := selectedPerspectives s;
     cacheAvailable := cacheAvailable s;
     cacheSnapshotRef := cacheSnapshotRef s; showChart := showChart s;
     revealedColors := revealedColors s;
     chartFullyLoaded := chartFullyLoaded s; startScope := startScope s;
     pollScope := v; perspectivesProto := perspectivesProto s;
     startScopeProto := startScopeProto s;
     pollScopeProto := pollScopeProto s |}.

Definition with_perspectivesProto (v : Proto) (s : State) : State :=
  {| stage := stage s; progress := progress s; error := error s;
     results := results s; pollRef := pollRef s;
     perspectivesByColor := perspectivesByColor s; wsRef := wsRef s;
     selectedPerspectives := selectedPerspectives s;
     cacheAvailable := cacheAvailable s;
     cacheSnapshotRef := cacheSnapshotRef s; showChart := showChart s;
     revealedColors := revealedColors s;
     chartFullyLoaded := chartFullyLoaded s; startScope := startScope s;
     pollScope := pollScope s; perspectivesProto := v;
     startScopeProto := startScopeProto s;
     pollScopeProto := pollScopeProto s |}.

Definition with_startScopeProto (v : Proto) (s : State) : State :=
  {| stage := stage s; progress := progress s; error := error s;
     results := results s; pollRef := pollRef s;
     perspectivesByColor := perspectivesByColor s; wsRef := wsRef s;
     selectedPerspectives := selectedPerspectives s;
     cacheAvailable := cacheAvailable s;
     cacheSnapshotRef := cacheSnapshotRef s; showChart := showChart s;
     revealedColors := revealedColors s;
     chartFullyLoaded := chartFullyLoaded s; startScope := startScope s;
     pollScope := pollScope s; perspectivesProto := perspectivesProto s;
     startScopeProto := v; pollScopeProto := pollScopeProto s |}.

Definition with_pollScopeProto (v : Proto) (s : State) : State :=
  {| stage := stage s; progress := progress s; error := error s;
     results := results s; pollRef := pollRef s;
     perspectivesByColor := perspectivesByColor s; wsRef := wsRef s;
     selectedPerspectives := selectedPerspectives s;
     cacheAvailable := cacheAvailable s;
     cacheSnapshotRef := cacheSnapshotRef s; showChart := showChart s;
     revealedColors := revealedColors s;
     chartFullyLoaded := chartFullyLoaded s; startScope := startScope s;
     pollScope := pollScope s; perspectivesProto := perspectivesProto s;
     startScopeProto := startScopeProto s; pollScopeProto := v |}.

(** ** Effects and the handler monad *)

Inductive Level : Type := Warn | Error.

(** What a handler does besides writing state. [console.log] tracing is
    left out; warnings and errors are kept. *)
Inductive Effect : Type :=
| WsClose            (* wsRef.current.close() *)
| WsOpen             (* new WebSocket(ORCH_WS) *)
| PostRun            (* fetch(ORCH_HTTP/run, POST) *)
| SetInterval        (* setInterval(..., 2000) *)
| ClearInterval      (* clearInterval(pollRef.current) *)
| FetchResults       (* fetchResults() *)
| Console (level : Level).

(** A handler reads and writes the state and appends to a log; each logged
    effect carries the state written so far when it was issued. *)
Definition M (A : Type) : Type := State -> A * State * list (Effect * State).

Definition ret {A} (a : A) : M A := fun s => (a, s, []).

Definition bind {A B} (m : M A) (k : A -> M B) : M B :=
  fun s =>
    let '(a, s1, l1) := m s in
    let '(b, s2, l2) := k a s1 in
    (b, s2, l1 ++ l2).

Definition get : M State := fun s => (s, s, []).
Definition modify (f : State -> State) : M unit := fun s => (tt, f s, []).
Definition emit (e : Effect) : M unit := fun s => (tt, s, [(e, s)]).

Declare Scope handler_scope.
Delimit Scope handler_scope with handler.
Notation "x <- m ;; k" := (bind m (fun x => k))
  (at level 61, m at next level, right associativity) : handler_scope.
Notation "m ;; k" := (bind m (fun _ => k))
  (at level 61, right associativity) : handler_scope.
Local Open Scope handler_scope.

Definition exec {A} (m : M A) (s : State) : State := snd (fst (m s)).
Definition value {A} (m : M A) (s : State) : A := fst (fst (m s)).
Definition effects {A} (m : M A) (s : State) : list (Effect * State) :=
  snd (m s).

Fixpoint forEach {A} (l : list A) (f : A -> M unit) : M unit :=
  match l with
  | [] => ret tt
  | x :: r => f x ;; forEach r f
  end.

(** The React setters; a functional updater is applied to the state
    written so far. *)
Definition setStage (v : string) : M unit := modify (with_stage v).
Definition setProgress (v : Z) : M unit := modify (with_progress v).
Definition setError (v : option string) : M unit := modify (with_error v).
Definition setResults (v : option Results) : M unit :=
  modify (with_results v).
(** [setPerspectivesByColor] with an object literal or with an updater
    that returns one, as every call but that of [loadCache] has it: the new
    object has [Object.prototype]. *)
Definition setPerspectivesByColor (f : ColorMap -> ColorMap) : M unit :=
  modify (fun s =>
            with_perspectivesProto Prototype.Plain
              (with_perspectivesByColor (f (perspectivesByColor s)) s)).
(** [setPerspectivesByColor(byColor)] with an object built by assignments,
    which may have replaced its prototype. *)
Definition setPerspectivesObject (byColor : ColorMap * Proto) : M unit :=
  modify (fun s =>
            with_perspectivesProto (snd byColor)
              (with_perspectivesByColor (fst byColor) s)).
Definition setSelectedPerspectives (v : list Perspective) : M unit :=
  modify (with_selectedPerspectives v).
Definition setCacheAvailable (v : bool) : M unit :=
  modify (with_cacheAvailable v).
Definition setShowChart (v : bool) : M unit := modify (with_showChart v).
Definition setRevealedColors (f : list string -> list string) : M unit :=
  modify (fun s => with_revealedColors (f (revealedColors s)) s).
Definition setChartFullyLoaded (v : bool) : M unit :=
  modify (with_chartFullyLoaded v).

(** [rc.includes(c)]. *)
Definition includes (c : string) (rc : list string) : bool :=
  existsb (String.eqb c) rc.

(** ** Handlers *)

(** [beginPolling]: re-arm the status interval; the callback it installs
    closes over the caller's render. *)
Definition beginPolling : M unit :=
  emit ClearInterval ;;
  modify (fun s =>
            with_pollScopeProto (startScopeProto s)
              (with_pollScope (startScope s) (with_pollRef true s))) ;;
  emit SetInterval.

(** [clearInterval(pollRef.current)]. *)
Definition clearPolling : M unit :=
  emit ClearInterval ;; modify (with_pollRef false).

(** The stages from which a run may be started. *)
Definition runnable (st : string) : bool :=
  String.eqb st "idle" || String.eqb st "error" || String.eqb st "done".

(** [startPipeline]. The guard
    [stage !== 'idle' && stage !== 'error' && stage !== 'done'] is
    [negb (runnable stage)]. [wsThrows] is the message of the exception
    thrown by the WebSocket constructor, if it throws. The first write
    records which [perspectivesByColor] the closures of this call see. *)
Definition startPipeline (wsThrows : option string) : M unit :=
  s <- get ;;
  if negb (runnable (stage s)) then ret tt
  else
    modify (fun st =>
              with_startScopeProto (perspectivesProto s)
                (with_startScope (perspectivesByColor s) st)) ;;
    setError None ;;
    setResults None ;;
    setProgress 0 ;;
    setStage "queued" ;;
    setPerspectivesByColor (fun _ => JsObject.empty) ;;
    modify (with_cacheSnapshotRef None) ;;
    setCacheAvailable false ;;
    setSelectedPerspectives [] ;;
    setShowChart false ;;
    setRevealedColors (fun _ => []) ;;
    (if wsRef s then emit WsClose else ret tt) ;;
    match wsThrows with
    | None => emit WsOpen ;; modify (with_wsRef true)
    | Some message =>
        emit (Console Error) ;;
        setError (Some ("WebSocket initialization error: " ++ message)%string) ;;
        beginPolling
    end.

(** [ws.onopen]: trigger the pipeline through [/run]. *)
Definition ws_onopen : M unit := emit PostRun.

(** The continuation of the [/run] request. *)
Definition runResponse (r : RunResponse) : M unit :=
  match r with
  | RunOk => beginPolling
  | RunNotOk status =>
      emit (Console Error) ;;
      setError (Some ("Pipeline start failed: " ++ status)%string)
  | RunFailed message =>
      emit (Console Error) ;;
      setError (Some ("Cannot reach orchestrator: " ++ message)%string)
  end.

(** [ws.onmessage] of the socket opened by [startPipeline]. *)
Definition ws_onmessage (d : WsData) : M unit :=
  match d with
  | Unparseable => emit (Console Warn)
  | Parsed data =>
      if truthy (m_color data) && isArray (m_perspectives data) then
        let color := propertyKey (m_color data) in
        setPerspectivesByColor
          (fun prev =>
             JsObject.spreadSet prev color (elements (m_perspectives data))) ;;
        setRevealedColors
          (fun rc => if includes color rc then rc else rc ++ [color])
      else if fieldIs (m_type data) "ping" then ret tt
      else emit (Console Warn)
  end.

(** [ws.onmessage] of a socket opened by the reconnect effect: the same
    merge, without the reveal. *)
Definition reconnect_onmessage (d : WsData) : M unit :=
  match d with
  | Unparseable => emit (Console Warn)
  | Parsed data =>
      if truthy (m_color data) && isArray (m_perspectives data) then
        let color := propertyKey (m_color data) in
        setPerspectivesByColor
          (fun prev =>
             JsObject.spreadSet prev color (elements (m_perspectives data)))
      else if fieldIs (m_type data) "ping" then ret tt
      else emit (Console Warn)
  end.

(** [ws.onerror]: records the error, leaves the stage alone. *)
Definition ws_onerror (message : option string) : M unit :=
  emit (Console Error) ;;
  setError
    (Some ("WebSocket error: " ++
           (if truthy message then propertyKey message
            else "Connection failed"))%string).

(** [a.length !== n] for a length that may be [undefined]. *)
Definition lengthDiffers (a : option nat) (n : nat) : bool :=
  match a with
  | Some m => negb (m =? n)%nat
  | None => true
  end.

(** The cache branch of the interval callback: every non-empty array of
    the cache whose length differs from the length of what the callback's
    closure finds under that colour, [perspectivesByColor[color] || []],
    replaces the held array; [violet] is then written once more,
    unconditionally. [scope] and [scopeProto] are the own properties and
    the prototype of the object the closure sees. *)
Definition applyCacheEntry (scope : ColorMap) (scopeProto : Proto)
  (e : string * JsonValue) : M unit :=
  let '(color, perspectives) := e in
  if isArray perspectives && (0 <? List.length (elements perspectives))%nat then
    let existingPerspectives :=
      Prototype.orEmptyArray (Prototype.lookup color scope scopeProto) in
    if lengthDiffers (Prototype.lengthOf existingPerspectives)
                     (List.length (elements perspectives))
    then setPerspectivesByColor
           (fun prev => JsObject.spreadSet prev color (elements perspectives))
    else ret tt
  else ret tt.

Definition applyCache (cacheData : CacheData) : M unit :=
  s <- get ;;
  forEach cacheData (applyCacheEntry (pollScope s) (pollScopeProto s)) ;;
  match JsObject.get "violet" cacheData with
  | Some v =>
      if isArray v && (0 <? List.length (elements v))%nat then
        setPerspectivesByColor
          (fun prev => JsObject.spreadSet prev "violet" (elements v))
      else ret tt
  | None => ret tt
  end.

Definition orElse {A} (o : option A) (d : A) : A :=
  match o with Some a => a | None => d end.

Definition stageOf (data : StatusData) : string :=
  if truthy (st_stage data) then propertyKey (st_stage data) else "idle".

Definition stageIs (data : StatusData) (name : string) : bool :=
  fieldIs (st_stage data) name.

(** The status part, the cache part and the terminal part of the interval
    callback, in the order in which the callback runs them. *)
Definition pollStatus (data : StatusData) : M unit :=
  setStage (stageOf data) ;;
  setProgress (orElse (st_progress data) 0).

Definition pollCache (data : StatusData) (cache : CacheResponse) : M unit :=
  if stageIs data "module3" && (0 <? orElse (st_progress data) 0) then
    match cache with
    | CacheOk cacheData => applyCache cacheData
    | CacheNotOk => ret tt
    | CacheFailed => emit (Console Warn)
    end
  else ret tt.

Definition pollTerminal (data : StatusData) : M unit :=
  if truthy (st_error data) then
    setError (st_error data) ;;
    clearPolling ;;
    setStage "error"
  else if stageIs data "done" then
    clearPolling ;;
    emit FetchResults
  else ret tt.

Definition pollTick (r : PollResponse) : M unit :=
  match r with
  | PollFailed message =>
      emit (Console Warn) ;;
      setError (Some ("Cannot reach orchestrator: " ++ message)%string)
  | PollOk data cache =>
      pollStatus data ;;
      pollCache data cache ;;
      pollTerminal data
  end.

(** One step of the grouping of the final results by [p.color]:
    [if (!byColor[color]) byColor[color] = []; byColor[color].push(p)].
    The object [byColor] starts as [{}] and keeps [Object.prototype]. Under
    a colour that is no own key but names a member of [Object.prototype],
    the read finds that member, which is truthy and has no [push]: the call
    throws a [TypeError] ([None]). *)
Definition groupStep (byColor : ColorMap) (p : Perspective)
  : option ColorMap :=
  let color := propertyKey (p_color p) in
  let found := Prototype.lookup color byColor Prototype.Plain in
  if Prototype.truthy found then
    match found with
    | Prototype.AnArray held =>
        Some (JsObject.set color (held ++ [p]) byColor)
    | _ => None
    end
  else Some (JsObject.set color [p] byColor).

(** [data.perspectives.forEach(...)]: the grouping stops at the first
    perspective for which the step throws. *)
Definition groupByColor (ps : list Perspective) : option ColorMap :=
  fold_left
    (fun acc p =>
       match acc with
       | Some byColor => groupStep byColor p
       | None => None
       end)
    ps (Some JsObject.empty).

(** The continuation of [fetchResults]. An exception of the grouping is
    caught with the failures of the request: the results stay set, the
    per-colour state is not replaced and the message becomes the error. *)
Definition resultsResponse (r : ResultsResponse) : M unit :=
  match r with
  | ResultsFailed message =>
      emit (Console Error) ;; setError (Some message)
  | ResultsOk data typeError =>
      setResults (Some data) ;;
      match r_perspectives data with
      | Some ps =>
          match groupByColor ps with
          | Some byColor => setPerspectivesByColor (fun _ => byColor)
          | None => emit (Console Error) ;; setError (Some typeError)
          end
      | None => ret tt
      end
  end.

(** The object [loadCache] builds from a cache snapshot: each non-empty
    array is assigned under its key, [byColor[color] = arr]. The result is
    given by its own properties and its prototype: an array under the key
    [__proto__] becomes the prototype and leaves no key. *)
Definition nonEmptyArrays (cacheData : CacheData) : ColorMap * Proto :=
  fold_left
    (fun byColor e =>
       if isArray (snd e) && (0 <? List.length (elements (snd e)))%nat
       then Prototype.assign (fst e) (elements (snd e)) byColor
       else byColor)
    cacheData (JsObject.empty, Prototype.Plain).

(** The cache probe run once on mount. *)
Definition cacheProbe (r : CacheResponse) : M unit :=
  match r with
  | CacheOk data =>
      if existsb
           (fun e => isArray (snd e) && (0 <? List.length (elements (snd e)))%nat)
           data
      then modify (with_cacheSnapshotRef (Some data)) ;; setCacheAvailable true
      else ret tt
  | _ => ret tt
  end.

(** [loadCache]. *)
Definition loadCache : M unit :=
  s <- get ;;
  match cacheSnapshotRef s with
  | None => ret tt
  | Some snapshot =>
      setPerspectivesObject (nonEmptyArrays snapshot) ;;
      setStage "module3" ;;
      setProgress 95
  end.

(** The timer that mounts the chart, armed while the chart is hidden and
    some colour is known. *)
Definition showChartTimer : M unit :=
  s <- get ;;
  if negb (showChart s)
     && (0 <? List.length (JsObject.keys (perspectivesByColor s)))%nat
  then setShowChart true
  else ret tt.

(** The colour the progressive reveal effect schedules, if any. *)
Definition nextReveal (s : State) : option string :=
  if negb (showChart s) then None
  else
    let allColors := JsObject.keys (perspectivesByColor s) in
    if (List.length allColors =? 0)%nat then None
    else if (List.length allColors <=? List.length (revealedColors s))%nat then None
    else
      match hd_error (filter (fun c => negb (includes c (revealedColors s)))
                             allColors) with
      | Some next => if truthy (Some next) then Some next else None
      | None => None
      end.

(** The 500 ms reveal timer; returns the colour it reveals. *)
Definition revealTick : M (option string) :=
  s <- get ;;
  match nextReveal s with
  | None => ret None
  | Some next =>
      setRevealedColors
        (fun rc => if includes next rc then rc else rc ++ [next]) ;;
      ret (Some next)
  end.

(** The timer that marks the chart fully loaded. *)
Definition chartLoadedTimer : M unit :=
  s <- get ;;
  let allColors := JsObject.keys (perspectivesByColor s) in
  if showChart s && negb (List.length allColors =? 0)%nat
     && (List.length allColors <=? List.length (revealedColors s))%nat
  then setChartFullyLoaded true
  else ret tt.

(** ** Derived values *)

(** One step of the filter,
    [if (perspectivesByColor[c]) obj[c] = perspectivesByColor[c]], on the
    own properties of [obj]. The read goes through the prototype chain, so
    that the value stored need not be an array. For [c = '__proto__'] the
    assignment runs the setter of [Object.prototype] and creates no
    property; the prototype of [obj] is not kept here, the chart reading
    its input through [Object.entries] and [Object.keys] only. *)
Definition pickRevealed (held : ColorMap) (proto : Proto)
  (obj : JsObject.t Found) (c : string) : JsObject.t Found :=
  let v := Prototype.lookup c held proto in
  if Prototype.truthy v then
    if String.eqb c "__proto__" then obj else JsObject.set c v obj
  else obj.

(** [chartPerspectives]: the object handed to the chart. *)
Definition chartPerspectives (s : State) : JsObject.t Found :=
  if negb (showChart s) then JsObject.empty
  else
    fold_left (pickRevealed (perspectivesByColor s) (perspectivesProto s))
              (revealedColors s) JsObject.empty.

(** [totalPerspectives]. *)
Definition totalPerspectives (s : State) : nat :=
  fold_left (fun acc e => (acc + List.length (snd e))%nat)
            (perspectivesByColor s) 0%nat.

(** ** Runs *)

Inductive Event : Type :=
| Start (wsThrows : option string)
| WsOpened
| RunAnswered (r : RunResponse)
| WsFrame (d : WsData)
| WsReconnectMessage (d : WsData)
| WsError (message : option string)
| PollFired (r : PollResponse)
| ResultsAnswered (r : ResultsResponse)
| CacheProbed (r : CacheResponse)
| LoadCache
| ShowChartTimer
| RevealTimer
| ChartLoadedTimer
| SelectionChanged (sel : list Perspective).

(** Events are handled one at a time. Socket events need a held socket, the
    interval callback an armed interval. *)
Definition handle (e : Event) : M unit :=
  match e with
  | Start wsThrows => startPipeline wsThrows
  | WsOpened => s <- get ;; if wsRef s then ws_onopen else ret tt
  | RunAnswered r => runResponse r
  | WsFrame d => s <- get ;; if wsRef s then ws_onmessage d else ret tt
  | WsReconnectMessage d =>
      s <- get ;; if wsRef s then reconnect_onmessage d else ret tt
  | WsError message =>
      s <- get ;; if wsRef s then ws_onerror message else ret tt
  | PollFired r => s <- get ;; if pollRef s then pollTick r else ret tt
  | ResultsAnswered r => resultsResponse r
  | CacheProbed r => cacheProbe r
  | LoadCache => loadCache
  | ShowChartTimer => showChartTimer
  | RevealTimer => revealTick ;; ret tt
  | ChartLoadedTimer => chartLoadedTimer
  | SelectionChanged sel => setSelectedPerspectives sel
  end.

Definition run (es : list Event) (s : State) : State :=
  fold_left (fun st e => exec (handle e) st) es s.

Inductive reachable : State -> Prop :=
| reachable_init : reachable initialState
| reachable_step e s : reachable s -> reachable (exec (handle e) s).

End Pipeline.


(* ================================================================== *)
(** * The card grid ([ExpandablePerspectiveCards]) *)
(* ================================================================== *)

Module Cards.

(** The spectral order by which the grid sorts its cards. *)
Definition order : list string :=
  ["red"; "orange"; "yellow"; "green"; "teal"; "blue"; "indigo"; "violet";
   "purple"].

(** [order.indexOf(c)], [None] for -1. *)
Fixpoint indexOf (c : string) (l : list string) : option nat :=
  match l with
  | [] => None
  | x :: r =>
      if String.eqb x c then Some 0%nat
      else match indexOf c r with Some i => Some (S i) | None => None end
  end.

(** Unknown colours go last. *)
Definition idx (c : string) : nat :=
  match indexOf c order with
  | Some i => i
  | None => (List.length order + 1)%nat
  end.

End Cards.


(* ================================================================== *)
(** * The significance explanation ([buildSignificanceExplanation]) *)
(* ================================================================== *)

Module Significance.

Local Open Scope R_scope.

(** [Math.pow(x, y)] on the part of its domain the helper reaches: a base
    that is zero or positive and a positive exponent. JavaScript numbers
    are idealised as real numbers. *)
Definition Math_pow (x y : R) : R :=
  if Req_dec_T x 0 then 0 else Rpower x y.

(** The exponent 2.8. *)
Definition exponent : R := 28 / 10.

Record Explanation : Type := {
  N : Z;
  s : R;
  raw : R;
  forward : Z;
  derived : bool
}.

(** The inversion of [N = ceil(128 * s^2.8 + 8)] used when no significance
    is supplied: [Math.pow(Math.max(0, N - 8) / 128, 1 / 2.8)]. *)
Definition inferSignificance (N : Z) : R :=
  Math_pow (Rmax 0 (IZR N - 8) / 128) (1 / exponent).

(** [inputSignificance] is [Some x] when it is a number other than NaN.
    In the derived branch the real numbers give [raw = N] and
    [forward = N] for [N >= 8], where the rounding of the two
    floating-point powers can leave [raw] just above [N] and [forward] at
    [N + 1]: the [raw] and [forward] of that branch stand for the exact
    values only, and nothing below is stated about them. *)
Definition buildSignificanceExplanation
  (totalPerspectives : Z) (inputSignificance : option R)
  : option Explanation :=
  if (totalPerspectives =? 0)%Z then None
  else
    let N := totalPerspectives in
    let s :=
      match inputSignificance with
      | Some x => Rmin 1 (Rmax 0 x)
      | None => inferSignificance N
      end in
    let derived :=
      match inputSignificance with Some _ => false | None => true end in
    let raw := 128 * Math_pow s exponent + 8 in
    Some {| N := N; s := s; raw := raw; forward := Zceil raw;
            derived := derived |}.

End Significance.


(* ================================================================== *)
(** * The quota allocator of the stratified reducer *)
(* ================================================================== *)

Module Quota.

Inductive Band : Type := Left | Common | Right.

Definition bands : list Band := [Left; Common; Right].

Definition Band_eqb (a b : Band) : bool :=
  match a, b with
  | Left, Left | Common, Common | Right, Right => true
  | _, _ => false
  end.

(** [map[Band]int]: a band is absent where the map is [None]. *)
Definition BandSizes : Type := Band -> option Z.
Definition SelectionQuota : Type := Band -> option Z.

Definition present (m : Band -> option Z) (b : Band) : bool :=
  match m b with Some _ => true | None => false end.

Definition valueAt (m : Band -> option Z) (b : Band) : Z :=
  match m b with Some n => n | None => 0 end.

Definition sumOver (f : Band -> Z) : Z :=
  fold_right (fun b acc => f b + acc) 0 bands.

Definition totalPopulation (bandSizes : BandSizes) : Z :=
  sumOver (valueAt bandSizes).

(** [sum(quotas)]. *)
Definition sumQuota (q : SelectionQuota) : Z := sumOver (valueAt q).

(** [round] of the fraction [n / d], [d > 0]: to the nearest integer, a
    tie going to the even neighbour. *)
Definition roundFraction (n d : Z) : Z :=
  let fl := n / d in
  let r := n mod d in
  if 2 * r <? d then fl
  else if d <? 2 * r then fl + 1
  else if Z.even fl then fl else fl + 1.

(** The fractional remainder of [raw[b] = bandSizes[b] / total * k], in
    units of [1 / total]. *)
Definition remainder (bandSizes : BandSizes) (k : Z) (b : Band) : Z :=
  (valueAt bandSizes b * k) mod totalPopulation bandSizes.

(** A band may take the adjustment when its quota stays within
    [[0, bandSizes[b]]]. *)
Definition eligible (bandSizes : BandSizes) (q : Band -> Z) (delta : Z)
  (b : Band) : bool :=
  present bandSizes b
  && (if 0 <? delta then q b <? valueAt bandSizes b else 0 <? q b).

(** The eligible band with the largest remainder when [delta > 0], with the
    smallest when [delta < 0]; among equals, the first of Left, Common,
    Right. *)
Definition pick (bandSizes : BandSizes) (k : Z) (q : Band -> Z) (delta : Z)
  : option Band :=
  fold_left
    (fun best b =>
       if eligible bandSizes q delta b then
         match best with
         | None => Some b
         | Some b0 =>
             let r := remainder bandSizes k b in
             let r0 := remainder bandSizes k b0 in
             if (if 0 <? delta then r0 <? r else r <? r0) then Some b
             else Some b0
         end
       else best)
    bands None.

Definition adjust (b : Band) (d : Z) (q : Band -> Z) : Band -> Z :=
  fun b' => if Band_eqb b' b then q b' + d else q b'.

(** Step 3: while [delta != 0], move one unit at a time. *)
Fixpoint rebalance (fuel : nat) (bandSizes : BandSizes) (k : Z)
  (q : Band -> Z) (delta : Z) : Band -> Z :=
  match fuel with
  | O => q
  | S fuel' =>
      if delta =? 0 then q
      else
        match pick bandSizes k q delta with
        | None => q
        | Some b =>
            let d := if 0 <? delta then 1 else -1 in
            rebalance fuel' bandSizes k (adjust b d q) (delta - d)
        end
  end.

Record Allocation : Type := {
  quotas : SelectionQuota;
  truncated : bool
}.

(** Modelled from the spec: the stratified reducer
    ([TOP-N_K_MEANS-CLUSTERING.py], named in the view's explanation text)
    is not among the sources. [allocate] follows the four steps of the
    QuotaAllocator contract: raw shares [bandSizes[b] / total * k], initial
    quotas [round(raw[b])], rebalancing by fractional remainder until the
    difference to [k] is zero, and, when [k >= total], every band's quota
    equal to its population, flagged as truncated when [k] exceeds the
    population. *)
Definition allocate (bandSizes : BandSizes) (k : Z) : Allocation :=
  let total := totalPopulation bandSizes in
  if total <=? k then
    {| quotas := bandSizes; truncated := total <? k |}
  else
    let q0 := fun b =>
      if present bandSizes b
      then roundFraction (valueAt bandSizes b * k) total else 0 in
    let delta := k - sumOver q0 in
    let q := rebalance (Z.abs_nat delta) bandSizes k q0 delta in
    {| quotas := fun b => if present bandSizes b then Some (q b) else None;
       truncated := false |}.

(** The map literal [{Left: l, Common: c, Right: r}]. *)
Definition bandMap (l c r : Z) : Band -> option Z :=
  fun b => match b with Left => Some l | Common => Some c | Right => Some r end.

(** Quotas stay within [[0, bandSizes[b]]]. *)
Definition within (bandSizes : BandSizes) (q : Band -> Z) : Prop :=
  forall b, 0 <= q b <= valueAt bandSizes b.

End Quota.


(* ================================================================== *)
(** * Readings of the state used in the statements *)
(* ================================================================== *)

Module Views.
Import Pipeline.

(** The cache a firing of the interval callback applies, if any. *)
Definition pulled (r : PollResponse) : CacheData :=
  match r with
  | PollOk data (CacheOk cacheData) =>
      if stageIs data "module3" && (0 <? orElse (st_progress data) 0)
      then cacheData else []
  | _ => []
  end.

(** The number of perspectives held for a colour. *)
Definition count (c : string) (s : State) : nat :=
  List.length (orElse (JsObject.get c (perspectivesByColor s)) []).

(** The ids held anywhere in the state, with repetitions. *)
Definition heldIds (o : ColorMap) : list (option string) :=
  flat_map (fun e => map p_id (snd e)) o.

(** A frame that carries data for a colour. *)
Definition wellFormed (data : WsMessage) : bool :=
  truthy (m_color data) && isArray (m_perspectives data).

Definition malformed (d : WsData) : bool :=
  match d with
  | Unparseable => true
  | Parsed data => negb (wellFormed data)
  end.

(** What a read finds for a colour on an object that has the own
    properties [o] and nothing else under that name. *)
Definition heldAs (o : ColorMap) (c : string) : Found :=
  match JsObject.get c o with
  | Some items => Prototype.AnArray items
  | None => Prototype.Undefined
  end.

(** The interval callback finds for [c] exactly what is held for it. *)
Definition seesHeld (s : State) (c : string) : Prop :=
  Prototype.lookup c (pollScope s) (pollScopeProto s)
  = heldAs (perspectivesByColor s) c.

(** An entry of the cache that the interval callback writes. *)
Definition written (scope : ColorMap) (scopeProto : Proto)
  (e : string * JsonValue) : bool :=
  isArray (snd e) && (0 <? List.length (elements (snd e)))%nat
  && lengthDiffers
       (Prototype.lengthOf
          (Prototype.orEmptyArray (Prototype.lookup (fst e) scope scopeProto)))
       (List.length (elements (snd e))).

(** What one cache entry does to the held map. *)
Definition mergeEntry (scope : ColorMap) (scopeProto : Proto)
  (held : ColorMap) (e : string * JsonValue) : ColorMap :=
  if written scope scopeProto e
  then JsObject.set (fst e) (elements (snd e)) held
  else held.

(** Whether the unconditional [violet] write takes place. *)
Definition violetWritten (cacheData : CacheData) : bool :=
  match JsObject.get "violet" cacheData with
  | Some v => isArray v && (0 <? List.length (elements v))%nat
  | None => false
  end.

(** What the unconditional [violet] write does to the held map. *)
Definition mergeViolet (cacheData : CacheData) (held : ColorMap) : ColorMap :=
  match JsObject.get "violet" cacheData with
  | Some v =>
      if isArray v && (0 <? List.length (elements v))%nat
      then JsObject.set "violet" (elements v) held
      else held
  | None => held
  end.

Definition mergeCache (scope : ColorMap) (scopeProto : Proto)
  (cacheData : CacheData) (held : ColorMap) : ColorMap :=
  mergeViolet cacheData
    (fold_left (mergeEntry scope scopeProto) cacheData held).

(** The prototype of the held object after a cache merge: any write
    replaces the object by a spread. *)
Definition mergedProto (scope : ColorMap) (scopeProto : Proto)
  (cacheData : CacheData) (proto : Proto) : Proto :=
  if existsb (written scope scopeProto) cacheData || violetWritten cacheData
  then Prototype.Plain
  else proto.

(** Where the array held for [c] after a cache merge comes from. *)
Definition fromPull (cacheData : CacheData) (c : string)
  (held held' : list Perspective) : Prop :=
  held' = held \/ (held' <> [] /\ In (c, JArray held') cacheData).

(** The state [startPipeline] writes before it touches the socket. *)
Definition isReset (s : State) : Prop :=
  stage s = "queued" /\ progress s = 0 /\ results s = None /\
  perspectivesByColor s = JsObject.empty /\ revealedColors s = [] /\
  showChart s = false /\ selectedPerspectives s = [].

(** The reveal sequence respects the spectral order of the card grid on the
    known colours: no colour is revealed while a known colour of lower
    spectral position is not. *)
Definition spectralPrefix (s : State) : Prop :=
  forall c c',
    In c (revealedColors s) ->
    In c' (JsObject.keys (perspectivesByColor s)) ->
    (Cards.idx c' < Cards.idx c)%nat ->
    In c' (revealedColors s).

End Views.


(* ================================================================== *)
(** * Concrete runs *)
(* ================================================================== *)

Module Scenarios.
Import Pipeline.

Definition perspective (i : string) : Perspective :=
  {| p_id := Some i; p_color := None; p_bias_x := None;
     p_significance_y := None; p_text := None |}.

(** A frame [{color: c, perspectives: ps}]. *)
Definition push (c : string) (ps : list Perspective) : Event :=
  WsFrame
    (Parsed {| m_color := Some c; m_perspectives := JArray ps;
               m_type := None |}).

(** A status body without error. *)
Definition status (st : string) (p : Z) : StatusData :=
  {| st_stage := Some st; st_progress := Some p; st_error := None |}.

Definition five : list Perspective :=
  map perspective ["a"; "b"; "c"; "d"; "e"].
Definition three : list Perspective := map perspective ["a"; "b"; "c"].

(** A run started from idle that received five perspectives for violet and
    for red over the socket. *)
Definition pushedRun : list Event :=
  [Start None; WsOpened; RunAnswered RunOk; push "violet" five;
   push "red" five].

(** A poll during module3 whose cache reports three items per colour. *)
Definition smallerPull : PollResponse :=
  PollOk (status "module3" 50)
         (CacheOk [("violet", JArray three); ("red", JArray three)]).

(** A second run: the first one ended with five perspectives held for
    red, and the second, started from done, has received the same five
    again; its callbacks see the state the first run left. *)
Definition secondRun : list Event :=
  [Start None; WsOpened; RunAnswered RunOk; push "red" five;
   PollFired (PollOk (status "done" 100) CacheNotOk);
   Start None; WsOpened; RunAnswered RunOk; push "red" five].

(** Two pushes for red, the second without the first one's perspective,
    then the same perspective delivered again under blue. *)
Definition redelivery : list Event :=
  [Start None; WsOpened; RunAnswered RunOk; push "red" [perspective "a"];
   push "red" [perspective "b"]; push "blue" [perspective "b"]].

(** A run in which the first poll of module3 finds violet and red in the
    cache, in this order, and the chart is then mounted. *)
Definition cachedRun : list Event :=
  [Start None; WsOpened; RunAnswered RunOk;
   PollFired
     (PollOk (status "module3" 50)
             (CacheOk [("violet", JArray three);
                       ("red", JArray three)]));
   ShowChartTimer].

(** A perspective of a colour with both coordinates. *)
Definition plotted (i c : string) (x y : Q) : Perspective :=
  {| p_id := Some i; p_color := Some c; p_bias_x := Some x;
     p_significance_y := Some y; p_text := None |}.

(** A run that receives two red perspectives over the socket, after which
    the chart is mounted. *)
Definition chartRun : list Event :=
  [Start None; WsOpened; RunAnswered RunOk;
   push "red" [plotted "a" "red" (1 # 4) (3 # 4);
               plotted "b" "red" (1 # 2) (1 # 2)];
   ShowChartTimer].

(** A run that receives a frame for a colour named [constructor] and
    reveals it, and mounts the chart; the final results, one red
    perspective, then replace the per-colour state. *)
Definition inheritedKeyRun : list Event :=
  [Start None; WsOpened; RunAnswered RunOk; push "constructor" three;
   ShowChartTimer;
   PollFired (PollOk (status "done" 100) CacheNotOk);
   ResultsAnswered
     (ResultsOk {| r_perspectives := Some [plotted "r" "red" (1 # 4) (3 # 4)];
                   r_input_significance := None; r_significance := None |}
                "byColor[color].push is not a function")].

(** A status answer that reports a failure during module2. *)
Definition failedStatus : StatusData :=
  {| st_stage := Some "module2"; st_progress := Some 40;
     st_error := Some "generation failed" |}.

End Scenarios.


(* ================================================================== *)
(** * The cards of the grid *)
(* ================================================================== *)

Module CardGrid.
Import Pipeline.

(** The table [map] of [colorGradient]. *)
Definition gradientTable : JsObject.t (string * string) :=
  [("red", ("#ff5f6d", "#ffc371"));
   ("orange", ("#ff8008", "#ffc837"));
   ("yellow", ("#f7971e", "#ffd200"));
   ("green", ("#11998e", "#38ef7d"));
   ("blue", ("#396afc", "#2948ff"));
   ("indigo", ("#4776e6", "#8e54e9"));
   ("violet", ("#7f00ff", "#e100ff"));
   ("purple", ("#6441A5", "#2a0845"));
   ("teal", ("#136a8a", "#267871"))].

(** [colorGradient]: the two stops [g[0]] and [g[1]] of
    [g = map[color] || fallback]. For a colour that the table does not
    list and that names a member of [Object.prototype], the read finds
    that member, which is truthy and has no elements: both stops are then
    [undefined] and print as such. *)
Definition gradientStops (color : string) : string * string :=
  match JsObject.get color gradientTable with
  | Some g => g
  | None =>
      if Prototype.truthy
           (Prototype.inherited (@Prototype.Plain Perspective) color)
      then ("undefined", "undefined")
      else ("#434343", "#000000")
  end.

Definition colorGradient (color : string) : string :=
  let g := gradientStops color in
  ("linear-gradient(135deg, " ++ fst g ++ ", " ++ snd g ++ ")")%string.

(** One card of the grid. The title, [colorLabel(color)], is left out: it
    upper-cases the first UTF-16 unit of the colour and plays no part in
    the order of the cards. *)
Record Card : Type := {
  card_color : string;
  card_count : nat;
  card_items : list Perspective;
  card_gradient : string
}.

Definition toCard (e : string * list Perspective) : Card :=
  {| card_color := fst e; card_count := List.length (snd e);
     card_items := snd e; card_gradient := colorGradient (fst e) |}.

(** The comparator [(a, b) => idx(a.color) - idx(b.color)] puts [a] first
    when its position is not greater. *)
Definition before (a b : Card) : bool :=
  (Cards.idx (card_color a) <=? Cards.idx (card_color b))%nat.

(** [Array.prototype.sort] is stable; with this comparator its result is
    the stable sort by spectral position, computed here by insertion. *)
Fixpoint insertCard (a : Card) (l : list Card) : list Card :=
  match l with
  | [] => [a]
  | b :: r => if before a b then a :: l else b :: insertCard a r
  end.

Fixpoint sortCards (l : list Card) : list Card :=
  match l with
  | [] => []
  | a :: r => insertCard a (sortCards r)
  end.

(** The [cards] memo:
    [Object.entries(perspectivesByColor).map(...).sort(...)]. *)
Definition cards (perspectivesByColor : ColorMap) : list Card :=
  sortCards (map toCard perspectivesByColor).

(** The spectral position of a card. *)
Definition position (a : Card) : nat := Cards.idx (card_color a).

End CardGrid.


(* ================================================================== *)
(** * The scatter chart ([StreamingBiasSignificanceMotionChart]) *)
(* ================================================================== *)

Module Chart.
Import Pipeline.

(** A plotted point. [pt_id] is [p.id || p.text]; [None] stands for the
    random string the chart draws when both are missing or empty. *)
Record Point : Type := {
  pt_id : option string;
  pt_x : Q;
  pt_y : Q;
  pt_color : string;
  pt_text : string
}.

Definition firstTruthy (a b : option string) : option string :=
  if truthy a then a else if truthy b then b else None.

(** The points of one entry: a perspective is plotted when both of its
    coordinates are numbers and its colour is not hidden. *)
Definition pointsOf (hiddenColors : list string)
  (e : string * list Perspective) : list Point :=
  flat_map
    (fun p =>
       match p_bias_x p, p_significance_y p with
       | Some x, Some y =>
           if includes (fst e) hiddenColors then []
           else [{| pt_id := firstTruthy (p_id p) (p_text p);
                    pt_x := x; pt_y := y; pt_color := fst e;
                    pt_text := if truthy (p_text p)
                               then propertyKey (p_text p) else "" |}]
       | _, _ => []
       end)
    (snd e).

(** [flat.slice(-maxPoints)]: the last [maxPoints] elements; [slice(-0)]
    is [slice(0)], the whole array. *)
Definition sliceLast {A} (maxPoints : nat) (flat : list A) : list A :=
  if (maxPoints =? 0)%nat then flat
  else skipn (List.length flat - maxPoints) flat.

Definition flatPoints (perspectivesByColor : ColorMap)
  (hiddenColors : list string) : list Point :=
  flat_map (pointsOf hiddenColors) perspectivesByColor.

(** The [points] memo. *)
Definition points (perspectivesByColor : ColorMap)
  (hiddenColors : list string) (maxPoints : nat) : list Point :=
  sliceLast maxPoints (flatPoints perspectivesByColor hiddenColors).

(** [toggleColor] on the set of hidden colours, kept as the list of its
    members in insertion order. *)
Definition toggleColor (color : string) (hiddenColors : list string)
  : list string :=
  if includes color hiddenColors
  then filter (fun c => negb (String.eqb c color)) hiddenColors
  else hiddenColors ++ [color].

(** The default of the [maxPoints] property. *)
Definition defaultMaxPoints : nat := 2500.

(** The entries of the object the view hands over, as [(arr || [])] takes
    them: a falsy value counts as the empty array, and a truthy value that
    is no array has no [forEach], so that the call throws a [TypeError]
    ([None]). *)
Fixpoint arraysOf (input : JsObject.t Found) : option ColorMap :=
  match input with
  | [] => Some []
  | (color, v) :: r =>
      match
        (if Prototype.truthy v
         then match v with
              | Prototype.AnArray items => Some items
              | _ => None
              end
         else Some []),
        arraysOf r
      with
      | Some items, Some o => Some ((color, items) :: o)
      | _, _ => None
      end
  end.

(** The [points] memo on the object the view hands over. *)
Definition pointsOfInput (input : JsObject.t Found)
  (hiddenColors : list string) (maxPoints : nat) : option (list Point) :=
  match arraysOf input with
  | Some o => Some (points o hiddenColors maxPoints)
  | None => None
  end.

End Chart.


(* ================================================================== *)
(** * Further readings of runs *)
(* ================================================================== *)

Module RunViews.
Import Pipeline Views.

(** The test of the cache probe:
    [Object.values(data).some(v => Array.isArray(v) && v.length)]. *)
Definition hasAny (data : CacheData) : bool :=
  existsb (fun e => isArray (snd e) && (0 <? List.length (elements (snd e)))%nat)
          data.

(** Events that stream data or advance timers within a run: all but a
    start, the answer of the results request and the loading of a cache
    snapshot. *)
Definition streaming (e : Event) : bool :=
  match e with
  | Start _ | ResultsAnswered _ | LoadCache => false
  | _ => true
  end.

(** Every [SetInterval] of a log directly follows a [ClearInterval]. *)
Fixpoint armsGuarded (cleared : bool) (l : list Effect) : bool :=
  match l with
  | [] => true
  | ClearInterval :: r => armsGuarded true r
  | SetInterval :: r => cleared && armsGuarded false r
  | _ :: r => armsGuarded false r
  end.

(** [n] firings of the reveal timer. *)
Fixpoint ticks (n : nat) (s : State) : State :=
  match n with
  | O => s
  | S n' => ticks n' (exec revealTick s)
  end.

(** The keys that are not revealed yet, in key order. *)
Definition unrevealed (s : State) : list string :=
  filter (fun c => negb (includes c (revealedColors s)))
         (JsObject.keys (perspectivesByColor s)).

(** What the reveal needs to run to completion: the chart is mounted, the
    keys are distinct and none is the empty string, and the revealed
    colours are distinct and known. *)
Definition revealing (s : State) : Prop :=
  showChart s = true /\
  NoDup (JsObject.keys (perspectivesByColor s)) /\
  ~ In "" (JsObject.keys (perspectivesByColor s)) /\
  NoDup (revealedColors s) /\
  incl (revealedColors s) (JsObject.keys (perspectivesByColor s)).

(** The failures the view treats as transient: a socket error, a run
    trigger that is refused or does not get through, a status request
    that fails, a results request that fails. *)
Definition transientFailure (e : Event) : bool :=
  match e with
  | WsError _ => true
  | RunAnswered (RunNotOk _) | RunAnswered (RunFailed _) => true
  | PollFired (PollFailed _) => true
  | ResultsAnswered (ResultsFailed _) => true
  | _ => false
  end.

(** A colour under which the grouping of the results can file a
    perspective: no member of [Object.prototype] has its name. *)
Definition groupable (c : string) : bool :=
  negb (Prototype.truthy (Prototype.inherited (@Prototype.Plain Perspective) c)).

(** What a step of the grouping does to [byColor] when it does not
    throw. *)
Definition filed (byColor : ColorMap) (p : Perspective) : ColorMap :=
  let color := propertyKey (p_color p) in
  JsObject.set color (orElse (JsObject.get color byColor) [] ++ [p]) byColor.

(** The number of perspectives an object holds. *)
Definition total (o : ColorMap) : nat :=
  list_sum (map (fun e => List.length (snd e)) o).

(** One step of the loading of a snapshot. *)
Definition keepNonEmpty (byColor : ColorMap * Proto) (e : string * JsonValue)
  : ColorMap * Proto :=
  if isArray (snd e) && (0 <? List.length (elements (snd e)))%nat
  then Prototype.assign (fst e) (elements (snd e)) byColor
  else byColor.

(** The perspectives of a colour among the results, in their order. *)
Definition ofColor (c : string) (ps : list Perspective) : list Perspective :=
  filter (fun p => String.eqb (propertyKey (p_color p)) c) ps.

End RunViews.


(* ================================================================== *)
(** * Facts about objects *)
(* ================================================================== *)

Module JsObjectFacts.
Import JsObject.

Section WithValues.
Context {V : Type}.
Implicit Types (o : t V) (k : string) (v : V).

(** ** Lookup after update *)

Lemma get_replace_same k v o :
  has k o = true -> get k (replace k v o) = Some v.
Proof.
  unfold has. induction o as [|[k' v'] r IH]; simpl; [discriminate|].
  destruct (String.eqb k k') eqn:E; simpl; rewrite E; auto.
Qed.

Lemma get_replace_other k k' v o :
  k' <> k -> get k' (replace k v o) = get k' o.
Proof.
  intros Hne. induction o as [|[k0 v0] r IH]; simpl; [reflexivity|].
  destruct (String.eqb k k0) eqn:E; simpl.
  - apply String.eqb_eq in E. subst k0.
    destruct (String.eqb k' k) eqn:E'; [|reflexivity].
    apply String.eqb_eq in E'. contradiction.
  - rewrite IH. reflexivity.
Qed.

Lemma get_insertIndex_same n k v o :
  has k o = false -> get k (insertIndex n k v o) = Some v.
Proof.
  unfold has. induction o as [|[k' v'] r IH]; simpl; intros H.
  - rewrite String.eqb_refl. reflexivity.
  - destruct (String.eqb k k') eqn:E; [discriminate|].
    destruct (arrayIndex k') as [n'|]; [destruct (n' <? n)%N|];
      simpl; rewrite ?E, ?String.eqb_refl; auto.
Qed.

Lemma get_insertIndex_other n k k' v o :
  k' <> k -> get k' (insertIndex n k v o) = get k' o.
Proof.
  intros Hne. apply String.eqb_neq in Hne.
  induction o as [|[k0 v0] r IH]; simpl.
  - rewrite Hne. reflexivity.
  - destruct (arrayIndex k0) as [n'|]; [destruct (n' <? n)%N|];
      simpl; rewrite ?Hne, ?IH; reflexivity.
Qed.

Lemma get_app_last k k' v o :
  get k' (o ++ [(k, v)]) =
  match get k' o with
  | Some x => Some x
  | None => if String.eqb k' k then Some v else None
  end.
Proof.
  induction o as [|[k0 v0] r IH]; simpl; [reflexivity|].
  destruct (String.eqb k' k0); auto.
Qed.

Lemma get_set_same k v o : get k (set k v o) = Some v.
Proof.
  unfold set. destruct (has k o) eqn:H.
  - apply get_replace_same; assumption.
  - destruct (arrayIndex k).
    + apply get_insertIndex_same; assumption.
    + rewrite get_app_last. unfold has in H.
      destruct (get k o); [discriminate|].
      rewrite String.eqb_refl. reflexivity.
Qed.

Lemma get_set_other k k' v o : k' <> k -> get k' (set k v o) = get k' o.
Proof.
  intros Hne. unfold set. destruct (has k o).
  - apply get_replace_other; assumption.
  - destruct (arrayIndex k).
    + apply get_insertIndex_other; assumption.
    + rewrite get_app_last. apply String.eqb_neq in Hne. rewrite Hne.
      destruct (get k' o); reflexivity.
Qed.

Lemma has_set_same k v o : has k (set k v o) = true.
Proof. unfold has. rewrite get_set_same. reflexivity. Qed.

(** ** Writing the same value twice *)

Lemma replace_get k v o : get k o = Some v -> replace k v o = o.
Proof.
  induction o as [|[k' v'] r IH]; simpl; [reflexivity|].
  destruct (String.eqb k k') eqn:E.
  - intros [= ->]. reflexivity.
  - intros H. rewrite IH; auto.
Qed.

Lemma set_set_same k v o : set k v (set k v o) = set k v o.
Proof.
  unfold set at 1. rewrite has_set_same.
  apply replace_get, get_set_same.
Qed.

(** ** Keys *)

Lemma in_keys_get k o : In k (keys o) <-> has k o = true.
Proof.
  unfold has, keys. induction o as [|[k' v'] r IH]; simpl.
  - split; [tauto|discriminate].
  - destruct (String.eqb k k') eqn:E.
    + apply String.eqb_eq in E. subst. tauto.
    + apply String.eqb_neq in E. split.
      * intros [H|H]; [congruence|]. apply IH, H.
      * intros H. right. apply IH, H.
Qed.

Lemma has_set k k' v o :
  has k' (set k v o) = (String.eqb k' k || has k' o)%bool.
Proof.
  unfold has at 1. destruct (String.eqb k' k) eqn:E.
  - apply String.eqb_eq in E. subst. rewrite get_set_same. reflexivity.
  - apply String.eqb_neq in E. rewrite get_set_other by assumption.
    reflexivity.
Qed.

Lemma in_keys_set k k' v o :
  In k' (keys (set k v o)) <-> k' = k \/ In k' (keys o).
Proof.
  rewrite !in_keys_get, has_set, orb_true_iff, String.eqb_eq. tauto.
Qed.

Lemma keys_replace k v o : keys (replace k v o) = keys o.
Proof.
  unfold keys. induction o as [|[k' v'] r IH]; simpl; [reflexivity|].
  destruct (String.eqb k k'); simpl; congruence.
Qed.

Lemma keys_set_present k v o :
  has k o = true -> keys (set k v o) = keys o.
Proof. intros H. unfold set. rewrite H. apply keys_replace. Qed.

Lemma keys_set_fresh_name k v o :
  has k o = false -> arrayIndex k = None ->
  keys (set k v o) = keys o ++ [k].
Proof.
  intros H Hi. unfold set. rewrite H, Hi. unfold keys.
  rewrite map_app. reflexivity.
Qed.

End WithValues.

End JsObjectFacts.


(* ================================================================== *)
(** * Facts about the handler monad *)
(* ================================================================== *)

Module HandlerFacts.
Import Pipeline Views.
Local Open Scope handler_scope.

Lemma exec_bind {A B} (m : M A) (k : A -> M B) s :
  exec (bind m k) s = exec (k (value m s)) (exec m s).
Proof.
  unfold exec, value, bind. destruct (m s) as [[a s1] l1]. simpl.
  destruct (k a s1) as [[b s2] l2]. reflexivity.
Qed.

Lemma effects_bind {A B} (m : M A) (k : A -> M B) s :
  effects (bind m k) s =
  effects m s ++ effects (k (value m s)) (exec m s).
Proof.
  unfold effects, exec, value, bind. destruct (m s) as [[a s1] l1]. simpl.
  destruct (k a s1) as [[b s2] l2]. reflexivity.
Qed.

Lemma exec_forEach {A} (l : list A) (f : A -> M unit) s :
  exec (forEach l f) s = fold_left (fun st x => exec (f x) st) l s.
Proof.
  revert s. induction l as [|x r IH]; intros s; simpl; [reflexivity|].
  rewrite exec_bind. apply IH.
Qed.

Lemma with_perspectivesByColor_twice o1 o2 s :
  with_perspectivesByColor o1 (with_perspectivesByColor o2 s) =
  with_perspectivesByColor o1 s.
Proof. reflexivity. Qed.

Lemma with_perspectivesByColor_same s :
  with_perspectivesByColor (perspectivesByColor s) s = s.
Proof. destruct s; reflexivity. Qed.

Lemma with_held_same s :
  with_perspectivesProto (perspectivesProto s)
    (with_perspectivesByColor (perspectivesByColor s) s) = s.
Proof. destruct s; reflexivity. Qed.

Lemma with_held_twice p1 o1 p2 o2 s :
  with_perspectivesProto p1
    (with_perspectivesByColor o1
       (with_perspectivesProto p2 (with_perspectivesByColor o2 s)))
  = with_perspectivesProto p1 (with_perspectivesByColor o1 s).
Proof. reflexivity. Qed.

Lemma exec_applyCacheEntry scope scopeProto e s :
  exec (applyCacheEntry scope scopeProto e) s =
  if written scope scopeProto e
  then with_perspectivesProto Prototype.Plain
         (with_perspectivesByColor
            (JsObject.set (fst e) (elements (snd e)) (perspectivesByColor s))
            s)
  else s.
Proof.
  destruct e as [color v]. unfold applyCacheEntry, written. simpl.
  destruct (isArray v && (0 <? List.length (elements v))%nat); simpl;
    [|reflexivity].
  destruct (lengthDiffers _ _); reflexivity.
Qed.

Lemma mergeEntry_written scope scopeProto o e :
  mergeEntry scope scopeProto o e =
  if written scope scopeProto e
  then JsObject.set (fst e) (elements (snd e)) o else o.
Proof. reflexivity. Qed.

Lemma exec_applyCacheEntries scope scopeProto l s :
  fold_left (fun st x => exec (applyCacheEntry scope scopeProto x) st) l s =
  with_perspectivesProto
    (if existsb (written scope scopeProto) l then Prototype.Plain
     else perspectivesProto s)
    (with_perspectivesByColor
       (fold_left (mergeEntry scope scopeProto) l (perspectivesByColor s)) s).
Proof.
  revert s. induction l as [|e r IH]; intros s; simpl.
  - symmetry. apply with_held_same.
  - rewrite IH, exec_applyCacheEntry, mergeEntry_written.
    destruct (written scope scopeProto e); simpl; [|reflexivity].
    destruct (existsb (written scope scopeProto) r); reflexivity.
Qed.

Lemma exec_applyCache cacheData s :
  exec (applyCache cacheData) s =
  with_perspectivesProto
    (mergedProto (pollScope s) (pollScopeProto s) cacheData
                 (perspectivesProto s))
    (with_perspectivesByColor
       (mergeCache (pollScope s) (pollScopeProto s) cacheData
                   (perspectivesByColor s)) s).
Proof.
  unfold applyCache, mergeCache, mergedProto, mergeViolet, violetWritten.
  rewrite exec_bind. simpl value. change (exec get s) with s.
  rewrite exec_bind, exec_forEach, exec_applyCacheEntries.
  destruct (JsObject.get "violet" cacheData) as [v|];
    [|rewrite orb_false_r; reflexivity].
  destruct (isArray v && (0 <? List.length (elements v))%nat);
    [rewrite orb_true_r | rewrite orb_false_r]; reflexivity.
Qed.

End HandlerFacts.


(* ================================================================== *)
(** * Facts about the cache merge *)
(* ================================================================== *)

Module MergeFacts.
Import Pipeline Views HandlerFacts.

Lemma get_In {V} k (v : V) o : JsObject.get k o = Some v -> In (k, v) o.
Proof.
  induction o as [|[k' v'] r IH]; simpl; [discriminate|].
  destruct (String.eqb k k') eqn:E.
  - apply String.eqb_eq in E. intros [= ->]. subst. left. reflexivity.
  - intros H. right. apply IH, H.
Qed.

Lemma get_of_In {V} k (v : V) o :
  NoDup (JsObject.keys o) -> In (k, v) o -> JsObject.get k o = Some v.
Proof.
  induction o as [|[k' v'] r IH]; intros Hnd Hin; [destruct Hin|].
  simpl in Hnd. inversion Hnd as [|x l Hnotin Hnd']; subst.
  simpl. destruct Hin as [[= -> ->] | Hin].
  - rewrite String.eqb_refl. reflexivity.
  - destruct (String.eqb k k') eqn:E; [|apply IH; assumption].
    apply String.eqb_eq in E. subst k'. exfalso. apply Hnotin.
    change k with (fst (k, v)). apply in_map, Hin.
Qed.

Lemma set_held {V} k (v : V) o :
  JsObject.get k o = Some v -> JsObject.set k v o = o.
Proof.
  intros H. unfold JsObject.set, JsObject.has. rewrite H.
  apply JsObjectFacts.replace_get, H.
Qed.

Lemma isArray_elements v : isArray v = true -> v = JArray (elements v).
Proof. destruct v; [reflexivity | discriminate]. Qed.

Lemma length_pos_nonempty {A} (l : list A) :
  (0 <? List.length l)%nat = true -> l <> [].
Proof. destruct l; [discriminate | discriminate]. Qed.

Lemma written_array scope scopeProto e :
  written scope scopeProto e = true ->
  isArray (snd e) && (0 <? List.length (elements (snd e)))%nat = true.
Proof.
  unfold written. intros H. apply andb_true_iff in H. apply H.
Qed.

(** ** The entries, one colour at a time *)

Lemma get_entries_other scope scopeProto l o k :
  ~ In k (JsObject.keys l) ->
  JsObject.get k (fold_left (mergeEntry scope scopeProto) l o)
  = JsObject.get k o.
Proof.
  revert o. induction l as [|e r IH]; intros o Hk; [reflexivity|].
  simpl. rewrite IH by (intros H; apply Hk; right; exact H).
  rewrite mergeEntry_written. destruct (written scope scopeProto e);
    [|reflexivity].
  apply JsObjectFacts.get_set_other. intros ->. apply Hk. left. reflexivity.
Qed.

Lemma get_entries_written scope scopeProto l o k v :
  NoDup (JsObject.keys l) -> In (k, v) l ->
  written scope scopeProto (k, v) = true ->
  JsObject.get k (fold_left (mergeEntry scope scopeProto) l o)
  = Some (elements v).
Proof.
  revert o. induction l as [|e r IH]; intros o Hnd Hin Hw; [destruct Hin|].
  simpl in Hnd. inversion Hnd as [|x l Hnotin Hnd']; subst.
  simpl. destruct Hin as [-> | Hin]; [|apply IH; assumption].
  rewrite get_entries_other by exact Hnotin.
  rewrite mergeEntry_written, Hw. apply JsObjectFacts.get_set_same.
Qed.

Lemma get_entries_unwritten scope scopeProto l o k v :
  NoDup (JsObject.keys l) -> In (k, v) l ->
  written scope scopeProto (k, v) = false ->
  JsObject.get k (fold_left (mergeEntry scope scopeProto) l o)
  = JsObject.get k o.
Proof.
  revert o. induction l as [|e r IH]; intros o Hnd Hin Hw; [destruct Hin|].
  simpl in Hnd. inversion Hnd as [|x l Hnotin Hnd']; subst.
  simpl. destruct Hin as [-> | Hin].
  - rewrite get_entries_other by exact Hnotin.
    rewrite mergeEntry_written, Hw. reflexivity.
  - rewrite (IH _ Hnd' Hin Hw). rewrite mergeEntry_written.
    destruct (written scope scopeProto e); [|reflexivity].
    apply JsObjectFacts.get_set_other. intros ->. apply Hnotin.
    change (fst e) with (fst (fst e, v)). apply in_map, Hin.
Qed.

(** After the merge of a cache with distinct keys, every entry that is
    written is held. *)
Lemma get_mergeCache_written scope scopeProto cacheData o k v :
  NoDup (JsObject.keys cacheData) -> In (k, v) cacheData ->
  written scope scopeProto (k, v) = true ->
  JsObject.get k (mergeCache scope scopeProto cacheData o)
  = Some (elements v).
Proof.
  intros Hnd Hin Hw. unfold mergeCache, mergeViolet.
  pose proof (get_entries_written scope scopeProto cacheData o k v
                Hnd Hin Hw) as Hget.
  destruct (JsObject.get "violet" cacheData) as [v'|] eqn:Hv; [|exact Hget].
  destruct (isArray v' && (0 <? List.length (elements v'))%nat); [|exact Hget].
  destruct (String.eqb k "violet") eqn:E.
  - apply String.eqb_eq in E. subst k.
    rewrite (get_of_In _ _ _ Hnd Hin) in Hv. injection Hv as <-.
    apply JsObjectFacts.get_set_same.
  - apply String.eqb_neq in E.
    rewrite JsObjectFacts.get_set_other by exact E. exact Hget.
Qed.

Lemma get_mergeCache_violet scope scopeProto cacheData o v :
  JsObject.get "violet" cacheData = Some v ->
  isArray v && (0 <? List.length (elements v))%nat = true ->
  JsObject.get "violet" (mergeCache scope scopeProto cacheData o)
  = Some (elements v).
Proof.
  intros Hv Ha. unfold mergeCache, mergeViolet. rewrite Hv, Ha.
  apply JsObjectFacts.get_set_same.
Qed.

(** What is held for a colour after the merge of a cache with distinct
    keys. *)
Lemma get_mergeCache scope scopeProto cacheData o c :
  NoDup (JsObject.keys cacheData) ->
  JsObject.get c (mergeCache scope scopeProto cacheData o) =
  match JsObject.get c cacheData with
  | Some v =>
      if written scope scopeProto (c, v)
         || (String.eqb c "violet"
             && (isArray v && (0 <? List.length (elements v))%nat))
      then Some (elements v)
      else JsObject.get c o
  | None => JsObject.get c o
  end.
Proof.
  intros Hnd.
  destruct (JsObject.get c cacheData) as [v|] eqn:Hc.
  - pose proof (get_In _ _ _ Hc) as Hin.
    destruct (written scope scopeProto (c, v)) eqn:Hw; simpl.
    + apply get_mergeCache_written; assumption.
    + destruct (String.eqb c "violet") eqn:E; simpl.
      * apply String.eqb_eq in E. subst c.
        destruct (isArray v && (0 <? List.length (elements v))%nat) eqn:Ha.
        { apply get_mergeCache_violet; assumption. }
        unfold mergeCache, mergeViolet. rewrite Hc, Ha.
        apply (get_entries_unwritten _ _ _ _ _ v); assumption.
      * apply String.eqb_neq in E. unfold mergeCache, mergeViolet.
        destruct (JsObject.get "violet" cacheData) as [v'|];
          [destruct (isArray v' && (0 <? List.length (elements v'))%nat)|];
          rewrite ?JsObjectFacts.get_set_other by exact E;
          apply (get_entries_unwritten _ _ _ _ _ v); assumption.
  - assert (Hnot : ~ In c (JsObject.keys cacheData)).
    { intros H. apply JsObjectFacts.in_keys_get in H.
      unfold JsObject.has in H. rewrite Hc in H. discriminate H. }
    unfold mergeCache, mergeViolet.
    destruct (JsObject.get "violet" cacheData) as [v'|] eqn:Hv;
      [|apply get_entries_other, Hnot].
    destruct (isArray v' && (0 <? List.length (elements v'))%nat);
      [|apply get_entries_other, Hnot].
    rewrite JsObjectFacts.get_set_other.
    + apply get_entries_other, Hnot.
    + intros ->. rewrite Hc in Hv. discriminate Hv.
Qed.

(** ** Where the held arrays come from *)

Lemma mergeEntry_origin scope scopeProto cacheData e o c held held0 :
  In e cacheData ->
  JsObject.get c o = Some held0 -> fromPull cacheData c held held0 ->
  exists held',
    JsObject.get c (mergeEntry scope scopeProto o e) = Some held' /\
    fromPull cacheData c held held'.
Proof.
  intros Hin Hget Hfrom. rewrite mergeEntry_written.
  destruct (written scope scopeProto e) eqn:Hw; [|eauto].
  apply written_array in Hw. apply andb_true_iff in Hw.
  destruct Hw as [Ha Hl].
  destruct (String.eqb c (fst e)) eqn:E.
  - apply String.eqb_eq in E. subst c.
    exists (elements (snd e)). split; [apply JsObjectFacts.get_set_same|].
    right. split; [apply length_pos_nonempty, Hl|].
    rewrite <- (isArray_elements _ Ha). destruct e; exact Hin.
  - apply String.eqb_neq in E.
    exists held0. split; [|exact Hfrom].
    rewrite JsObjectFacts.get_set_other by exact E. exact Hget.
Qed.

Lemma mergeEntries_origin scope scopeProto cacheData l o c held held0 :
  incl l cacheData ->
  JsObject.get c o = Some held0 -> fromPull cacheData c held held0 ->
  exists held',
    JsObject.get c (fold_left (mergeEntry scope scopeProto) l o)
    = Some held' /\
    fromPull cacheData c held held'.
Proof.
  revert o held0. induction l as [|e r IH]; intros o held0 Hincl Hget Hfrom.
  - simpl. eauto.
  - simpl.
    destruct (mergeEntry_origin scope scopeProto cacheData e o c held held0)
      as (h1 & Hg1 & Hf1); auto.
    { apply Hincl. left. reflexivity. }
    apply (IH _ h1); auto.
    intros x Hx. apply Hincl. right. exact Hx.
Qed.

Lemma mergeCache_origin scope scopeProto cacheData o c held :
  JsObject.get c o = Some held ->
  exists held',
    JsObject.get c (mergeCache scope scopeProto cacheData o) = Some held' /\
    fromPull cacheData c held held'.
Proof.
  intros Hget. unfold mergeCache.
  destruct (mergeEntries_origin scope scopeProto cacheData cacheData o c
              held held)
    as (h1 & Hg1 & Hf1); auto.
  { apply incl_refl. }
  { left. reflexivity. }
  unfold mergeViolet.
  destruct (JsObject.get "violet" cacheData) as [v|] eqn:Hv; [|eauto].
  destruct (isArray v) eqn:Ha; simpl; [|eauto].
  destruct (0 <? List.length (elements v))%nat eqn:Hl; [|eauto].
  destruct (String.eqb c "violet") eqn:E.
  - apply String.eqb_eq in E. subst c.
    exists (elements v). split; [apply JsObjectFacts.get_set_same|].
    right. split; [apply length_pos_nonempty, Hl|].
    rewrite <- (isArray_elements _ Ha). apply get_In, Hv.
  - apply String.eqb_neq in E. exists h1. split; [|exact Hf1].
    rewrite JsObjectFacts.get_set_other by exact E. exact Hg1.
Qed.

(** ** Merging twice *)

(** A state that already holds what the cache writes is left as it is. *)
Lemma mergeCache_fixed scope scopeProto cacheData o :
  (forall e, In e cacheData -> written scope scopeProto e = true ->
             JsObject.get (fst e) o = Some (elements (snd e))) ->
  (forall v, JsObject.get "violet" cacheData = Some v ->
             isArray v && (0 <? List.length (elements v))%nat = true ->
             JsObject.get "violet" o = Some (elements v)) ->
  mergeCache scope scopeProto cacheData o = o.
Proof.
  intros Hent Hvio. unfold mergeCache.
  assert (Hfold : forall l, incl l cacheData ->
                            fold_left (mergeEntry scope scopeProto) l o = o).
  { induction l as [|e r IH]; intros Hincl; [reflexivity|].
    simpl. rewrite mergeEntry_written.
    destruct (written scope scopeProto e) eqn:Hw.
    - rewrite set_held.
      + apply IH. intros x Hx. apply Hincl. right. exact Hx.
      + apply Hent; [apply Hincl; left; reflexivity | exact Hw].
    - apply IH. intros x Hx. apply Hincl. right. exact Hx. }
  rewrite Hfold by apply incl_refl.
  unfold mergeViolet.
  destruct (JsObject.get "violet" cacheData) as [v|] eqn:Hv; [|reflexivity].
  destruct (isArray v && (0 <? List.length (elements v))%nat) eqn:Ha;
    [|reflexivity].
  apply set_held, Hvio; [reflexivity | exact Ha].
Qed.

Lemma mergeCache_idempotent scope scopeProto cacheData o :
  NoDup (JsObject.keys cacheData) ->
  mergeCache scope scopeProto cacheData
    (mergeCache scope scopeProto cacheData o)
  = mergeCache scope scopeProto cacheData o.
Proof.
  intros Hnd. apply mergeCache_fixed.
  - intros [k v] Hin Hw. apply get_mergeCache_written; assumption.
  - intros v Hv Ha. apply get_mergeCache_violet; assumption.
Qed.

Lemma mergedProto_idempotent scope scopeProto cacheData proto :
  mergedProto scope scopeProto cacheData
    (mergedProto scope scopeProto cacheData proto)
  = mergedProto scope scopeProto cacheData proto.
Proof.
  unfold mergedProto.
  destruct (existsb (written scope scopeProto) cacheData
            || violetWritten cacheData); reflexivity.
Qed.

End MergeFacts.


(* ================================================================== *)
(** * What each event does to the fields of the state *)
(* ================================================================== *)

Module EventFacts.
Import Pipeline Views RunViews HandlerFacts.
Local Open Scope handler_scope.

Lemma mergeCache_nil scope scopeProto held :
  mergeCache scope scopeProto [] held = held.
Proof. reflexivity. Qed.

Lemma mergedProto_nil scope scopeProto proto :
  mergedProto scope scopeProto [] proto = proto.
Proof. reflexivity. Qed.

Lemma exec_pollCache data cache s :
  exec (pollCache data cache) s =
  with_perspectivesProto
    (mergedProto (pollScope s) (pollScopeProto s)
                 (pulled (PollOk data cache)) (perspectivesProto s))
    (with_perspectivesByColor
       (mergeCache (pollScope s) (pollScopeProto s)
                   (pulled (PollOk data cache)) (perspectivesByColor s)) s).
Proof.
  unfold pollCache, pulled.
  destruct cache as [| |cacheData];
    destruct (stageIs data "module3" && (0 <? orElse (st_progress data) 0));
    rewrite ?mergeCache_nil, ?mergedProto_nil;
    try (symmetry; apply with_held_same).
  apply exec_applyCache.
Qed.

Lemma exec_pollTick data cache s :
  exec (pollTick (PollOk data cache)) s =
  exec (pollTerminal data)
       (with_perspectivesProto
          (mergedProto (pollScope s) (pollScopeProto s)
                       (pulled (PollOk data cache)) (perspectivesProto s))
          (with_perspectivesByColor
             (mergeCache (pollScope s) (pollScopeProto s)
                         (pulled (PollOk data cache))
                         (perspectivesByColor s))
             (exec (pollStatus data) s))).
Proof.
  unfold pollTick. rewrite !exec_bind, exec_pollCache. reflexivity.
Qed.

Lemma exec_revealTick s :
  exec revealTick s =
  match nextReveal s with
  | Some next =>
      with_revealedColors
        (if includes next (revealedColors s) then revealedColors s
         else revealedColors s ++ [next]) s
  | None => s
  end.
Proof.
  unfold revealTick, exec, bind, get. cbn beta iota zeta.
  destruct (nextReveal s); reflexivity.
Qed.

(** The reveal sequence, the cache offer and the loaded flag after any
    event. *)
Lemma handle_fields e s :
  revealedColors (exec (handle e) s) =
    match e with
    | Start _ => if runnable (stage s) then [] else revealedColors s
    | WsFrame (Parsed data) =>
        if wsRef s && wellFormed data
        then if includes (propertyKey (m_color data)) (revealedColors s)
             then revealedColors s
             else revealedColors s ++ [propertyKey (m_color data)]
        else revealedColors s
    | RevealTimer =>
        match nextReveal s with
        | Some next =>
            if includes next (revealedColors s) then revealedColors s
            else revealedColors s ++ [next]
        | None => revealedColors s
        end
    | _ => revealedColors s
    end /\
  cacheAvailable (exec (handle e) s) =
    match e with
    | Start _ => if runnable (stage s) then false else cacheAvailable s
    | CacheProbed (CacheOk data) =>
        if hasAny data then true else cacheAvailable s
    | _ => cacheAvailable s
    end /\
  cacheSnapshotRef (exec (handle e) s) =
    match e with
    | Start _ => if runnable (stage s) then None else cacheSnapshotRef s
    | CacheProbed (CacheOk data) =>
        if hasAny data then Some data else cacheSnapshotRef s
    | _ => cacheSnapshotRef s
    end /\
  chartFullyLoaded (exec (handle e) s) =
    match e with
    | ChartLoadedTimer =>
        if showChart s
           && negb (List.length (JsObject.keys (perspectivesByColor s)) =? 0)%nat
           && (List.length (JsObject.keys (perspectivesByColor s))
               <=? List.length (revealedColors s))%nat
        then true else chartFullyLoaded s
    | _ => chartFullyLoaded s
    end.
Proof.
  destruct e as [wsThrows| |r|d|d|message|r|r|r| | | | |sel];
    unfold handle;
    try (rewrite exec_bind;
         change (value get s) with s; change (exec get s) with s).
  - unfold startPipeline. rewrite exec_bind.
    change (value get s) with s. change (exec get s) with s.
    destruct (runnable (stage s)); [|repeat split; reflexivity].
    destruct (wsRef s), wsThrows; repeat split; reflexivity.
  - destruct (wsRef s); repeat split; reflexivity.
  - destruct r; repeat split; reflexivity.
  - destruct d as [|data]; [destruct (wsRef s); repeat split; reflexivity|].
    destruct (wsRef s); [|repeat split; reflexivity].
    unfold ws_onmessage, wellFormed. cbn [andb].
    destruct (truthy (m_color data) && isArray (m_perspectives data));
      [repeat split; reflexivity|].
    destruct (fieldIs (m_type data) "ping"); repeat split; reflexivity.
  - destruct (wsRef s); [|repeat split; reflexivity].
    destruct d as [|data]; [repeat split; reflexivity|].
    unfold reconnect_onmessage.
    destruct (truthy (m_color data) && isArray (m_perspectives data));
      [repeat split; reflexivity|].
    destruct (fieldIs (m_type data) "ping"); repeat split; reflexivity.
  - destruct (wsRef s); repeat split; reflexivity.
  - destruct (pollRef s); [|repeat split; reflexivity].
    destruct r as [message|data cache]; [repeat split; reflexivity|].
    rewrite exec_pollTick. unfold pollTerminal.
    destruct (truthy (st_error data)); [repeat split; reflexivity|].
    destruct (stageIs data "done"); repeat split; reflexivity.
  - destruct r as [message|data typeError]; [repeat split; reflexivity|].
    unfold resultsResponse.
    destruct (r_perspectives data) as [ps|]; [|repeat split; reflexivity].
    destruct (groupByColor ps); repeat split; reflexivity.
  - destruct r as [| |data]; try (repeat split; reflexivity).
    unfold cacheProbe, hasAny.
    destruct (existsb _ data); repeat split; reflexivity.
  - unfold loadCache. rewrite exec_bind.
    change (value get s) with s. change (exec get s) with s.
    destruct (cacheSnapshotRef s) eqn:Hsnap;
      repeat split; try reflexivity; exact Hsnap.
  - unfold showChartTimer. rewrite exec_bind.
    change (value get s) with s. change (exec get s) with s.
    destruct (negb (showChart s) && _); repeat split; reflexivity.
  - change (exec (revealTick ;; ret tt) s) with (exec revealTick s).
    rewrite exec_revealTick.
    destruct (nextReveal s); repeat split; reflexivity.
  - unfold chartLoadedTimer. rewrite exec_bind.
    change (value get s) with s. change (exec get s) with s.
    match goal with
    | |- context [exec (if ?b then _ else _) s] => destruct b
    end; repeat split; reflexivity.
  - repeat split; reflexivity.
Qed.

(** The per-colour state after any event. *)
Lemma perspectives_handle e s :
  perspectivesByColor (exec (handle e) s) =
    match e with
    | Start _ =>
        if runnable (stage s) then JsObject.empty else perspectivesByColor s
    | WsFrame (Parsed data) | WsReconnectMessage (Parsed data) =>
        if wsRef s && wellFormed data
        then JsObject.set (propertyKey (m_color data))
                          (elements (m_perspectives data))
                          (perspectivesByColor s)
        else perspectivesByColor s
    | PollFired r =>
        if pollRef s
        then mergeCache (pollScope s) (pollScopeProto s) (pulled r)
                        (perspectivesByColor s)
        else perspectivesByColor s
    | ResultsAnswered (ResultsOk data _) =>
        match r_perspectives data with
        | Some ps => orElse (groupByColor ps) (perspectivesByColor s)
        | None => perspectivesByColor s
        end
    | LoadCache =>
        match cacheSnapshotRef s with
        | Some snapshot => fst (nonEmptyArrays snapshot)
        | None => perspectivesByColor s
        end
    | _ => perspectivesByColor s
    end.
Proof.
  destruct e as [wsThrows| |r|d|d|message|r|r|r| | | | |sel];
    unfold handle;
    try (rewrite exec_bind;
         change (value get s) with s; change (exec get s) with s).
  - unfold startPipeline. rewrite exec_bind.
    change (value get s) with s. change (exec get s) with s.
    destruct (runnable (stage s)); [|reflexivity].
    destruct (wsRef s), wsThrows; reflexivity.
  - destruct (wsRef s); reflexivity.
  - destruct r; reflexivity.
  - destruct d as [|data]; [destruct (wsRef s); reflexivity|].
    destruct (wsRef s); [|reflexivity].
    unfold ws_onmessage, wellFormed. cbn [andb].
    destruct (truthy (m_color data) && isArray (m_perspectives data));
      [reflexivity|].
    destruct (fieldIs (m_type data) "ping"); reflexivity.
  - destruct d as [|data]; [destruct (wsRef s); reflexivity|].
    destruct (wsRef s); [|reflexivity].
    unfold reconnect_onmessage, wellFormed. cbn [andb].
    destruct (truthy (m_color data) && isArray (m_perspectives data));
      [reflexivity|].
    destruct (fieldIs (m_type data) "ping"); reflexivity.
  - destruct (wsRef s); reflexivity.
  - destruct (pollRef s); [|reflexivity].
    destruct r as [message|data cache]; [reflexivity|].
    rewrite exec_pollTick. unfold pollTerminal.
    destruct (truthy (st_error data)); [reflexivity|].
    destruct (stageIs data "done"); reflexivity.
  - destruct r as [message|data typeError]; [reflexivity|].
    unfold resultsResponse.
    destruct (r_perspectives data) as [ps|]; [|reflexivity].
    destruct (groupByColor ps); reflexivity.
  - destruct r as [| |data]; try reflexivity.
    unfold cacheProbe. destruct (existsb _ data); reflexivity.
  - unfold loadCache. rewrite exec_bind.
    change (value get s) with s. change (exec get s) with s.
    destruct (cacheSnapshotRef s); reflexivity.
  - unfold showChartTimer. rewrite exec_bind.
    change (value get s) with s. change (exec get s) with s.
    destruct (negb (showChart s) && _); reflexivity.
  - change (exec (revealTick ;; ret tt) s) with (exec revealTick s).
    rewrite exec_revealTick. destruct (nextReveal s); reflexivity.
  - unfold chartLoadedTimer. rewrite exec_bind.
    change (value get s) with s. change (exec get s) with s.
    match goal with
    | |- context [exec (if ?b then _ else _) s] => destruct b
    end; reflexivity.
  - reflexivity.
Qed.

End EventFacts.


(* ================================================================== *)
(** * The reconciled per-colour state *)
(* ================================================================== *)

Module Reconciler.
Import Pipeline Views Scenarios HandlerFacts MergeFacts.
Local Open Scope handler_scope.

Lemma run_reachable es s : reachable s -> reachable (run es s).
Proof.
  revert s. induction es as [|e r IH]; intros s Hs; simpl; [exact Hs|].
  apply IH. apply reachable_step. exact Hs.
Qed.

(** The per-colour state after a firing of the interval callback. *)
Lemma perspectives_pollTick r s :
  perspectivesByColor (exec (pollTick r) s) =
  mergeCache (pollScope s) (pollScopeProto s) (pulled r)
             (perspectivesByColor s).
Proof.
  destruct r as [message | data cache]; [reflexivity|].
  unfold pollTick, pulled. rewrite !exec_bind.
  assert (Hterm : forall st,
             perspectivesByColor (exec (pollTerminal data) st) =
             perspectivesByColor st).
  { intros st. unfold pollTerminal.
    destruct (truthy (st_error data)); [reflexivity|].
    destruct (stageIs data "done"); reflexivity. }
  rewrite Hterm. unfold pollCache.
  destruct cache as [| |cacheData];
    destruct (stageIs data "module3" && (0 <? orElse (st_progress data) 0));
    try reflexivity.
  rewrite exec_applyCache. reflexivity.
Qed.

(** When the callback finds for a colour what is held for it, an entry
    for that colour is written exactly when it is a non-empty array whose
    length is not the number of perspectives held. *)
Lemma written_seesHeld s c v :
  seesHeld s c ->
  written (pollScope s) (pollScopeProto s) (c, v) =
  isArray v && (0 <? List.length (elements v))%nat
  && negb (count c s =? List.length (elements v))%nat.
Proof.
  unfold seesHeld, written, count, heldAs. simpl. intros ->.
  destruct (JsObject.get c (perspectivesByColor s)); reflexivity.
Qed.

(** ** Snapshot pulls *)

(** C1, counterexample: the state holds five perspectives for violet and
    five for red; a snapshot pull reporting three for each is applied, and
    both counts drop to three. *)
Lemma snapshot_pull_shrinks :
  reachable (run pushedRun initialState) /\
  pollRef (run pushedRun initialState) = true /\
  count "violet" (run pushedRun initialState) = 5%nat /\
  count "red" (run pushedRun initialState) = 5%nat /\
  count "violet" (exec (pollTick smallerPull) (run pushedRun initialState))
    = 3%nat /\
  count "red" (exec (pollTick smallerPull) (run pushedRun initialState))
    = 3%nat /\
  ~ (count "red" (run pushedRun initialState)
     <= count "red" (exec (pollTick smallerPull)
                          (run pushedRun initialState)))%nat.
Proof.
  split; [apply run_reachable, reachable_init|].
  vm_compute. repeat split. intros H. lia.
Qed.

(** C1, as amended: take a firing of the status poll that pulls a cache
    (with distinct keys, as the keys of an object are). Whatever the
    callback sees, a colour holds afterwards what it held before or a
    non-empty array that the cache reports for it. For a colour for which
    the callback finds exactly the array that is held (nothing, when none
    is held): if the cache reports for the colour a non-empty array whose
    length is not the number of perspectives held, or the colour is
    violet and the array is non-empty, that array is held afterwards;
    otherwise, also when the cache reports an empty array, a value that is
    no array or nothing for the colour, what was held before is held
    afterwards. Hence the count of such a colour drops exactly when the
    cache reports for it a non-empty array with fewer items than are
    held. *)
Theorem snapshot_pull_replaces_on_length_change r s c :
  NoDup (JsObject.keys (pulled r)) ->
  let s' := exec (pollTick r) s in
  (JsObject.get c (perspectivesByColor s')
   = JsObject.get c (perspectivesByColor s) \/
   exists items,
     items <> [] /\ JsObject.get c (pulled r) = Some (JArray items) /\
     JsObject.get c (perspectivesByColor s') = Some items) /\
  (seesHeld s c ->
   JsObject.get c (perspectivesByColor s') =
     match JsObject.get c (pulled r) with
     | Some (JArray items) =>
         if (0 <? List.length items)%nat
            && (String.eqb c "violet"
                || negb (List.length items =? count c s)%nat)
         then Some items
         else JsObject.get c (perspectivesByColor s)
     | _ => JsObject.get c (perspectivesByColor s)
     end /\
   ((count c s' < count c s)%nat <->
    exists items,
      JsObject.get c (pulled r) = Some (JArray items) /\
      (0 < List.length items < count c s)%nat)).
Proof.
  intros Hnd s'. split.
  { subst s'. rewrite perspectives_pollTick, (get_mergeCache _ _ _ _ _ Hnd).
    destruct (JsObject.get c (pulled r)) as [v|]; [|left; reflexivity].
    destruct (written (pollScope s) (pollScopeProto s) (c, v)
              || (String.eqb c "violet"
                  && (isArray v && (0 <? List.length (elements v))%nat)))
      eqn:Hw; [|left; reflexivity].
    assert (Ha : isArray v && (0 <? List.length (elements v))%nat = true).
    { apply orb_true_iff in Hw. destruct Hw as [Hw | Hw].
      - apply (written_array _ _ _ Hw).
      - apply andb_true_iff in Hw. apply Hw. }
    apply andb_true_iff in Ha. destruct Ha as [Ha Hl].
    right. exists (elements v). split; [apply length_pos_nonempty, Hl|].
    split; [rewrite <- (isArray_elements _ Ha) |]; reflexivity. }
  intros Hsees.
  assert (Hget : JsObject.get c (perspectivesByColor s') =
                 match JsObject.get c (pulled r) with
                 | Some (JArray items) =>
                     if (0 <? List.length items)%nat
                        && (String.eqb c "violet"
                            || negb (List.length items =? count c s)%nat)
                     then Some items
                     else JsObject.get c (perspectivesByColor s)
                 | _ => JsObject.get c (perspectivesByColor s)
                 end).
  { subst s'. rewrite perspectives_pollTick, (get_mergeCache _ _ _ _ _ Hnd).
    destruct (JsObject.get c (pulled r)) as [[items|]|]; try reflexivity.
    - rewrite (written_seesHeld s c (JArray items) Hsees). simpl.
      rewrite (Nat.eqb_sym (count c s)).
      destruct (0 <? List.length items)%nat; simpl;
        [|rewrite andb_false_r; reflexivity].
      rewrite andb_true_r.
      destruct (negb (List.length items =? count c s)%nat);
        destruct (String.eqb c "violet"); reflexivity.
    - rewrite (written_seesHeld s c JOther Hsees). simpl.
      rewrite andb_false_r. reflexivity. }
  split; [exact Hget|].
  unfold count at 1. rewrite Hget.
  destruct (JsObject.get c (pulled r)) as [[items|]|].
  - destruct (0 <? List.length items)%nat eqn:Hpos; simpl.
    + apply Nat.ltb_lt in Hpos.
      destruct (String.eqb c "violet"); simpl.
      * split.
        -- intros Hlt. exists items. split; [reflexivity | lia].
        -- intros (items' & [= <-] & Hlt). lia.
      * destruct (List.length items =? count c s)%nat eqn:Hsame; simpl.
        -- apply Nat.eqb_eq in Hsame. fold (count c s). split; [lia|].
           intros (items' & [= <-] & Hlt). lia.
        -- split.
           ++ intros Hlt. exists items. split; [reflexivity | lia].
           ++ intros (items' & [= <-] & Hlt). lia.
    + apply Nat.ltb_ge in Hpos. fold (count c s). split; [lia|].
      intros (items' & [= <-] & Hlt). lia.
  - fold (count c s). split; [lia|]. intros (items' & H & _). discriminate H.
  - fold (count c s). split; [lia|]. intros (items' & H & _). discriminate H.
Qed.

Lemma snapshot_pull_replaces_on_length_change_witness :
  (count "red" (exec (pollTick smallerPull) (run secondRun initialState))
   < count "red" (run secondRun initialState))%nat.
Proof.
  apply (proj2 (proj2 (snapshot_pull_replaces_on_length_change
                         smallerPull (run secondRun initialState) "red"
                         ltac:(vm_compute; repeat constructor; simpl;
                               intuition discriminate))
                      ltac:(reflexivity))).
  exists three. split; [reflexivity | vm_compute; lia].
Defined.

(** ** Pushes *)

(** C2, counterexample: after a push of [a] for red, a push of [b] for red
    and a push of [b] for blue, red holds [b] alone (the first push was
    not kept, nothing was appended) and the id [b] occurs twice in the
    state. *)
Lemma push_merge_not_append_dedup :
  reachable (run redelivery initialState) /\
  JsObject.get "red" (perspectivesByColor (run redelivery initialState))
    = Some [perspective "b"] /\
  JsObject.get "blue" (perspectivesByColor (run redelivery initialState))
    = Some [perspective "b"] /\
  ~ In (Some "a") (heldIds (perspectivesByColor (run redelivery initialState)))
  /\
  ~ NoDup (heldIds (perspectivesByColor (run redelivery initialState))).
Proof.
  split; [apply run_reachable, reachable_init|].
  vm_compute. repeat split.
  - intros [H | [H | []]]; discriminate H.
  - intros H. inversion H as [|x l Hnotin Hnd]. apply Hnotin. left.
    reflexivity.
Qed.

(** C2, as amended: merging a frame that carries a colour and an array
    replaces the array held for that colour by the pushed array and leaves
    the arrays of all other colours as they were; no perspective is
    compared by id. *)
Theorem push_replaces_group data s :
  wellFormed data = true ->
  let c := propertyKey (m_color data) in
  let s' := exec (ws_onmessage (Parsed data)) s in
  perspectivesByColor s' =
    JsObject.set c (elements (m_perspectives data)) (perspectivesByColor s) /\
  JsObject.get c (perspectivesByColor s') =
    Some (elements (m_perspectives data)) /\
  (forall c', c' <> c ->
     JsObject.get c' (perspectivesByColor s') =
     JsObject.get c' (perspectivesByColor s)).
Proof.
  intros Hwf c s'. unfold wellFormed in Hwf.
  assert (Hs : perspectivesByColor s' =
               JsObject.set c (elements (m_perspectives data))
                            (perspectivesByColor s)).
  { subst s'. unfold ws_onmessage. rewrite Hwf. reflexivity. }
  rewrite Hs. split; [reflexivity|]. split.
  - apply JsObjectFacts.get_set_same.
  - intros c' Hne. apply JsObjectFacts.get_set_other, Hne.
Qed.

Lemma push_replaces_group_witness :
  JsObject.get "red"
    (perspectivesByColor
       (exec (ws_onmessage
                (Parsed {| m_color := Some "red";
                           m_perspectives := JArray three;
                           m_type := None |}))
             (run pushedRun initialState)))
  = Some three.
Proof.
  apply (proj1 (proj2 (push_replaces_group
                         {| m_color := Some "red";
                            m_perspectives := JArray three;
                            m_type := None |}
                         (run pushedRun initialState) eq_refl))).
Defined.

Lemma includes_app_self c rc : includes c (rc ++ [c]) = true.
Proof.
  unfold includes. rewrite existsb_app. simpl.
  rewrite String.eqb_refl, orb_true_r. reflexivity.
Qed.

(** C4: handling the same socket frame twice leaves the state in which
    handling it once leaves it. *)
Theorem push_merge_idempotent d s :
  exec (ws_onmessage d) (exec (ws_onmessage d) s) = exec (ws_onmessage d) s.
Proof.
  destruct d as [|data]; [reflexivity|].
  unfold ws_onmessage.
  destruct (truthy (m_color data) && isArray (m_perspectives data));
    [|destruct (fieldIs (m_type data) "ping"); reflexivity].
  unfold exec, bind, setPerspectivesByColor, setRevealedColors, modify,
    with_revealedColors, with_perspectivesByColor, JsObject.spreadSet.
  simpl. rewrite JsObjectFacts.set_set_same.
  destruct (includes (propertyKey (m_color data)) (revealedColors s)) eqn:E.
  - rewrite E. reflexivity.
  - rewrite includes_app_self. reflexivity.
Qed.

(** The handler of a reconnected socket is idempotent as well. *)
Lemma reconnect_merge_idempotent d s :
  exec (reconnect_onmessage d) (exec (reconnect_onmessage d) s)
  = exec (reconnect_onmessage d) s.
Proof.
  destruct d as [|data]; [reflexivity|].
  unfold reconnect_onmessage.
  destruct (truthy (m_color data) && isArray (m_perspectives data));
    [|destruct (fieldIs (m_type data) "ping"); reflexivity].
  unfold exec, setPerspectivesByColor, modify, with_perspectivesByColor,
    JsObject.spreadSet.
  simpl. rewrite JsObjectFacts.set_set_same. reflexivity.
Qed.

End Reconciler.


(* ================================================================== *)
(** * The run controller *)
(* ================================================================== *)

Module Controller.
Import Pipeline Views Scenarios HandlerFacts.
Local Open Scope handler_scope.

Lemma stage_pollCache data cache s :
  stage (exec (pollCache data cache) s) = stage s.
Proof.
  unfold pollCache.
  destruct (stageIs data "module3" && (0 <? orElse (st_progress data) 0));
    [|reflexivity].
  destruct cache; try reflexivity.
  rewrite exec_applyCache. reflexivity.
Qed.

Lemma stage_pollTick data cache s :
  stage (exec (pollTick (PollOk data cache)) s) =
  if truthy (st_error data) then "error" else stageOf data.
Proof.
  unfold pollTick. rewrite !exec_bind.
  set (st := exec (pollCache data cache) (exec (pollStatus data) s)).
  assert (Hst : stage st = stageOf data).
  { subst st. rewrite stage_pollCache. reflexivity. }
  unfold pollTerminal.
  destruct (truthy (st_error data)); [reflexivity|].
  destruct (stageIs data "done");
    (transitivity (stage st); [reflexivity | exact Hst]).
Qed.

Lemma stageOf_error data :
  stageOf data = "error" -> st_stage data = Some "error".
Proof.
  unfold stageOf. destruct (st_stage data) as [st|]; simpl.
  - destruct (String.eqb st ""); simpl; [discriminate|]. congruence.
  - discriminate.
Qed.

Lemma stage_startPipeline wsThrows s :
  stage (exec (startPipeline wsThrows) s) =
  if runnable (stage s) then "queued" else stage s.
Proof.
  unfold startPipeline. rewrite exec_bind.
  change (value get s) with s. change (exec get s) with s.
  destruct (runnable (stage s)); [|reflexivity].
  destruct (wsRef s), wsThrows; reflexivity.
Qed.

Ltac log_entry H :=
  repeat (destruct H as [H | H]; [injection H as <- <- | ]);
  try contradiction.

(** ** Starting a run *)

(** C6: when the stage is not idle, error or done, [startPipeline] changes
    nothing and issues nothing. Otherwise it leaves the per-colour state
    and the reveal sequence empty, results and progress cleared, the error
    cleared (or, when the socket cannot be constructed, replaced by that
    failure) and the stage queued; every effect it issues (closing the old
    socket, opening the new one, arming the poll) is issued after these
    writes; the run trigger is not among them: it is issued by the
    socket's open handler, and a successful trigger arms the poll. *)
Theorem start_resets_before_connecting wsThrows s :
  (runnable (stage s) = false -> startPipeline wsThrows s = (tt, s, [])) /\
  (runnable (stage s) = true ->
   let s' := exec (startPipeline wsThrows) s in
   isReset s' /\
   error s' =
     match wsThrows with
     | None => None
     | Some message =>
         Some ("WebSocket initialization error: " ++ message)%string
     end /\
   (forall e st,
       In (e, st) (effects (startPipeline wsThrows) s) ->
       isReset st /\ e <> PostRun /\ (e = WsOpen -> error st = None)) /\
   (wsThrows = None ->
    In WsOpen (map fst (effects (startPipeline wsThrows) s)) /\
    wsRef s' = true)) /\
  (forall st, map fst (effects ws_onopen st) = [PostRun]) /\
  (forall st,
      map fst (effects (runResponse RunOk) st) = [ClearInterval; SetInterval]
      /\ pollRef (exec (runResponse RunOk) st) = true).
Proof.
  split; [|split; [|split]].
  - intros Hrun. unfold startPipeline, bind, get. cbn beta iota zeta.
    rewrite Hrun. reflexivity.
  - intros Hrun s'. subst s'. unfold exec, effects.
    destruct (startPipeline wsThrows s) as [[u s1] log] eqn:E.
    unfold startPipeline, bind, get in E.
    cbn beta iota zeta in E. rewrite Hrun in E.
    destruct (wsRef s), wsThrows as [message|];
      lazy in E; injection E as <- <- <-; cbn [fst snd];
      (split; [unfold isReset; cbn; repeat split|]);
      (split; [reflexivity|]);
      (split;
       [intros e st Hin; cbn [In] in Hin; log_entry Hin;
        (split; [unfold isReset; cbn; repeat split|]);
        (split; [discriminate|]);
        intros He; try discriminate He; reflexivity
       |intros Hnone; try discriminate Hnone; cbn; auto]).
  - intros st. reflexivity.
  - intros st. split; reflexivity.
Qed.

Lemma start_resets_before_connecting_witness :
  isReset (exec (startPipeline None) initialState) /\
  startPipeline None (exec (startPipeline None) initialState) =
  (tt, exec (startPipeline None) initialState, []).
Proof.
  split.
  - exact (proj1 (proj1 (proj2 (start_resets_before_connecting
                                  None initialState)) eq_refl)).
  - exact (proj1 (start_resets_before_connecting
                    None (exec (startPipeline None) initialState)) eq_refl).
Defined.

(** ** Stage transitions *)

(** The stage after any event. *)
Lemma stage_handle e s :
  stage (exec (handle e) s) =
  match e with
  | Start _ => if runnable (stage s) then "queued" else stage s
  | PollFired (PollOk data _) =>
      if pollRef s
      then if truthy (st_error data) then "error" else stageOf data
      else stage s
  | LoadCache =>
      match cacheSnapshotRef s with
      | Some _ => "module3"
      | None => stage s
      end
  | _ => stage s
  end.
Proof.
  destruct e as [wsThrows| |r|d|d|message|r|r|r| | | | |sel];
    unfold handle;
    try (rewrite exec_bind;
         change (value get s) with s; change (exec get s) with s).
  - apply stage_startPipeline.
  - destruct (wsRef s); reflexivity.
  - destruct r; reflexivity.
  - destruct (wsRef s); [|reflexivity].
    destruct d as [|data]; [reflexivity|]. unfold ws_onmessage.
    destruct (truthy (m_color data) && isArray (m_perspectives data));
      [reflexivity|].
    destruct (fieldIs (m_type data) "ping"); reflexivity.
  - destruct (wsRef s); [|reflexivity].
    destruct d as [|data]; [reflexivity|]. unfold reconnect_onmessage.
    destruct (truthy (m_color data) && isArray (m_perspectives data));
      [reflexivity|].
    destruct (fieldIs (m_type data) "ping"); reflexivity.
  - destruct (wsRef s); reflexivity.
  - destruct (pollRef s); [|destruct r; reflexivity].
    destruct r as [message|data cache]; [reflexivity|].
    apply stage_pollTick.
  - destruct r as [message|data typeError]; [reflexivity|].
    unfold resultsResponse.
    destruct (r_perspectives data) as [ps|]; [|reflexivity].
    destruct (groupByColor ps); reflexivity.
  - destruct r as [| |data]; try reflexivity. unfold cacheProbe.
    destruct (existsb _ data); reflexivity.
  - unfold loadCache. rewrite exec_bind.
    change (value get s) with s. change (exec get s) with s.
    destruct (cacheSnapshotRef s); reflexivity.
  - unfold showChartTimer. rewrite exec_bind.
    change (value get s) with s. change (exec get s) with s.
    destruct (negb (showChart s) && _); reflexivity.
  - change (stage (exec revealTick s) = stage s).
    unfold revealTick. rewrite exec_bind.
    change (value get s) with s. change (exec get s) with s.
    destruct (nextReveal s); reflexivity.
  - unfold chartLoadedTimer. rewrite exec_bind.
    change (value get s) with s. change (exec get s) with s.
    match goal with |- context [if ?b then _ else _] => destruct b end;
      reflexivity.
  - reflexivity.
Qed.

(** C7: a socket frame that fails to parse, or that lacks a colour, or
    whose perspectives are not an array, leaves the whole state (the
    per-colour state and the stage with it) as it was, on the first socket
    and on a reconnected one, and at most logs a warning. The stage becomes
    error only through a status answer that carries an error or names that
    stage. *)
Theorem malformed_event_dropped d s :
  malformed d = true ->
  exec (ws_onmessage d) s = s /\
  exec (reconnect_onmessage d) s = s /\
  (forall e st, In (e, st) (effects (ws_onmessage d) s) ->
                e = Console Warn /\ st = s) /\
  (forall ev,
      stage (exec (handle ev) s) = "error" -> stage s <> "error" ->
      exists data cache,
        ev = PollFired (PollOk data cache) /\
        (truthy (st_error data) = true \/ st_stage data = Some "error")).
Proof.
  intros Hmal. split; [|split; [|split]].
  - destruct d as [|data]; [reflexivity|].
    unfold malformed, wellFormed in Hmal.
    apply negb_true_iff in Hmal. unfold ws_onmessage. rewrite Hmal.
    destruct (fieldIs (m_type data) "ping"); reflexivity.
  - destruct d as [|data]; [reflexivity|].
    unfold malformed, wellFormed in Hmal.
    apply negb_true_iff in Hmal. unfold reconnect_onmessage. rewrite Hmal.
    destruct (fieldIs (m_type data) "ping"); reflexivity.
  - intros e st. destruct d as [|data].
    + intros [H | []]. injection H as <- <-. split; reflexivity.
    + unfold malformed, wellFormed in Hmal.
      apply negb_true_iff in Hmal. unfold ws_onmessage. rewrite Hmal.
      destruct (fieldIs (m_type data) "ping").
      * intros [].
      * intros [H | []]. injection H as <- <-. split; reflexivity.
  - intros ev Herr Hne. rewrite stage_handle in Herr.
    destruct ev as [wsThrows| |r|d'|d'|message|r|r|r| | | | |sel];
      try contradiction.
    + destruct (runnable (stage s)); [discriminate|contradiction].
    + destruct r as [message|data cache]; [contradiction|].
      destruct (pollRef s); [|contradiction].
      exists data, cache. split; [reflexivity|].
      destruct (truthy (st_error data)); [left; reflexivity|].
      right. apply stageOf_error, Herr.
    + destruct (cacheSnapshotRef s); [discriminate|contradiction].
Qed.

Lemma malformed_event_dropped_witness :
  exec (ws_onmessage
          (Parsed {| m_color := None;
                     m_perspectives := JArray three;
                     m_type := None |}))
       (run pushedRun initialState)
  = run pushedRun initialState.
Proof.
  exact (proj1 (malformed_event_dropped
                  (Parsed {| m_color := None;
                             m_perspectives := JArray three;
                             m_type := None |})
                  (run pushedRun initialState) eq_refl)).
Defined.

(** ** The error transition *)

(** C9: when a polled status carries an error, the terminal part of the
    callback records it, clears the interval and sets the stage to error,
    and leaves the per-colour state and the reveal sequence as they were;
    after the whole callback the stage is error, the error is recorded,
    the interval is cleared, every colour that was held is still held, and
    the per-colour state is the one before the callback unless the
    callback applied a cache of its own. *)
Theorem error_transition_preserves_perspectives data s :
  truthy (st_error data) = true ->
  let s' := exec (pollTerminal data) s in
  (stage s' = "error" /\ error s' = st_error data /\ pollRef s' = false /\
   map fst (effects (pollTerminal data) s) = [ClearInterval] /\
   perspectivesByColor s' = perspectivesByColor s /\
   revealedColors s' = revealedColors s) /\
  (forall cache,
      let t := exec (pollTick (PollOk data cache)) s in
      stage t = "error" /\ error t = st_error data /\ pollRef t = false /\
      revealedColors t = revealedColors s /\
      (forall c held,
          JsObject.get c (perspectivesByColor s) = Some held ->
          exists held', JsObject.get c (perspectivesByColor t) = Some held') /\
      (pulled (PollOk data cache) = [] ->
       perspectivesByColor t = perspectivesByColor s)).
Proof.
  intros Herr s'. subst s'. split.
  - unfold pollTerminal. rewrite Herr. repeat split; reflexivity.
  - intros cache t.
    assert (Hframe : forall st,
               error (exec (pollCache data cache) st) = error st /\
               pollRef (exec (pollCache data cache) st) = pollRef st /\
               revealedColors (exec (pollCache data cache) st)
               = revealedColors st).
    { intros st. unfold pollCache.
      destruct (stageIs data "module3"
                && (0 <? orElse (st_progress data) 0));
        [|repeat split; reflexivity].
      destruct cache; try (repeat split; reflexivity).
      rewrite exec_applyCache. repeat split; reflexivity. }
    set (st := exec (pollCache data cache) (exec (pollStatus data) s)).
    assert (Ht : t = exec (setError (st_error data) ;; clearPolling ;;
                           setStage "error") st).
    { subst t st. unfold pollTick. rewrite !exec_bind.
      unfold pollTerminal. rewrite Herr. rewrite !exec_bind. reflexivity. }
    assert (Hp : perspectivesByColor t =
                 mergeCache (pollScope s) (pollScopeProto s)
                            (pulled (PollOk data cache))
                            (perspectivesByColor s)).
    { subst t. apply Reconciler.perspectives_pollTick. }
    split; [subst t; rewrite stage_pollTick, Herr; reflexivity|].
    split; [rewrite Ht; reflexivity|].
    split; [rewrite Ht; reflexivity|].
    split.
    { rewrite Ht. transitivity (revealedColors st); [reflexivity|].
      subst st. rewrite (proj2 (proj2 (Hframe _))). reflexivity. }
    rewrite Hp. split.
    + intros c held Hget.
      destruct (MergeFacts.mergeCache_origin
                  (pollScope s) (pollScopeProto s)
                  (pulled (PollOk data cache))
                  (perspectivesByColor s) c held Hget) as (held' & Hg & _).
      exists held'. exact Hg.
    + intros Hnone. rewrite Hnone. reflexivity.
Qed.

Lemma error_transition_preserves_perspectives_witness :
  stage (exec (pollTick (PollOk failedStatus CacheFailed))
              (run pushedRun initialState)) = "error" /\
  perspectivesByColor
    (exec (pollTick (PollOk failedStatus CacheFailed))
          (run pushedRun initialState))
  = perspectivesByColor (run pushedRun initialState).
Proof.
  destruct (proj2 (error_transition_preserves_perspectives
                     failedStatus (run pushedRun initialState)
                     eq_refl) CacheFailed)
    as (H1 & _ & _ & _ & _ & H6).
  split; [exact H1 | apply H6; reflexivity].
Defined.

End Controller.


(* ================================================================== *)
(** * The progressive reveal and the chart input *)
(* ================================================================== *)

Module Reveal.
Import Pipeline Views Scenarios HandlerFacts.
Local Open Scope handler_scope.

Lemma includes_In c rc : includes c rc = true <-> In c rc.
Proof.
  unfold includes. rewrite existsb_exists. split.
  - intros (x & Hin & Heq). apply String.eqb_eq in Heq. subst. exact Hin.
  - intros Hin. exists c. split; [exact Hin | apply String.eqb_refl].
Qed.

Lemma includes_not_In c rc : includes c rc = false <-> ~ In c rc.
Proof.
  rewrite <- includes_In. destruct (includes c rc); split; congruence.
Qed.

Lemma hd_filter_split {A} (f : A -> bool) l x :
  hd_error (filter f l) = Some x ->
  exists before after,
    l = before ++ x :: after /\ f x = true /\
    forall y, In y before -> f y = false.
Proof.
  induction l as [|a r IH]; simpl; [discriminate|].
  destruct (f a) eqn:Fa; simpl.
  - intros [= ->]. exists [], r. repeat split; [exact Fa|]. intros y [].
  - intros H. destruct (IH H) as (before & after & -> & Fx & Hb).
    exists (a :: before), after. repeat split; [exact Fx|].
    intros y [<- | Hy]; [exact Fa | apply Hb, Hy].
Qed.

(** C3, counterexample: violet and red are both known and the chart is
    mounted; the reveal timer reveals violet, although red, which comes
    earlier in the spectral order, has data and is not revealed. *)
Lemma reveal_ignores_spectral_order :
  reachable (run cachedRun initialState) /\
  JsObject.keys (perspectivesByColor (run cachedRun initialState))
    = ["violet"; "red"] /\
  revealedColors (run cachedRun initialState) = [] /\
  value revealTick (run cachedRun initialState) = Some "violet" /\
  revealedColors (exec revealTick (run cachedRun initialState))
    = ["violet"] /\
  (Cards.idx "red" < Cards.idx "violet")%nat /\
  ~ spectralPrefix (exec revealTick (run cachedRun initialState)).
Proof.
  split; [apply Reconciler.run_reachable, reachable_init|].
  repeat split; try (vm_compute; reflexivity).
  - vm_compute. lia.
  - intros H. specialize (H "violet" "red").
    assert (Hin : In "red"
                     (revealedColors
                        (exec revealTick (run cachedRun initialState)))).
    { apply H; vm_compute; auto. lia. }
    vm_compute in Hin. destruct Hin as [Hin | []]. discriminate Hin.
Qed.

Lemma hd_filter_app {A} (f : A -> bool) before x after :
  (forall y, In y before -> f y = false) -> f x = true ->
  hd_error (filter f (before ++ x :: after)) = Some x.
Proof.
  intros Hb Fx. induction before as [|a r IH]; simpl.
  - rewrite Fx. reflexivity.
  - rewrite (Hb a) by (left; reflexivity). apply IH.
    intros y Hy. apply Hb. right. exact Hy.
Qed.

(** C3, as amended: the reveal sequence is extended in two ways, neither
    of which consults the spectral order. When the reveal timer reveals a
    colour, the chart is mounted, fewer colours are revealed than known,
    the colour is the first key of the per-colour state (in the order of
    [Object.keys]) that is not yet revealed, and it is appended to the
    reveal sequence; when it reveals none, the state is unchanged; and
    with the chart mounted and fewer colours revealed than known, the
    first unrevealed key is revealed (unless it is the empty string, which
    the effect takes for no colour). A socket frame that carries a colour
    and an array appends its colour on arrival if it is not yet revealed,
    whatever the keys and the chart. No other event extends the sequence;
    a start that runs empties it. *)
Theorem reveal_by_key_order_or_on_arrival s :
  match value revealTick s with
  | Some next =>
      showChart s = true /\
      (List.length (revealedColors s)
       < List.length (JsObject.keys (perspectivesByColor s)))%nat /\
      revealedColors (exec revealTick s) = revealedColors s ++ [next] /\
      perspectivesByColor (exec revealTick s) = perspectivesByColor s /\
      exists before after,
        JsObject.keys (perspectivesByColor s) = before ++ next :: after /\
        ~ In next (revealedColors s) /\
        forall c, In c before -> In c (revealedColors s)
  | None => exec revealTick s = s
  end /\
  (forall before next after,
      showChart s = true ->
      (List.length (revealedColors s)
       < List.length (JsObject.keys (perspectivesByColor s)))%nat ->
      JsObject.keys (perspectivesByColor s) = before ++ next :: after ->
      (forall c, In c before -> In c (revealedColors s)) ->
      ~ In next (revealedColors s) ->
      next <> "" ->
      value revealTick s = Some next) /\
  (forall data,
      wellFormed data = true ->
      revealedColors (exec (ws_onmessage (Parsed data)) s) =
      if includes (propertyKey (m_color data)) (revealedColors s)
      then revealedColors s
      else revealedColors s ++ [propertyKey (m_color data)]) /\
  (forall e,
      revealedColors (exec (handle e) s) = revealedColors s \/
      (exists wsThrows,
          e = Start wsThrows /\ runnable (stage s) = true /\
          revealedColors (exec (handle e) s) = []) \/
      (exists next,
          e = RevealTimer /\ value revealTick s = Some next /\
          revealedColors (exec (handle e) s) = revealedColors s ++ [next]) \/
      (exists data,
          e = WsFrame (Parsed data) /\ wellFormed data = true /\
          revealedColors (exec (handle e) s)
          = revealedColors s ++ [propertyKey (m_color data)])).
Proof.
  assert (Hval : value revealTick s = nextReveal s).
  { unfold revealTick, value, bind, get. cbn beta iota zeta.
    destruct (nextReveal s); reflexivity. }
  split; [|split; [|split]].
  - rewrite Hval. destruct (nextReveal s) as [next|] eqn:Hnext.
    + pose proof Hnext as Hnext0. unfold nextReveal in Hnext.
      destruct (showChart s) eqn:Hshow; [|discriminate]. simpl negb in Hnext.
      cbv iota in Hnext.
      destruct (List.length (JsObject.keys (perspectivesByColor s)) =? 0)%nat;
        [discriminate|].
      destruct (List.length (JsObject.keys (perspectivesByColor s))
                <=? List.length (revealedColors s))%nat eqn:Hlen;
        [discriminate|].
      apply Nat.leb_gt in Hlen.
      destruct (hd_error _) as [first|] eqn:Hhd in Hnext; [|discriminate].
      destruct (truthy (Some first)); [|discriminate].
      injection Hnext as ->.
      destruct (hd_filter_split _ _ _ Hhd)
        as (before & after & Hkeys & Hnew & Hold).
      apply negb_true_iff in Hnew.
      assert (Hexec : exec revealTick s =
                      with_revealedColors (revealedColors s ++ [next]) s).
      { unfold revealTick, exec, bind, get. cbn beta iota zeta.
        rewrite Hnext0. unfold setRevealedColors, modify, ret.
        cbn beta iota zeta. rewrite Hnew. reflexivity. }
      split; [reflexivity|]. split; [exact Hlen|].
      rewrite Hexec. split; [reflexivity|]. split; [reflexivity|].
      exists before, after. split; [exact Hkeys|].
      split; [apply includes_not_In, Hnew|].
      intros c Hc. apply includes_In.
      specialize (Hold c Hc). apply negb_false_iff in Hold. exact Hold.
    + unfold revealTick, exec, bind, get. cbn beta iota zeta.
      rewrite Hnext. reflexivity.
  - intros before next after Hshow Hlen Hkeys Hold Hnew Hne.
    rewrite Hval. unfold nextReveal.
    rewrite Hshow. simpl negb. cbv iota.
    destruct (List.length (JsObject.keys (perspectivesByColor s)) =? 0)%nat
      eqn:Hz; [apply Nat.eqb_eq in Hz; lia|].
    apply Nat.leb_gt in Hlen. rewrite Hlen, Hkeys.
    rewrite hd_filter_app.
    + unfold truthy. apply String.eqb_neq in Hne. rewrite Hne. reflexivity.
    + intros y Hy. apply negb_false_iff, includes_In, Hold, Hy.
    + apply negb_true_iff, includes_not_In, Hnew.
  - intros data Hwf. unfold wellFormed in Hwf. unfold ws_onmessage.
    rewrite Hwf. reflexivity.
  - intros e. rewrite (proj1 (EventFacts.handle_fields e s)).
    destruct e as [wsThrows| |r|d|d|message|r|r|r| | | | |sel];
      try (left; reflexivity).
    + destruct (runnable (stage s)) eqn:Hrun; [|left; reflexivity].
      right. left. exists wsThrows. repeat split.
    + destruct d as [|data]; [left; reflexivity|].
      destruct (wsRef s); simpl; [|left; reflexivity].
      destruct (wellFormed data) eqn:Hwf; [|left; reflexivity].
      destruct (includes (propertyKey (m_color data)) (revealedColors s));
        [left; reflexivity|].
      right. right. right. exists data. repeat split. exact Hwf.
    + rewrite Hval. destruct (nextReveal s) as [next|]; [|left; reflexivity].
      destruct (includes next (revealedColors s)); [left; reflexivity|].
      right. right. left. exists next. repeat split.
Qed.

Lemma reveal_by_key_order_or_on_arrival_witness :
  value revealTick (run cachedRun initialState) = Some "violet".
Proof.
  apply (proj1 (proj2 (reveal_by_key_order_or_on_arrival
                         (run cachedRun initialState)))
               [] "violet" ["red"]).
  - reflexivity.
  - vm_compute. lia.
  - reflexivity.
  - intros c [].
  - vm_compute. intros [].
  - discriminate.
Defined.

(** ** The chart input *)

Lemma get_pickRevealed held proto l obj c v :
  JsObject.get c (fold_left (pickRevealed held proto) l obj) = Some v ->
  JsObject.get c obj = Some v \/
  (In c l /\ c <> "__proto__" /\ v = Prototype.lookup c held proto /\
   Prototype.truthy v = true).
Proof.
  revert obj. induction l as [|a r IH]; intros obj; simpl; [auto|].
  intros H. apply IH in H.
  destruct H as [H | (Hin & Hne & Hv & Ht)];
    [|right; repeat split; [right; exact Hin | exact Hne | exact Hv | exact Ht]].
  unfold pickRevealed in H.
  destruct (Prototype.truthy (Prototype.lookup a held proto)) eqn:Ht;
    [|left; exact H].
  destruct (String.eqb a "__proto__") eqn:Ep; [left; exact H|].
  destruct (String.eqb c a) eqn:E.
  - apply String.eqb_eq in E. subst a.
    rewrite JsObjectFacts.get_set_same in H. injection H as <-.
    right. repeat split; [left; reflexivity | | exact Ht].
    apply String.eqb_neq, Ep.
  - apply String.eqb_neq in E.
    rewrite JsObjectFacts.get_set_other in H by exact E. left. exact H.
Qed.

(** What the object handed to the chart holds under a key. *)
Lemma get_chartPerspectives s c v :
  JsObject.get c (chartPerspectives s) = Some v ->
  showChart s = true /\ In c (revealedColors s) /\ c <> "__proto__" /\
  v = Prototype.lookup c (perspectivesByColor s) (perspectivesProto s) /\
  Prototype.truthy v = true.
Proof.
  unfold chartPerspectives. destruct (showChart s); simpl; [|discriminate].
  intros H. apply get_pickRevealed in H.
  destruct H as [H | H]; [discriminate H|]. split; [reflexivity | exact H].
Qed.

(** C10, the defect: a colour named [constructor] is revealed by its
    frame; after the final results have replaced the per-colour state by
    one that does not hold it, the object handed to the mounted chart
    still has the key [constructor], which is no key of the per-colour
    state, with the function [Object] found on the prototype chain as its
    value, and the points memo of the chart throws on it. In every state
    the rest of the claim holds: the object is empty while the chart is
    not mounted, each of its keys is a revealed colour, and what it holds
    under a key is what the read of that key on the per-colour state
    yields, the held array if the key is held. *)
Theorem chart_input_inherited_key :
  (let s := run inheritedKeyRun initialState in
   reachable s /\ showChart s = true /\
   revealedColors s = ["constructor"] /\
   JsObject.keys (perspectivesByColor s) = ["red"] /\
   chartPerspectives s = [("constructor", Prototype.AFunction 1)] /\
   ~ In "constructor" (JsObject.keys (perspectivesByColor s)) /\
   Chart.pointsOfInput (chartPerspectives s) [] Chart.defaultMaxPoints
   = None) /\
  (forall s,
      (showChart s = false -> chartPerspectives s = JsObject.empty) /\
      (forall c,
          In c (JsObject.keys (chartPerspectives s)) ->
          showChart s = true /\ In c (revealedColors s)) /\
      (forall c v,
          JsObject.get c (chartPerspectives s) = Some v ->
          v = Prototype.lookup c (perspectivesByColor s)
                               (perspectivesProto s) /\
          forall items,
            JsObject.get c (perspectivesByColor s) = Some items ->
            v = Prototype.AnArray items)).
Proof.
  split.
  - split; [apply Reconciler.run_reachable, reachable_init|].
    repeat split; try (vm_compute; reflexivity).
    vm_compute. intros [H | []]. discriminate H.
  - intros s. split; [|split].
    + intros Hshow. unfold chartPerspectives. rewrite Hshow. reflexivity.
    + intros c Hin. apply JsObjectFacts.in_keys_get in Hin.
      unfold JsObject.has in Hin.
      destruct (JsObject.get c (chartPerspectives s)) as [v|] eqn:E;
        [|discriminate].
      destruct (get_chartPerspectives s c v E) as (H1 & H2 & _).
      split; assumption.
    + intros c v H.
      destruct (get_chartPerspectives s c v H) as (_ & _ & _ & Hv & _).
      split; [exact Hv|]. intros items Hheld. rewrite Hv.
      unfold Prototype.lookup. rewrite Hheld. reflexivity.
Qed.

End Reveal.


(* ================================================================== *)
(** * The inferred significance *)
(* ================================================================== *)

Module SignificanceFacts.
Import Significance.
Local Open Scope R_scope.

Lemma exponent_pos : 0 < 1 / exponent.
Proof. unfold exponent. lra. Qed.

Lemma Math_pow_above_one x y : 1 < x -> 0 < y -> 1 < Math_pow x y.
Proof.
  intros Hx Hy. unfold Math_pow.
  destruct (Req_dec_T x 0) as [-> | _]; [lra|].
  unfold Rpower. rewrite <- exp_0. apply exp_increasing.
  apply Rmult_lt_0_compat; [exact Hy|].
  rewrite <- ln_1. apply ln_increasing; lra.
Qed.

Lemma Math_pow_nonneg x y : 0 <= Math_pow x y.
Proof.
  unfold Math_pow. destruct (Req_dec_T x 0); [lra|].
  unfold Rpower. left. apply exp_pos.
Qed.

Lemma Math_pow_at_most_one x y : 0 <= x <= 1 -> 0 < y -> Math_pow x y <= 1.
Proof.
  intros [Hx0 Hx1] Hy. unfold Math_pow.
  destruct (Req_dec_T x 0) as [-> | Hne]; [lra|].
  destruct (Req_dec_T x 1) as [-> | Hne1].
  - unfold Rpower. rewrite ln_1, Rmult_0_r, exp_0. lra.
  - unfold Rpower. rewrite <- exp_0. left. apply exp_increasing.
    assert (Hln : ln x < 0) by (rewrite <- ln_1; apply ln_increasing; lra).
    nra.
Qed.

(** The base of the inversion for a count above 136. *)
Lemma base_above_one (n : Z) :
  (136 < n)%Z -> 1 < Rmax 0 (IZR n - 8) / 128.
Proof.
  intros Hn. apply IZR_lt in Hn.
  rewrite Rmax_right by lra. lra.
Qed.

(** Every count above 136 yields an inferred significance above 1. *)
Lemma inferSignificance_above_one (n : Z) :
  (136 < n)%Z -> 1 < inferSignificance n.
Proof.
  intros Hn. unfold inferSignificance.
  apply Math_pow_above_one; [apply base_above_one, Hn | apply exponent_pos].
Qed.

(** The lower clamp and, up to 136, the upper bound hold. *)
Lemma inferSignificance_within (n : Z) :
  0 <= inferSignificance n /\ ((n <= 136)%Z -> inferSignificance n <= 1).
Proof.
  split; [apply Math_pow_nonneg|].
  intros Hn. apply IZR_le in Hn. unfold inferSignificance.
  apply Math_pow_at_most_one; [|apply exponent_pos].
  unfold Rmax. destruct (Rle_dec 0 (IZR n - 8)); lra.
Qed.

(** A supplied significance is clamped to [[0, 1]]. *)
Lemma supplied_significance_clamped (n : Z) (x : R) e :
  buildSignificanceExplanation n (Some x) = Some e -> 0 <= s e <= 1.
Proof.
  unfold buildSignificanceExplanation. destruct (n =? 0)%Z; [discriminate|].
  intros [= <-]. simpl. unfold Rmin, Rmax.
  destruct (Rle_dec 0 x); destruct (Rle_dec 1 _); lra.
Qed.

(** C8, at the failing input: for 1000 perspectives and no supplied
    significance the helper takes the derived branch and returns an
    inferred significance above 1. *)
Theorem inferred_significance_exceeds_one :
  exists e,
    buildSignificanceExplanation 1000 None = Some e /\
    derived e = true /\ s e = inferSignificance 1000 /\ 1 < s e.
Proof.
  eexists. split; [reflexivity|]. split; [reflexivity|].
  split; [reflexivity|]. simpl s.
  apply inferSignificance_above_one. lia.
Qed.

End SignificanceFacts.


(* ================================================================== *)
(** * Exactness of the quota allocation *)
(* ================================================================== *)

Module QuotaFacts.
Import Quota.

(** Scenario: [allocate({Left:30, Common:10, Right:60}, 10)]. *)
Example allocate_30_10_60 :
  map (quotas (allocate (bandMap 30 10 60) 10)) bands
  = [Some 3; Some 1; Some 6].
Proof. reflexivity. Qed.

(** Rounding each share on its own gives 1 + 1 + 1 for a target of 2; the
    rebalancing takes the unit back from one band. *)
Example allocate_thirds :
  map (quotas (allocate (bandMap 1 1 1) 2)) bands = [Some 0; Some 1; Some 1]
  /\ sumQuota (quotas (allocate (bandMap 1 1 1) 2)) = 2.
Proof. split; reflexivity. Qed.

Lemma sumOver_unfold f : sumOver f = f Left + f Common + f Right.
Proof. unfold sumOver. simpl. lia. Qed.

Lemma forall_band (P : Band -> Prop) :
  P Left -> P Common -> P Right -> forall b, P b.
Proof. intros HL HC HR b. destruct b; assumption. Qed.

Lemma roundFraction_bounds size k total :
  0 <= size -> 0 <= k < total ->
  0 <= roundFraction (size * k) total <= size.
Proof.
  intros Hsize Hk. unfold roundFraction.
  assert (Hd : 0 < total) by lia.
  pose proof (Z.div_mod (size * k) total ltac:(lia)) as Hdm.
  pose proof (Z.mod_pos_bound (size * k) total Hd) as Hm.
  set (fl := size * k / total) in *. set (r := (size * k) mod total) in *.
  assert (Hfl0 : 0 <= fl) by (subst fl; apply Z.div_pos; nia).
  assert (Hfl1 : fl <= size) by nia.
  assert (Hup : 0 < r -> fl + 1 <= size) by (intros Hr; nia).
  destruct (2 * r <? total) eqn:E1; [lia|].
  apply Z.ltb_ge in E1.
  destruct (total <? 2 * r); [lia|].
  destruct (Z.even fl); lia.
Qed.

Lemma pick_some bandSizes k q delta b :
  pick bandSizes k q delta = Some b -> eligible bandSizes q delta b = true.
Proof.
  unfold pick, bands. simpl fold_left.
  destruct (eligible bandSizes q delta Left) eqn:EL;
    destruct (eligible bandSizes q delta Common) eqn:EC;
    destruct (eligible bandSizes q delta Right) eqn:ER;
    repeat match goal with
           | |- context [if ?c then Some _ else Some _] => destruct c
           end;
    intros [= <-]; assumption.
Qed.

Lemma pick_none bandSizes k q delta :
  pick bandSizes k q delta = None ->
  forall b, eligible bandSizes q delta b = false.
Proof.
  unfold pick, bands. simpl fold_left.
  destruct (eligible bandSizes q delta Left) eqn:EL;
    destruct (eligible bandSizes q delta Common) eqn:EC;
    destruct (eligible bandSizes q delta Right) eqn:ER;
    repeat match goal with
           | |- context [if ?c then Some _ else Some _] => destruct c
           end;
    intros H; try discriminate H.
  apply forall_band; assumption.
Qed.

Lemma sumOver_adjust b d q : sumOver (adjust b d q) = sumOver q + d.
Proof. rewrite !sumOver_unfold. unfold adjust. destruct b; simpl; lia. Qed.

Lemma absent_valueAt (m : Band -> option Z) b :
  present m b = false -> valueAt m b = 0.
Proof. unfold present, valueAt. destruct (m b); [discriminate | reflexivity]. Qed.

Lemma eligible_exists bandSizes q delta target :
  within bandSizes q ->
  sumOver q + delta = target -> 0 <= target < totalPopulation bandSizes ->
  delta <> 0 ->
  exists b, eligible bandSizes q delta b = true.
Proof.
  intros Hw Hsum Ht Hd. unfold totalPopulation in Ht.
  rewrite sumOver_unfold in Hsum, Ht.
  pose proof (Hw Left) as HL. pose proof (Hw Common) as HC.
  pose proof (Hw Right) as HR.
  assert (Hel : forall b,
             (if 0 <? delta then q b <? valueAt bandSizes b else 0 <? q b)
             = true -> eligible bandSizes q delta b = true).
  { intros b Hb. unfold eligible. rewrite Hb.
    destruct (present bandSizes b) eqn:Hp; [reflexivity|].
    apply absent_valueAt in Hp. specialize (Hw b).
    destruct (0 <? delta); [apply Z.ltb_lt in Hb | apply Z.ltb_lt in Hb]; lia. }
  destruct (0 <? delta) eqn:Hpos.
  - apply Z.ltb_lt in Hpos.
    destruct (Z_lt_dec (q Left) (valueAt bandSizes Left));
      [exists Left; apply Hel, Z.ltb_lt; assumption|].
    destruct (Z_lt_dec (q Common) (valueAt bandSizes Common));
      [exists Common; apply Hel, Z.ltb_lt; assumption|].
    exists Right. apply Hel, Z.ltb_lt. lia.
  - apply Z.ltb_ge in Hpos.
    destruct (Z_lt_dec 0 (q Left));
      [exists Left; apply Hel, Z.ltb_lt; assumption|].
    destruct (Z_lt_dec 0 (q Common));
      [exists Common; apply Hel, Z.ltb_lt; assumption|].
    exists Right. apply Hel, Z.ltb_lt. lia.
Qed.

Lemma within_adjust bandSizes q delta b :
  within bandSizes q -> eligible bandSizes q delta b = true ->
  within bandSizes (adjust b (if 0 <? delta then 1 else -1) q).
Proof.
  intros Hw He b'. unfold adjust. specialize (Hw b').
  destruct (Band_eqb b' b) eqn:E; [|exact Hw].
  assert (b' = b) by (destruct b', b; try discriminate; reflexivity). subst b'.
  unfold eligible in He. apply andb_true_iff in He. destruct He as [_ He].
  destruct (0 <? delta); apply Z.ltb_lt in He; lia.
Qed.

(** The rebalancing loop ends with the target reached. *)
Lemma rebalance_sum fuel bandSizes k q delta target :
  within bandSizes q ->
  sumOver q + delta = target -> 0 <= target < totalPopulation bandSizes ->
  (Z.abs_nat delta <= fuel)%nat ->
  sumOver (rebalance fuel bandSizes k q delta) = target.
Proof.
  revert q delta. induction fuel as [|fuel IH]; intros q delta Hw Hsum Ht Hf.
  - simpl. lia.
  - simpl. destruct (delta =? 0) eqn:Hz; [apply Z.eqb_eq in Hz; lia|].
    apply Z.eqb_neq in Hz.
    destruct (pick bandSizes k q delta) as [b|] eqn:Hp.
    + apply pick_some in Hp. apply IH.
      * apply within_adjust; assumption.
      * rewrite sumOver_adjust. lia.
      * exact Ht.
      * destruct (0 <? delta) eqn:Hpos;
          [apply Z.ltb_lt in Hpos | apply Z.ltb_ge in Hpos]; lia.
    + destruct (eligible_exists bandSizes q delta target Hw Hsum Ht Hz)
        as [b Hb].
      rewrite (pick_none _ _ _ _ Hp b) in Hb. discriminate Hb.
Qed.

(** A band that is absent from the map keeps the quota 0. *)
Lemma rebalance_absent fuel bandSizes k q delta b :
  present bandSizes b = false -> q b = 0 ->
  rebalance fuel bandSizes k q delta b = 0.
Proof.
  intros Hp. revert q delta.
  induction fuel as [|fuel IH]; intros q delta Hq; simpl; [exact Hq|].
  destruct (delta =? 0); [exact Hq|].
  destruct (pick bandSizes k q delta) as [b'|] eqn:Hpick; [|exact Hq].
  apply IH. unfold adjust.
  destruct (Band_eqb b b') eqn:E; [|exact Hq].
  assert (b = b') by (destruct b, b'; try discriminate; reflexivity).
  subst b'. apply pick_some in Hpick. unfold eligible in Hpick.
  rewrite Hp in Hpick. discriminate Hpick.
Qed.

(** C5: for every band-size map with non-negative populations and every
    [k] with [0 <= k <= totalPopulation], the quotas returned by [allocate]
    sum to exactly [k]. The map may hold any of the three bands; no
    assumption of non-emptiness is needed. *)
Theorem allocate_sums_to_k bandSizes k :
  (forall b n, bandSizes b = Some n -> 0 <= n) ->
  0 <= k <= totalPopulation bandSizes ->
  sumQuota (quotas (allocate bandSizes k)) = k.
Proof.
  intros Hsizes Hk. unfold allocate.
  destruct (totalPopulation bandSizes <=? k) eqn:Hle.
  - apply Z.leb_le in Hle. simpl. unfold sumQuota.
    fold (totalPopulation bandSizes). lia.
  - apply Z.leb_gt in Hle. simpl quotas. unfold sumQuota.
    set (total := totalPopulation bandSizes) in *.
    set (q0 := fun b =>
                 if present bandSizes b
                 then roundFraction (valueAt bandSizes b * k) total else 0).
    set (delta := k - sumOver q0).
    assert (Hw : within bandSizes q0).
    { intros b. subst q0. simpl.
      destruct (present bandSizes b) eqn:Hp.
      - apply roundFraction_bounds; [|lia].
        unfold valueAt. destruct (bandSizes b) as [n|] eqn:Hb; [|lia].
        apply (Hsizes b n Hb).
      - rewrite (absent_valueAt _ _ Hp). lia. }
    pose proof (rebalance_sum (Z.abs_nat delta) bandSizes k q0 delta k Hw
                              ltac:(subst delta; lia) ltac:(lia)
                              (Nat.le_refl _)) as Hsum.
    set (q := rebalance (Z.abs_nat delta) bandSizes k q0 delta) in *.
    assert (Hwq : forall b, present bandSizes b = false -> q b = 0).
    { intros b Hp. subst q. apply rebalance_absent; [exact Hp|].
      subst q0. simpl. rewrite Hp. reflexivity. }
    rewrite sumOver_unfold in Hsum. rewrite sumOver_unfold.
    unfold valueAt.
    assert (Hv : forall b,
               match (if present bandSizes b then Some (q b) else None) with
               | Some n => n
               | None => 0
               end = q b).
    { intros b. destruct (present bandSizes b) eqn:Hp; [reflexivity|].
      symmetry. apply Hwq, Hp. }
    rewrite !Hv. exact Hsum.
Qed.

Lemma allocate_sums_to_k_witness :
  sumQuota (quotas (allocate (bandMap 30 10 60) 47)) = 47.
Proof.
  apply (allocate_sums_to_k (bandMap 30 10 60) 47).
  - intros b n. destruct b; intros [= <-]; lia.
  - vm_compute. split; discriminate.
Defined.

End QuotaFacts.


(* ================================================================== *)
(** * Invariants of runs *)
(* ================================================================== *)

Module RunInvariants.
Import Pipeline Views RunViews HandlerFacts EventFacts.
Local Open Scope handler_scope.

Lemma NoDup_snoc {A} (l : list A) x : NoDup l -> ~ In x l -> NoDup (l ++ [x]).
Proof.
  intros Hl Hx. apply (Permutation_NoDup (Permutation_cons_append l x)).
  constructor; assumption.
Qed.

Lemma appended_once c rc :
  NoDup rc -> NoDup (if includes c rc then rc else rc ++ [c]).
Proof.
  intros Hrc. destruct (includes c rc) eqn:E; [exact Hrc|].
  apply NoDup_snoc; [exact Hrc | apply Reveal.includes_not_In, E].
Qed.

(** X1: in every state a run can reach, no colour occurs twice in the
    reveal sequence: a colour is revealed at most once per run, whether by
    a socket frame or by the reveal timer. *)
Theorem reveal_sequence_no_duplicates s :
  reachable s -> NoDup (revealedColors s).
Proof.
  induction 1 as [|e s Hs IH]; [constructor|].
  rewrite (proj1 (handle_fields e s)).
  destruct e as [wsThrows| |r|d|d|message|r|r|r| | | | |sel]; try exact IH.
  - destruct (runnable (stage s)); [constructor | exact IH].
  - destruct d as [|data]; [exact IH|].
    destruct (wsRef s && wellFormed data); [|exact IH].
    apply appended_once, IH.
  - destruct (nextReveal s) as [next|]; [|exact IH].
    apply appended_once, IH.
Qed.

Lemma reveal_sequence_no_duplicates_witness :
  NoDup (revealedColors (run Scenarios.pushedRun initialState)).
Proof.
  apply reveal_sequence_no_duplicates.
  apply Reconciler.run_reachable, reachable_init.
Defined.

(** X2: the reveal sequence is append-only. Any event either extends it
    by at most one colour at its end, or is a start that runs and empties
    it. *)
Theorem reveal_sequence_append_only e s :
  (exists suffix,
      revealedColors (exec (handle e) s) = revealedColors s ++ suffix /\
      (List.length suffix <= 1)%nat) \/
  (exists wsThrows,
      e = Start wsThrows /\ runnable (stage s) = true /\
      revealedColors (exec (handle e) s) = []).
Proof.
  rewrite (proj1 (handle_fields e s)).
  assert (Hsame : exists suffix,
             revealedColors s = revealedColors s ++ suffix /\
             (List.length suffix <= 1)%nat).
  { exists []. rewrite app_nil_r. split; [reflexivity | simpl; lia]. }
  assert (Happ : forall c,
             exists suffix,
               (if includes c (revealedColors s) then revealedColors s
                else revealedColors s ++ [c]) = revealedColors s ++ suffix /\
               (List.length suffix <= 1)%nat).
  { intros c. destruct (includes c (revealedColors s)); [exact Hsame|].
    exists [c]. split; [reflexivity | simpl; lia]. }
  destruct e as [wsThrows| |r|d|d|message|r|r|r| | | | |sel];
    try (left; exact Hsame).
  - destruct (runnable (stage s)) eqn:Hrun; [|left; exact Hsame].
    right. exists wsThrows. repeat split.
  - destruct d as [|data]; [left; exact Hsame|].
    destruct (wsRef s && wellFormed data); [|left; exact Hsame].
    left. apply Happ.
  - destruct (nextReveal s) as [next|]; [|left; exact Hsame].
    left. apply Happ.
Qed.

(** ** Loading a snapshot, one entry at a time *)

Lemma nonEmptyArrays_fold snapshot :
  nonEmptyArrays snapshot =
  fold_left keepNonEmpty snapshot (JsObject.empty, Prototype.Plain).
Proof. reflexivity. Qed.

Lemma has_assign k (arr : list Perspective) o c :
  JsObject.has c (fst o) = true ->
  JsObject.has c (fst (Prototype.assign k arr o)) = true.
Proof.
  intros Ho. unfold Prototype.assign.
  destruct (String.eqb k "__proto__" && negb (JsObject.has k (fst o)));
    simpl; [exact Ho|].
  rewrite JsObjectFacts.has_set, Ho. apply orb_true_r.
Qed.

Lemma has_kept l o c :
  JsObject.has c (fst o) = true ->
  JsObject.has c (fst (fold_left keepNonEmpty l o)) = true.
Proof.
  revert o. induction l as [|e r IH]; intros o Ho; simpl; [exact Ho|].
  apply IH. unfold keepNonEmpty.
  destruct (isArray (snd e) && _); [apply has_assign|]; exact Ho.
Qed.

(** An array of the snapshot that is not empty makes its colour a key of
    the loaded state, unless the colour is [__proto__]. *)
Lemma has_kept_entry l o e :
  In e l ->
  isArray (snd e) && (0 <? List.length (elements (snd e)))%nat = true ->
  fst e <> "__proto__" ->
  JsObject.has (fst e) (fst (fold_left keepNonEmpty l o)) = true.
Proof.
  revert o. induction l as [|a r IH]; intros o Hin He Hne; [destruct Hin|].
  simpl. destruct Hin as [-> | Hin]; [|apply IH; assumption].
  apply has_kept. unfold keepNonEmpty. rewrite He.
  unfold Prototype.assign. apply String.eqb_neq in Hne. rewrite Hne. simpl.
  apply JsObjectFacts.has_set_same.
Qed.

(** The key [__proto__] never becomes an own key of the loaded state. *)
Lemma no_proto_key_kept l o :
  JsObject.has "__proto__" (fst o) = false ->
  JsObject.has "__proto__" (fst (fold_left keepNonEmpty l o)) = false.
Proof.
  revert o. induction l as [|e r IH]; intros [own proto] Ho; simpl;
    [exact Ho|].
  apply IH. unfold keepNonEmpty.
  destruct (isArray (snd e) && _); [|exact Ho].
  unfold Prototype.assign. cbn [fst snd] in Ho |- *.
  destruct (String.eqb (fst e) "__proto__") eqn:E.
  - apply String.eqb_eq in E. rewrite E, Ho. simpl. exact Ho.
  - simpl. rewrite JsObjectFacts.has_set, Ho, orb_false_r.
    rewrite String.eqb_sym. exact E.
Qed.

(** A replaced prototype is an array of the snapshot that is not empty,
    reported under [__proto__]. *)
Lemma proto_kept_origin snapshot l o arr :
  incl l snapshot ->
  (forall a, snd o = Prototype.ArrayProto a ->
             a <> [] /\ In ("__proto__", JArray a) snapshot) ->
  snd (fold_left keepNonEmpty l o) = Prototype.ArrayProto arr ->
  arr <> [] /\ In ("__proto__", JArray arr) snapshot.
Proof.
  revert o. induction l as [|e r IH]; intros o Hincl Ho; simpl; [apply Ho|].
  apply IH; [intros x Hx; apply Hincl; right; exact Hx|].
  intros a. unfold keepNonEmpty.
  destruct (isArray (snd e)) eqn:Ha; simpl; [|apply Ho].
  destruct (0 <? List.length (elements (snd e)))%nat eqn:Hl; [|apply Ho].
  unfold Prototype.assign.
  destruct (String.eqb (fst e) "__proto__") eqn:E; simpl; [|apply Ho].
  destruct (negb _); simpl; [|apply Ho].
  intros [= <-]. split; [apply MergeFacts.length_pos_nonempty, Hl|].
  apply String.eqb_eq in E.
  rewrite <- (MergeFacts.isArray_elements _ Ha), <- E.
  destruct e. apply Hincl. left. reflexivity.
Qed.

(** A non-empty array under [__proto__] replaces the prototype. *)
Lemma proto_kept_entry l o items :
  JsObject.has "__proto__" (fst o) = false ->
  In ("__proto__", JArray items) l -> items <> [] ->
  exists arr, snd (fold_left keepNonEmpty l o) = Prototype.ArrayProto arr.
Proof.
  assert (Hstays : forall l o arr,
             snd o = Prototype.ArrayProto arr ->
             exists arr',
               snd (fold_left keepNonEmpty l o) = Prototype.ArrayProto arr').
  { induction l0 as [|e r IH]; intros o0 arr Ho; simpl; [eauto|].
    unfold keepNonEmpty at 2.
    destruct (isArray (snd e) && _); [|apply (IH _ arr), Ho].
    unfold Prototype.assign.
    destruct (String.eqb (fst e) "__proto__" && negb _);
      [apply (IH _ (elements (snd e))); reflexivity
      |apply (IH _ arr); exact Ho]. }
  revert o. induction l as [|e r IH]; intros [own proto] Ho Hin Hne;
    [destruct Hin|].
  simpl. destruct Hin as [-> | Hin].
  - unfold keepNonEmpty at 2. simpl.
    destruct items as [|x items]; [contradiction|]. simpl.
    unfold Prototype.assign. simpl in Ho |- *. rewrite Ho. simpl.
    apply (Hstays _ _ (x :: items)). reflexivity.
  - apply IH; [|exact Hin | exact Hne].
    apply (no_proto_key_kept [e]). exact Ho.
Qed.

Lemma hasAny_loads snapshot :
  hasAny snapshot = true ->
  JsObject.keys (fst (nonEmptyArrays snapshot)) <> [] \/
  snd (nonEmptyArrays snapshot) <> Prototype.Plain.
Proof.
  unfold hasAny. intros H. apply existsb_exists in H.
  destruct H as ([k v] & Hin & He). rewrite nonEmptyArrays_fold.
  destruct (String.eqb k "__proto__") eqn:E.
  - apply String.eqb_eq in E. subst k. right.
    simpl in He. apply andb_true_iff in He. destruct He as [Ha Hl].
    rewrite (MergeFacts.isArray_elements _ Ha) in Hin.
    destruct (proto_kept_entry snapshot (JsObject.empty, Prototype.Plain)
                (elements v) eq_refl Hin
                (MergeFacts.length_pos_nonempty _ Hl)) as (arr & Harr).
    rewrite Harr. discriminate.
  - apply String.eqb_neq in E. left.
    pose proof (has_kept_entry snapshot (JsObject.empty, Prototype.Plain)
                  (k, v) Hin He E) as Hh.
    apply JsObjectFacts.in_keys_get in Hh. simpl in Hh.
    destruct (JsObject.keys
                (fst (fold_left keepNonEmpty snapshot
                                (JsObject.empty, Prototype.Plain))));
      [destruct Hh | discriminate].
Qed.

Lemma exec_loadCache s :
  exec loadCache s =
  match cacheSnapshotRef s with
  | Some snapshot =>
      with_progress 95
        (with_stage "module3"
           (with_perspectivesProto (snd (nonEmptyArrays snapshot))
              (with_perspectivesByColor (fst (nonEmptyArrays snapshot)) s)))
  | None => s
  end.
Proof.
  unfold loadCache, exec, bind, get. cbn beta iota zeta.
  destruct (cacheSnapshotRef s); reflexivity.
Qed.

(** X3: whenever the view offers to load the cache, it holds a snapshot
    with at least one non-empty array, so that loading it yields at least
    one colour or, when such an array sits under the key [__proto__], an
    object that has the array for its prototype; and a start that runs
    withdraws the offer together with the snapshot, so that the offer is
    never left standing without loadable data. *)
Theorem cache_offer_is_loadable s :
  reachable s ->
  (cacheAvailable s = true ->
   exists snapshot,
     cacheSnapshotRef s = Some snapshot /\ hasAny snapshot = true /\
     (JsObject.keys (perspectivesByColor (exec loadCache s)) <> [] \/
      perspectivesProto (exec loadCache s) <> Prototype.Plain)) /\
  (forall wsThrows,
      runnable (stage s) = true ->
      cacheAvailable (exec (startPipeline wsThrows) s) = false /\
      cacheSnapshotRef (exec (startPipeline wsThrows) s) = None).
Proof.
  intros Hs. split.
  - intros Hoffer.
    assert (Hinv : exists snapshot,
               cacheSnapshotRef s = Some snapshot /\ hasAny snapshot = true).
    { revert Hoffer. induction Hs as [|e s Hs IH]; [discriminate|].
      destruct (handle_fields e s) as (_ & Ha & Hr & _).
      rewrite Ha, Hr.
      destruct e as [wsThrows| |r|d|d|message|r|r|r| | | | |sel];
        try exact IH.
      - destruct (runnable (stage s)); [discriminate | exact IH].
      - destruct r as [| |data]; try exact IH.
        destruct (hasAny data) eqn:Hany; [|exact IH].
        intros _. exists data. split; [reflexivity | exact Hany]. }
    destruct Hinv as (snapshot & Hsnap & Hany).
    exists snapshot. split; [exact Hsnap|]. split; [exact Hany|].
    rewrite exec_loadCache, Hsnap. apply hasAny_loads, Hany.
  - intros wsThrows Hrun.
    destruct (handle_fields (Start wsThrows) s) as (_ & Ha & Hr & _).
    change (exec (handle (Start wsThrows)) s)
      with (exec (startPipeline wsThrows) s) in Ha, Hr.
    rewrite Ha, Hr, Hrun. split; reflexivity.
Qed.

Lemma cache_offer_is_loadable_witness :
  exists snapshot,
    cacheSnapshotRef
      (run [CacheProbed (CacheOk [("red", JArray Scenarios.three)])]
           initialState) = Some snapshot /\
    hasAny snapshot = true.
Proof.
  destruct (proj1 (cache_offer_is_loadable
                     (run [CacheProbed
                             (CacheOk [("red", JArray Scenarios.three)])]
                          initialState)
                     ltac:(apply Reconciler.run_reachable, reachable_init))
                  eq_refl)
    as (snapshot & H1 & H2 & _).
  exists snapshot. split; assumption.
Defined.

(** X4: the loaded flag of the chart is never cleared, not even by a new
    start; it is raised only by its timer, with the chart mounted, some
    colour known and at least as many colours revealed as known. *)
Theorem chart_loaded_flag_is_sticky e s :
  (chartFullyLoaded s = true -> chartFullyLoaded (exec (handle e) s) = true)
  /\
  (chartFullyLoaded s = false ->
   chartFullyLoaded (exec (handle e) s) = true ->
   e = ChartLoadedTimer /\ showChart s = true /\
   JsObject.keys (perspectivesByColor s) <> [] /\
   (List.length (JsObject.keys (perspectivesByColor s))
    <= List.length (revealedColors s))%nat).
Proof.
  destruct (handle_fields e s) as (_ & _ & _ & Hl). rewrite Hl.
  destruct e as [wsThrows| |r|d|d|message|r|r|r| | | | |sel];
    try (split; [auto | intros H0 H1; congruence]).
  destruct (showChart s); simpl;
    [|split; [auto | intros H0 H1; congruence]].
  destruct (List.length (JsObject.keys (perspectivesByColor s)) =? 0)%nat
    eqn:Hz; simpl; [split; [auto | intros H0 H1; congruence]|].
  destruct (List.length (JsObject.keys (perspectivesByColor s))
            <=? List.length (revealedColors s))%nat eqn:Hle;
    [|split; [auto | intros H0 H1; congruence]].
  split; [reflexivity|]. intros _ _.
  apply Nat.eqb_neq in Hz. apply Nat.leb_le in Hle.
  repeat split; [|exact Hle].
  intros Hnil. rewrite Hnil in Hz. apply Hz. reflexivity.
Qed.

Lemma chart_loaded_flag_is_sticky_witness :
  chartFullyLoaded
    (exec (handle (Start None))
          (with_stage "done" (with_chartFullyLoaded true initialState)))
  = true.
Proof.
  apply (proj1 (chart_loaded_flag_is_sticky
                  (Start None)
                  (with_stage "done"
                     (with_chartFullyLoaded true initialState)))).
  reflexivity.
Defined.

(** X5: within a run a known colour stays known: no event other than a
    start, the answer of the results request or the loading of a cache
    snapshot removes a key from the per-colour state. *)
Theorem known_colours_only_grow e s c :
  streaming e = true ->
  In c (JsObject.keys (perspectivesByColor s)) ->
  In c (JsObject.keys (perspectivesByColor (exec (handle e) s))).
Proof.
  intros Hstream Hin. rewrite perspectives_handle.
  assert (Hset : forall k v,
             In c (JsObject.keys (JsObject.set k v (perspectivesByColor s)))).
  { intros k v. apply JsObjectFacts.in_keys_set. right. exact Hin. }
  destruct e as [wsThrows| |r|d|d|message|r|r|r| | | | |sel];
    try discriminate Hstream; try exact Hin.
  - destruct d as [|data]; [exact Hin|].
    destruct (wsRef s && wellFormed data); [apply Hset | exact Hin].
  - destruct d as [|data]; [exact Hin|].
    destruct (wsRef s && wellFormed data); [apply Hset | exact Hin].
  - destruct (pollRef s); [|exact Hin].
    apply JsObjectFacts.in_keys_get in Hin. unfold JsObject.has in Hin.
    destruct (JsObject.get c (perspectivesByColor s)) as [held|] eqn:Hget;
      [|discriminate].
    destruct (MergeFacts.mergeCache_origin
                (pollScope s) (pollScopeProto s) (pulled r)
                (perspectivesByColor s) c held Hget)
      as (held' & Hget' & _).
    apply JsObjectFacts.in_keys_get. unfold JsObject.has. rewrite Hget'.
    reflexivity.
Qed.

Lemma known_colours_only_grow_witness :
  In "red"
     (JsObject.keys
        (perspectivesByColor
           (exec (handle (PollFired Scenarios.smallerPull))
                 (run Scenarios.pushedRun initialState)))).
Proof.
  apply (known_colours_only_grow
           (PollFired Scenarios.smallerPull)
           (run Scenarios.pushedRun initialState) "red").
  - reflexivity.
  - vm_compute. auto.
Defined.

End RunInvariants.


(* ================================================================== *)
(** * Progress of the reveal *)
(* ================================================================== *)

Module RevealProgress.
Import Pipeline Views RunViews HandlerFacts EventFacts.
Local Open Scope handler_scope.

Lemma nextReveal_none s :
  (List.length (JsObject.keys (perspectivesByColor s))
   <= List.length (revealedColors s))%nat ->
  nextReveal s = None.
Proof.
  intros Hle. unfold nextReveal. destruct (negb (showChart s)); [reflexivity|].
  destruct (List.length (JsObject.keys (perspectivesByColor s)) =? 0)%nat;
    [reflexivity|].
  apply Nat.leb_le in Hle. rewrite Hle. reflexivity.
Qed.

Lemma nextReveal_first s next rest :
  showChart s = true ->
  (List.length (revealedColors s)
   < List.length (JsObject.keys (perspectivesByColor s)))%nat ->
  unrevealed s = next :: rest -> next <> "" ->
  nextReveal s = Some next.
Proof.
  intros Hshow Hlt Hun Hne. unfold nextReveal. rewrite Hshow. simpl negb.
  cbv iota.
  destruct (List.length (JsObject.keys (perspectivesByColor s)) =? 0)%nat
    eqn:Hz; [apply Nat.eqb_eq in Hz; lia|].
  apply Nat.leb_gt in Hlt. rewrite Hlt.
  unfold unrevealed in Hun. rewrite Hun. simpl hd_error. cbv iota.
  unfold truthy. apply String.eqb_neq in Hne. rewrite Hne. reflexivity.
Qed.

(** With fewer colours revealed than known, and the revealed ones among
    the known ones, some known colour is unrevealed. *)
Lemma unrevealed_nonempty s :
  NoDup (JsObject.keys (perspectivesByColor s)) ->
  (List.length (revealedColors s)
   < List.length (JsObject.keys (perspectivesByColor s)))%nat ->
  unrevealed s <> [].
Proof.
  intros Hnd Hlt Hnil.
  assert (Hincl : incl (JsObject.keys (perspectivesByColor s))
                       (revealedColors s)).
  { intros c Hc. apply Reveal.includes_In.
    destruct (includes c (revealedColors s)) eqn:E; [reflexivity|].
    assert (Hf : In c (unrevealed s)).
    { unfold unrevealed. apply filter_In. split; [exact Hc|].
      rewrite E. reflexivity. }
    rewrite Hnil in Hf. destruct Hf. }
  pose proof (NoDup_incl_length Hnd Hincl). lia.
Qed.

Lemma revealTick_step s :
  revealing s ->
  (List.length (revealedColors s)
   < List.length (JsObject.keys (perspectivesByColor s)))%nat ->
  exists next,
    exec revealTick s = with_revealedColors (revealedColors s ++ [next]) s /\
    In next (JsObject.keys (perspectivesByColor s)) /\
    ~ In next (revealedColors s).
Proof.
  intros (Hshow & Hnd & Hne & Hrc & Hincl) Hlt.
  destruct (unrevealed s) as [|next rest] eqn:Hun;
    [exfalso; apply (unrevealed_nonempty s Hnd Hlt Hun)|].
  assert (Hin : In next (unrevealed s)) by (rewrite Hun; left; reflexivity).
  unfold unrevealed in Hin. apply filter_In in Hin. destruct Hin as [Hk Hnew].
  apply negb_true_iff in Hnew.
  assert (Hnext : nextReveal s = Some next).
  { apply (nextReveal_first s next rest Hshow Hlt Hun).
    intros ->. apply Hne, Hk. }
  exists next. rewrite exec_revealTick, Hnext, Hnew.
  split; [reflexivity|]. split; [exact Hk|].
  apply Reveal.includes_not_In, Hnew.
Qed.

(** X6: the reveal runs to completion. With the chart mounted, distinct
    non-empty keys and the revealed colours among them, as many firings of
    the reveal timer as there are unrevealed colours reveal every known
    colour, only extend the reveal sequence, leave the per-colour state
    alone, and a further firing changes nothing. *)
Theorem reveal_runs_to_completion s :
  revealing s ->
  let n := (List.length (JsObject.keys (perspectivesByColor s))
            - List.length (revealedColors s))%nat in
  (forall c, In c (JsObject.keys (perspectivesByColor s)) ->
             In c (revealedColors (ticks n s))) /\
  (exists suffix,
      revealedColors (ticks n s) = revealedColors s ++ suffix /\
      List.length suffix = n) /\
  perspectivesByColor (ticks n s) = perspectivesByColor s /\
  exec revealTick (ticks n s) = ticks n s.
Proof.
  intros Hrev n.
  remember n as m eqn:Hm. subst n. revert s Hrev Hm.
  induction m as [|m IH]; intros s Hrev Hm.
  - destruct Hrev as (Hshow & Hnd & Hne & Hrc & Hincl). simpl.
    assert (Hle : (List.length (JsObject.keys (perspectivesByColor s))
                   <= List.length (revealedColors s))%nat) by lia.
    split; [|split; [|split]].
    + apply (NoDup_length_incl Hrc Hle Hincl).
    + exists []. rewrite app_nil_r. split; reflexivity.
    + reflexivity.
    + rewrite exec_revealTick, (nextReveal_none s Hle). reflexivity.
  - assert (Hlt : (List.length (revealedColors s)
                   < List.length (JsObject.keys (perspectivesByColor s)))%nat)
      by lia.
    destruct (revealTick_step s Hrev Hlt) as (next & Hexec & Hk & Hnew).
    destruct Hrev as (Hshow & Hnd & Hne & Hrc & Hincl).
    simpl ticks. rewrite Hexec.
    set (s1 := with_revealedColors (revealedColors s ++ [next]) s).
    assert (Hrev1 : revealing s1).
    { repeat split; try assumption.
      - apply RunInvariants.NoDup_snoc; assumption.
      - intros c Hc. apply in_app_or in Hc.
        destruct Hc as [Hc | [<- | []]]; [apply Hincl, Hc | exact Hk]. }
    assert (Hm1 : m = (List.length (JsObject.keys (perspectivesByColor s1))
                       - List.length (revealedColors s1))%nat).
    { subst s1. simpl. rewrite length_app. simpl. lia. }
    destruct (IH s1 Hrev1 Hm1) as (Hall & (suffix & Hsuf & Hlen) & Hp & Hfix).
    split; [exact Hall|]. split; [|split; [exact Hp | exact Hfix]].
    exists (next :: suffix). split; [|simpl; lia].
    rewrite Hsuf. subst s1. simpl. rewrite <- app_assoc. reflexivity.
Qed.

Lemma reveal_runs_to_completion_witness :
  In "red" (revealedColors (ticks 2 (run Scenarios.cachedRun initialState))).
Proof.
  apply (proj1 (reveal_runs_to_completion
                  (run Scenarios.cachedRun initialState)
                  ltac:(repeat split;
                        [ vm_compute; repeat constructor;
                          simpl; intuition discriminate
                        | vm_compute; intuition discriminate
                        | vm_compute; constructor
                        | vm_compute; intros c [] ]))).
  vm_compute. auto.
Defined.

End RevealProgress.


(* ================================================================== *)
(** * The status poll *)
(* ================================================================== *)

Module PollingFacts.
Import Pipeline Views RunViews HandlerFacts EventFacts.
Local Open Scope handler_scope.

(** The callback after its cache part, as a function of the per-colour
    state it has reached. *)
Lemma scope_answered data p o s :
  pollScope (exec (pollTerminal data)
                  (with_perspectivesProto p
                     (with_perspectivesByColor o
                        (exec (pollStatus data) s))))
  = pollScope s /\
  pollScopeProto (exec (pollTerminal data)
                       (with_perspectivesProto p
                          (with_perspectivesByColor o
                             (exec (pollStatus data) s))))
  = pollScopeProto s.
Proof.
  unfold pollTerminal. destruct (truthy (st_error data));
    [|destruct (stageIs data "done")]; split; reflexivity.
Qed.

Lemma perspectives_answered data p o s :
  perspectivesByColor
    (exec (pollTerminal data)
          (with_perspectivesProto p
             (with_perspectivesByColor o (exec (pollStatus data) s))))
  = o /\
  perspectivesProto
    (exec (pollTerminal data)
          (with_perspectivesProto p
             (with_perspectivesByColor o (exec (pollStatus data) s))))
  = p.
Proof.
  unfold pollTerminal. destruct (truthy (st_error data));
    [|destruct (stageIs data "done")]; split; reflexivity.
Qed.

Lemma answered_twice data p o s :
  exec (pollTerminal data)
       (with_perspectivesProto p
          (with_perspectivesByColor o
             (exec (pollStatus data)
                   (exec (pollTerminal data)
                         (with_perspectivesProto p
                            (with_perspectivesByColor o
                               (exec (pollStatus data) s)))))))
  = exec (pollTerminal data)
         (with_perspectivesProto p
            (with_perspectivesByColor o (exec (pollStatus data) s))).
Proof.
  destruct s. unfold pollTerminal. destruct (truthy (st_error data));
    [|destruct (stageIs data "done")]; reflexivity.
Qed.

(** X7: handling the same answer of the status poll twice leaves the
    state in which handling it once leaves it (the keys of the cache it
    carries being distinct, as the keys of an object are): polling an
    unchanged orchestrator changes nothing after the first answer. *)
Theorem poll_answer_idempotent r s :
  NoDup (JsObject.keys (pulled r)) ->
  exec (pollTick r) (exec (pollTick r) s) = exec (pollTick r) s.
Proof.
  intros Hnd. destruct r as [message|data cache]; [reflexivity|].
  rewrite !exec_pollTick.
  rewrite (proj1 (scope_answered _ _ _ _)), (proj2 (scope_answered _ _ _ _)).
  rewrite (proj1 (perspectives_answered _ _ _ _)),
    (proj2 (perspectives_answered _ _ _ _)).
  rewrite MergeFacts.mergeCache_idempotent by exact Hnd.
  rewrite MergeFacts.mergedProto_idempotent.
  apply answered_twice.
Qed.

Lemma poll_answer_idempotent_witness :
  exec (pollTick Scenarios.smallerPull)
       (exec (pollTick Scenarios.smallerPull)
             (run Scenarios.pushedRun initialState))
  = exec (pollTick Scenarios.smallerPull)
         (run Scenarios.pushedRun initialState).
Proof.
  apply (poll_answer_idempotent
           Scenarios.smallerPull (run Scenarios.pushedRun initialState)).
  vm_compute. repeat constructor; simpl; intuition discriminate.
Defined.

(** X8: the cache is authoritative for what it writes. After a status
    poll that pulls a cache with distinct keys, every entry the callback
    writes is held as the cache reports it; and when the callback's
    closure finds nothing under a colour (no own property and no member
    of the prototype chain has that name), a non-empty array the cache
    reports for the colour is held as reported, whatever was held before.
    A colour for which the closure finds a member of the prototype chain
    is compared with the length of that member: with a closure that sees
    no colour at all, a one-item array under [constructor] is not
    written, the function found there having length 1. *)
Theorem pulled_arrays_are_held r s c items :
  NoDup (JsObject.keys (pulled r)) ->
  In (c, JArray items) (pulled r) ->
  (written (pollScope s) (pollScopeProto s) (c, JArray items) = true ->
   JsObject.get c (perspectivesByColor (exec (pollTick r) s)) = Some items)
  /\
  (Prototype.lookup c (pollScope s) (pollScopeProto s)
   = Prototype.Undefined ->
   items <> [] ->
   JsObject.get c (perspectivesByColor (exec (pollTick r) s)) = Some items)
  /\
  (forall p,
      written JsObject.empty Prototype.Plain ("constructor", JArray [p])
      = false /\
      written JsObject.empty Prototype.Plain ("constructor", JArray [p; p])
      = true).
Proof.
  intros Hnd Hin.
  assert (Hw : written (pollScope s) (pollScopeProto s) (c, JArray items)
               = true ->
               JsObject.get c (perspectivesByColor (exec (pollTick r) s))
               = Some items).
  { intros Hw. rewrite Reconciler.perspectives_pollTick.
    apply (MergeFacts.get_mergeCache_written
             _ _ _ _ c (JArray items) Hnd Hin Hw). }
  split; [exact Hw|]. split.
  - intros Hscope Hne. apply Hw. unfold written. simpl. rewrite Hscope.
    destruct items; [contradiction | reflexivity].
  - intros p. split; reflexivity.
Qed.

Lemma pulled_arrays_are_held_witness :
  JsObject.get "red"
    (perspectivesByColor
       (exec (pollTick Scenarios.smallerPull)
             (run Scenarios.pushedRun initialState)))
  = Some Scenarios.three.
Proof.
  apply (proj1 (proj2 (pulled_arrays_are_held
                         Scenarios.smallerPull
                         (run Scenarios.pushedRun initialState)
                         "red" Scenarios.three
                         ltac:(vm_compute; repeat constructor; simpl;
                               intuition discriminate)
                         ltac:(vm_compute; auto)))).
  - reflexivity.
  - discriminate.
Defined.

(** ** The log of the callback *)

Lemma effects_forEach_nil {A} (l : list A) (f : A -> M unit) :
  (forall x st, effects (f x) st = []) ->
  forall st, effects (forEach l f) st = [].
Proof.
  intros Hf. induction l as [|x r IH]; intros st; [reflexivity|].
  simpl forEach. rewrite effects_bind, Hf, IH. reflexivity.
Qed.

Lemma effects_applyCacheEntry scope scopeProto e st :
  effects (applyCacheEntry scope scopeProto e) st = [].
Proof.
  destruct e as [color v]. unfold applyCacheEntry.
  destruct (isArray v && (0 <? List.length (elements v))%nat);
    [|reflexivity].
  destruct (lengthDiffers _ _); reflexivity.
Qed.

Lemma effects_applyCache cacheData st : effects (applyCache cacheData) st = [].
Proof.
  unfold applyCache. rewrite effects_bind.
  change (effects get st) with (@nil (Effect * State)).
  change (value get st) with st. change (exec get st) with st.
  rewrite effects_bind, effects_forEach_nil
    by (intros; apply effects_applyCacheEntry).
  destruct (JsObject.get "violet" cacheData) as [v|]; [|reflexivity].
  destruct (isArray v && (0 <? List.length (elements v))%nat); reflexivity.
Qed.

(** The effects of one firing of the interval callback, in order. *)
Lemma effects_pollTick data cache s :
  map fst (effects (pollTick (PollOk data cache)) s) =
  (if stageIs data "module3" && (0 <? orElse (st_progress data) 0)
   then match cache with CacheFailed => [Console Warn] | _ => [] end
   else [])
  ++ (if truthy (st_error data) then [ClearInterval]
      else if stageIs data "done" then [ClearInterval; FetchResults]
      else []).
Proof.
  unfold pollTick. rewrite !effects_bind, !map_app.
  change (effects (pollStatus data) s) with (@nil (Effect * State)).
  simpl app. f_equal.
  - unfold pollCache.
    destruct (stageIs data "module3" && (0 <? orElse (st_progress data) 0));
      [|reflexivity].
    destruct cache; try reflexivity.
    rewrite effects_applyCache. reflexivity.
  - unfold pollTerminal.
    destruct (truthy (st_error data)); [reflexivity|].
    destruct (stageIs data "done"); reflexivity.
Qed.

Lemma stageIs_done_not_module3 data :
  stageIs data "done" = true -> stageIs data "module3" = false.
Proof.
  unfold stageIs, fieldIs. destruct (st_stage data) as [st|]; [|discriminate].
  intros H. apply String.eqb_eq in H. subst st. reflexivity.
Qed.

Lemma stageIs_stageOf data name :
  name <> "" -> stageIs data name = true -> stageOf data = name.
Proof.
  unfold stageIs, fieldIs, stageOf, truthy.
  destruct (st_stage data) as [st|]; [|discriminate].
  intros Hne H. apply String.eqb_eq in H. subst st.
  apply String.eqb_neq in Hne. rewrite Hne. reflexivity.
Qed.

(** X9: a status answer that names the stage done and carries no error
    stops the poll and requests the results, once, and pulls no cache: the
    interval is cleared, the stage is done and the per-colour state, the
    reveal sequence and the error are as before. An error in the answer
    takes precedence: the results are then not requested. *)
Theorem done_status_fetches_results data cache s :
  (truthy (st_error data) = false -> stageIs data "done" = true ->
   let s' := exec (pollTick (PollOk data cache)) s in
   map fst (effects (pollTick (PollOk data cache)) s)
     = [ClearInterval; FetchResults] /\
   stage s' = "done" /\ pollRef s' = false /\ error s' = error s /\
   perspectivesByColor s' = perspectivesByColor s /\
   revealedColors s' = revealedColors s) /\
  (truthy (st_error data) = true ->
   ~ In FetchResults (map fst (effects (pollTick (PollOk data cache)) s))).
Proof.
  split.
  - intros Herr Hdone s'. subst s'.
    pose proof (stageIs_done_not_module3 data Hdone) as Hm3.
    split.
    { rewrite effects_pollTick, Herr, Hdone, Hm3. reflexivity. }
    assert (Hp : pulled (PollOk data cache) = []).
    { unfold pulled. rewrite Hm3. destruct cache; reflexivity. }
    rewrite exec_pollTick, Hp, mergeCache_nil, mergedProto_nil.
    unfold pollTerminal. rewrite Herr, Hdone.
    split.
    { transitivity (stageOf data); [reflexivity|].
      apply stageIs_stageOf; [discriminate | exact Hdone]. }
    repeat split; reflexivity.
  - intros Herr. rewrite effects_pollTick, Herr.
    destruct (stageIs data "module3" && (0 <? orElse (st_progress data) 0));
      [destruct cache|]; simpl; intuition discriminate.
Qed.

Lemma done_status_fetches_results_witness :
  map fst
    (effects (pollTick (PollOk (Scenarios.status "done" 100) CacheNotOk))
             (run Scenarios.pushedRun initialState))
  = [ClearInterval; FetchResults].
Proof.
  apply (proj1 (done_status_fetches_results
                  (Scenarios.status "done" 100) CacheNotOk
                  (run Scenarios.pushedRun initialState))
               eq_refl eq_refl).
Defined.

Lemma effects_startPipeline wsThrows s :
  map fst (effects (startPipeline wsThrows) s) =
  if runnable (stage s)
  then (if wsRef s then [WsClose] else [])
       ++ match wsThrows with
          | None => [WsOpen]
          | Some _ => [Console Error; ClearInterval; SetInterval]
          end
  else [].
Proof.
  unfold effects.
  destruct (startPipeline wsThrows s) as [[u s1] log] eqn:E.
  unfold startPipeline, bind, get in E. cbn beta iota zeta in E.
  destruct (runnable (stage s)); destruct (wsRef s);
    destruct wsThrows as [message|];
    lazy in E; injection E as <- <- <-; reflexivity.
Qed.

(** X10: no handler arms the status interval without clearing the
    previous one first: in the log of every event, each [setInterval]
    directly follows a [clearInterval]. *)
Theorem interval_is_cleared_before_armed e s :
  armsGuarded false (map fst (effects (handle e) s)) = true.
Proof.
  destruct e as [wsThrows| |r|d|d|message|r|r|r| | | | |sel];
    unfold handle;
    try (rewrite effects_bind;
         change (effects get s) with (@nil (Effect * State));
         change (value get s) with s; change (exec get s) with s;
         cbn [app]).
  - rewrite effects_startPipeline.
    destruct (runnable (stage s)), (wsRef s), wsThrows; reflexivity.
  - destruct (wsRef s); reflexivity.
  - destruct r; reflexivity.
  - destruct (wsRef s); [|reflexivity].
    destruct d as [|data]; [reflexivity|]. unfold ws_onmessage.
    destruct (truthy (m_color data) && isArray (m_perspectives data));
      [reflexivity|].
    destruct (fieldIs (m_type data) "ping"); reflexivity.
  - destruct (wsRef s); [|reflexivity].
    destruct d as [|data]; [reflexivity|]. unfold reconnect_onmessage.
    destruct (truthy (m_color data) && isArray (m_perspectives data));
      [reflexivity|].
    destruct (fieldIs (m_type data) "ping"); reflexivity.
  - destruct (wsRef s); reflexivity.
  - destruct (pollRef s); [|reflexivity].
    destruct r as [message|data cache]; [reflexivity|].
    rewrite effects_pollTick.
    destruct (stageIs data "module3" && (0 <? orElse (st_progress data) 0));
      [destruct cache|];
      destruct (truthy (st_error data));
      try destruct (stageIs data "done"); reflexivity.
  - destruct r as [message|data typeError]; [reflexivity|].
    unfold resultsResponse.
    destruct (r_perspectives data) as [ps|]; [|reflexivity].
    destruct (groupByColor ps); reflexivity.
  - destruct r as [| |data]; try reflexivity. unfold cacheProbe.
    destruct (existsb _ data); reflexivity.
  - unfold loadCache. rewrite effects_bind.
    change (value get s) with s. change (exec get s) with s.
    destruct (cacheSnapshotRef s); reflexivity.
  - unfold showChartTimer. rewrite effects_bind.
    change (value get s) with s. change (exec get s) with s.
    destruct (negb (showChart s) && _); reflexivity.
  - unfold revealTick. rewrite effects_bind.
    change (value get s) with s. change (exec get s) with s.
    destruct (nextReveal s); reflexivity.
  - unfold chartLoadedTimer. rewrite effects_bind.
    change (value get s) with s. change (exec get s) with s.
    match goal with
    | |- context [effects (if ?b then _ else _) s] => destruct b
    end; reflexivity.
  - reflexivity.
Qed.

(** X11: a transient failure never resets content. A socket error, a
    refused or failed run trigger, a failed status request and a failed
    results request leave the stage, the progress, the interval, the
    per-colour state, the reveal sequence, the chart and the results as
    they were; they write nothing but the error message. *)
Theorem transient_failure_keeps_content e s :
  transientFailure e = true ->
  let s' := exec (handle e) s in
  stage s' = stage s /\ progress s' = progress s /\
  pollRef s' = pollRef s /\
  perspectivesByColor s' = perspectivesByColor s /\
  revealedColors s' = revealedColors s /\
  showChart s' = showChart s /\ results s' = results s /\
  (error s' = error s \/ exists message, error s' = Some message).
Proof.
  intros Hf s'. subst s'.
  destruct e as [wsThrows| |r|d|d|message|r|r|r| | | | |sel];
    try discriminate Hf; unfold handle;
    try (rewrite exec_bind;
         change (value get s) with s; change (exec get s) with s).
  - destruct r as [|status|message]; try discriminate Hf;
      repeat split; right; eexists; reflexivity.
  - destruct (wsRef s); repeat split; try (left; reflexivity).
    right. eexists. reflexivity.
  - destruct r as [message|data cache]; [|discriminate Hf].
    destruct (pollRef s) eqn:Hp;
      repeat split; try exact Hp; try (left; reflexivity).
    right. eexists. reflexivity.
  - destruct r as [message|data]; [|discriminate Hf].
    repeat split. right. eexists. reflexivity.
Qed.

Lemma transient_failure_keeps_content_witness :
  perspectivesByColor
    (exec (handle (PollFired (PollFailed "Failed to fetch")))
          (run Scenarios.pushedRun initialState))
  = perspectivesByColor (run Scenarios.pushedRun initialState).
Proof.
  destruct (transient_failure_keeps_content
              (PollFired (PollFailed "Failed to fetch"))
              (run Scenarios.pushedRun initialState) eq_refl)
    as (_ & _ & _ & H & _).
  exact H.
Defined.

End PollingFacts.


(* ================================================================== *)
(** * The final results and the cache snapshot *)
(* ================================================================== *)

Module ResultsFacts.
Import Pipeline Views RunViews HandlerFacts EventFacts.
Local Open Scope handler_scope.

(** ** The steps of the grouping *)

Lemma inherited_plain c :
  Prototype.inherited (@Prototype.Plain Perspective) c = Prototype.Undefined
  \/ (Prototype.truthy (Prototype.inherited (@Prototype.Plain Perspective) c)
      = true /\
      forall items,
        Prototype.inherited (@Prototype.Plain Perspective) c
        <> Prototype.AnArray items).
Proof.
  unfold Prototype.inherited, Prototype.inObjectPrototype.
  destruct (String.eqb c "__proto__");
    [right; split; [reflexivity | discriminate]|].
  destruct (JsObject.get c Prototype.objectMethods);
    [right; split; [reflexivity | discriminate] | left; reflexivity].
Qed.

Lemma groupStep_filed o p :
  groupable (propertyKey (p_color p)) = true -> groupStep o p = Some (filed o p).
Proof.
  unfold groupable, groupStep, filed, Prototype.lookup. intros Hg.
  apply negb_true_iff in Hg.
  destruct (JsObject.get (propertyKey (p_color p)) o); [reflexivity|].
  rewrite Hg. reflexivity.
Qed.

Lemma groupStep_held o p held :
  JsObject.get (propertyKey (p_color p)) o = Some held ->
  groupStep o p = Some (filed o p).
Proof.
  unfold groupStep, filed, Prototype.lookup. intros ->. reflexivity.
Qed.

Lemma groupStep_throws o p :
  JsObject.get (propertyKey (p_color p)) o = None ->
  groupable (propertyKey (p_color p)) = false ->
  groupStep o p = None.
Proof.
  unfold groupable, groupStep, Prototype.lookup. intros -> Hg.
  apply negb_false_iff in Hg. rewrite Hg.
  destruct (inherited_plain (propertyKey (p_color p))) as [Hu | [_ Hna]].
  - rewrite Hu in Hg. discriminate Hg.
  - destruct (Prototype.inherited Prototype.Plain (propertyKey (p_color p)));
      try reflexivity.
    exfalso. apply (Hna items). reflexivity.
Qed.

Lemma grouping_thrown ps :
  fold_left
    (fun acc p =>
       match acc with
       | Some byColor => groupStep byColor p
       | None => None
       end) ps None = None.
Proof. induction ps as [|p r IH]; [reflexivity | exact IH]. Qed.

(** From an object whose keys the grouping accepts, the grouping files
    every perspective if it accepts all the colours, and throws if it
    does not accept one of them. *)
Lemma grouping_from ps o :
  (forall k, In k (JsObject.keys o) -> groupable k = true) ->
  ((forall p, In p ps -> groupable (propertyKey (p_color p)) = true) ->
   fold_left
     (fun acc p =>
        match acc with
        | Some byColor => groupStep byColor p
        | None => None
        end) ps (Some o) = Some (fold_left filed ps o)) /\
  ((exists p, In p ps /\ groupable (propertyKey (p_color p)) = false) ->
   fold_left
     (fun acc p =>
        match acc with
        | Some byColor => groupStep byColor p
        | None => None
        end) ps (Some o) = None).
Proof.
  revert o. induction ps as [|p r IH]; intros o Hkeys.
  - split; [reflexivity|]. intros (p & [] & _).
  - simpl.
    destruct (groupable (propertyKey (p_color p))) eqn:Hg.
    + rewrite (groupStep_filed o p Hg).
      assert (Hkeys' : forall k, In k (JsObject.keys (filed o p)) ->
                                 groupable k = true).
      { intros k Hk. unfold filed in Hk.
        apply JsObjectFacts.in_keys_set in Hk.
        destruct Hk as [-> | Hk]; [exact Hg | apply Hkeys, Hk]. }
      destruct (IH (filed o p) Hkeys') as [Hall Hsome]. split.
      * intros H. apply Hall. intros q Hq. apply H. right. exact Hq.
      * intros (q & [<- | Hq] & Hng); [congruence|].
        apply Hsome. exists q. split; assumption.
    + assert (Hnone : JsObject.get (propertyKey (p_color p)) o = None).
      { destruct (JsObject.get (propertyKey (p_color p)) o) eqn:E;
          [|reflexivity].
        assert (Hk : In (propertyKey (p_color p)) (JsObject.keys o)).
        { apply JsObjectFacts.in_keys_get. unfold JsObject.has.
          rewrite E. reflexivity. }
        apply Hkeys in Hk. congruence. }
      rewrite (groupStep_throws o p Hnone Hg). split.
      * intros H. specialize (H p (or_introl eq_refl)). congruence.
      * intros _. apply grouping_thrown.
Qed.

Lemma groupByColor_filed ps :
  (forall p, In p ps -> groupable (propertyKey (p_color p)) = true) ->
  groupByColor ps = Some (fold_left filed ps JsObject.empty).
Proof.
  apply (grouping_from ps JsObject.empty). intros k [].
Qed.

Lemma groupByColor_throws ps :
  groupByColor ps = None <->
  exists p, In p ps /\ groupable (propertyKey (p_color p)) = false.
Proof.
  split.
  - intros Hnone.
    destruct (forallb (fun p => groupable (propertyKey (p_color p))) ps)
      eqn:Hall.
    + rewrite forallb_forall in Hall.
      rewrite (groupByColor_filed ps Hall) in Hnone. discriminate Hnone.
    + assert (Hex : existsb
                      (fun p => negb (groupable (propertyKey (p_color p))))
                      ps = true).
      { clear Hnone. induction ps as [|p r IH]; [discriminate Hall|].
        simpl in Hall |- *.
        destruct (groupable (propertyKey (p_color p))); simpl in *;
          [apply IH, Hall | reflexivity]. }
      apply existsb_exists in Hex. destruct Hex as (p & Hin & Hp).
      exists p. split; [exact Hin | apply negb_true_iff, Hp].
  - apply (grouping_from ps JsObject.empty). intros k [].
Qed.

Lemma get_grouped ps o c :
  JsObject.get c (fold_left filed ps o) =
  match JsObject.get c o with
  | Some held => Some (held ++ ofColor c ps)
  | None => match ofColor c ps with [] => None | l => Some l end
  end.
Proof.
  revert o. induction ps as [|p r IH]; intros o; simpl.
  - destruct (JsObject.get c o); [rewrite app_nil_r|]; reflexivity.
  - rewrite IH. unfold filed at 1.
    destruct (String.eqb (propertyKey (p_color p)) c) eqn:E.
    + apply String.eqb_eq in E. subst c.
      rewrite JsObjectFacts.get_set_same.
      destruct (JsObject.get (propertyKey (p_color p)) o); simpl;
        rewrite <- ?app_assoc; reflexivity.
    + apply String.eqb_neq in E.
      rewrite JsObjectFacts.get_set_other by congruence. reflexivity.
Qed.

(** X12: the results are grouped by colour without loss and in order,
    unless the grouping throws. When it returns, the array held for a
    colour is the list of the perspectives of that colour, in the order
    of the results, and a colour is a key exactly when some perspective
    has it (a perspective without colour counting under the key
    [undefined]). It throws exactly when some perspective has a colour
    that names a member of [Object.prototype]. *)
Theorem results_grouped_by_colour ps :
  (forall byColor c,
      groupByColor ps = Some byColor ->
      JsObject.get c byColor =
        match ofColor c ps with [] => None | l => Some l end /\
      (In c (JsObject.keys byColor) <->
       exists p, In p ps /\ propertyKey (p_color p) = c)) /\
  (groupByColor ps = None <->
   exists p, In p ps /\ groupable (propertyKey (p_color p)) = false).
Proof.
  split; [|apply groupByColor_throws].
  intros byColor c Hsome.
  assert (Hall : forall p, In p ps ->
                           groupable (propertyKey (p_color p)) = true).
  { intros p Hin. destruct (groupable (propertyKey (p_color p))) eqn:Hg;
      [reflexivity|].
    assert (Hnone : groupByColor ps = None).
    { apply groupByColor_throws. exists p. split; assumption. }
    congruence. }
  rewrite (groupByColor_filed ps Hall) in Hsome. injection Hsome as <-.
  assert (Hget : JsObject.get c (fold_left filed ps JsObject.empty) =
                 match ofColor c ps with [] => None | l => Some l end).
  { rewrite get_grouped. reflexivity. }
  split; [exact Hget|].
  rewrite JsObjectFacts.in_keys_get. unfold JsObject.has. rewrite Hget.
  unfold ofColor. split.
  - destruct (filter _ ps) as [|p l] eqn:Hf; [discriminate|]. intros _.
    assert (Hin : In p (filter
                          (fun p => String.eqb (propertyKey (p_color p)) c)
                          ps)) by (rewrite Hf; left; reflexivity).
    apply filter_In in Hin. destruct Hin as [Hin Hc].
    exists p. split; [exact Hin | apply String.eqb_eq, Hc].
  - intros (p & Hin & Hc).
    assert (Hf : In p (filter
                         (fun p => String.eqb (propertyKey (p_color p)) c)
                         ps)).
    { apply filter_In. split; [exact Hin | apply String.eqb_eq, Hc]. }
    destruct (filter _ ps); [destruct Hf | reflexivity].
Qed.

Lemma totalPerspectives_total s :
  totalPerspectives s = total (perspectivesByColor s).
Proof.
  unfold totalPerspectives, total.
  assert (H : forall l acc,
             fold_left (fun acc (e : string * list Perspective) =>
                          (acc + List.length (snd e))%nat) l acc
             = (acc + list_sum (map (fun e => List.length (snd e)) l))%nat).
  { induction l as [|e r IH]; intros acc; simpl; [lia|].
    rewrite IH. lia. }
  rewrite H. reflexivity.
Qed.

Lemma total_replace k v (o : ColorMap) held :
  JsObject.get k o = Some held ->
  (total (JsObject.replace k v o) + List.length held
   = total o + List.length v)%nat.
Proof.
  unfold total. induction o as [|[k' v'] r IH]; simpl; [discriminate|].
  destruct (String.eqb k k').
  - intros [= ->]. simpl. lia.
  - intros H. simpl. specialize (IH H). lia.
Qed.

Lemma total_insertIndex n k v (o : ColorMap) :
  total (JsObject.insertIndex n k v o) = (total o + List.length v)%nat.
Proof.
  unfold total. induction o as [|[k' v'] r IH]; simpl; [lia|].
  destruct (JsObject.arrayIndex k') as [n'|];
    [destruct (n' <? n)%N|]; simpl; lia.
Qed.

Lemma total_set k v (o : ColorMap) :
  (total (JsObject.set k v o)
   + List.length (orElse (JsObject.get k o) [])
   = total o + List.length v)%nat.
Proof.
  unfold JsObject.set, JsObject.has.
  destruct (JsObject.get k o) as [held|] eqn:Hget; simpl.
  - apply total_replace, Hget.
  - destruct (JsObject.arrayIndex k).
    + rewrite total_insertIndex. lia.
    + unfold total. rewrite map_app, list_sum_app. simpl. lia.
Qed.

Lemma total_grouped ps o :
  total (fold_left filed ps o) = (total o + List.length ps)%nat.
Proof.
  revert o. induction ps as [|p r IH]; intros o; simpl; [lia|].
  rewrite IH. unfold filed.
  pose proof (total_set (propertyKey (p_color p))
                (orElse (JsObject.get (propertyKey (p_color p)) o) [] ++ [p])
                o) as H.
  rewrite length_app in H. simpl in H. lia.
Qed.

(** X13: after the results arrive with a list of perspectives none of
    whose colours names a member of [Object.prototype], the total the
    view counts over all colours is the length of that list: the grouping
    neither drops a perspective nor counts one twice. When some colour
    does name such a member, the grouping throws: the per-colour state
    and the total stay as they were, the results stay set and the message
    of the exception becomes the error. *)
Theorem results_total_is_preserved data typeError ps s :
  r_perspectives data = Some ps ->
  let s' := exec (resultsResponse (ResultsOk data typeError)) s in
  ((forall p, In p ps -> groupable (propertyKey (p_color p)) = true) ->
   totalPerspectives s' = List.length ps) /\
  ((exists p, In p ps /\ groupable (propertyKey (p_color p)) = false) ->
   perspectivesByColor s' = perspectivesByColor s /\
   totalPerspectives s' = totalPerspectives s /\
   results s' = Some data /\ error s' = Some typeError).
Proof.
  intros Hps s'. subst s'. split.
  - intros Hall. rewrite totalPerspectives_total.
    change (exec (resultsResponse (ResultsOk data typeError)) s)
      with (exec (handle (ResultsAnswered (ResultsOk data typeError))) s).
    rewrite perspectives_handle, Hps, (groupByColor_filed ps Hall).
    simpl orElse. rewrite total_grouped. reflexivity.
  - intros Hex. apply groupByColor_throws in Hex.
    unfold resultsResponse. rewrite Hps, Hex.
    repeat split; reflexivity.
Qed.

Lemma results_total_is_preserved_witness :
  totalPerspectives
    (exec (resultsResponse
             (ResultsOk {| r_perspectives := Some Scenarios.five;
                           r_input_significance := None;
                           r_significance := None |}
                        "byColor[color].push is not a function"))
          (run Scenarios.pushedRun initialState))
  = 5%nat.
Proof.
  apply (proj1 (results_total_is_preserved
                  {| r_perspectives := Some Scenarios.five;
                     r_input_significance := None; r_significance := None |}
                  "byColor[color].push is not a function"
                  Scenarios.five (run Scenarios.pushedRun initialState)
                  eq_refl)).
  intros p Hin. vm_compute in Hin.
  repeat (destruct Hin as [<- | Hin]; [reflexivity|]). destruct Hin.
Defined.

(** ** Loading the cache snapshot *)

Lemma get_kept_origin snapshot l o c held :
  incl l snapshot ->
  JsObject.has "__proto__" (fst o) = false ->
  (forall h, JsObject.get c (fst o) = Some h ->
             h <> [] /\ In (c, JArray h) snapshot) ->
  JsObject.get c (fst (fold_left keepNonEmpty l o)) = Some held ->
  held <> [] /\ In (c, JArray held) snapshot.
Proof.
  revert o. induction l as [|e r IH]; intros [own proto] Hincl Hp Ho; simpl.
  - apply Ho.
  - apply IH.
    + intros x Hx. apply Hincl. right. exact Hx.
    + apply (RunInvariants.no_proto_key_kept [e]). exact Hp.
    + intros h. unfold keepNonEmpty.
      destruct (isArray (snd e)) eqn:Ha; simpl; [|apply Ho].
      destruct (0 <? List.length (elements (snd e)))%nat eqn:Hl; [|apply Ho].
      unfold Prototype.assign. cbn [fst snd] in Hp, Ho |- *.
      destruct (String.eqb (fst e) "__proto__" && negb _); [apply Ho|].
      cbn [fst].
      destruct (String.eqb c (fst e)) eqn:E.
      * apply String.eqb_eq in E. subst c.
        rewrite JsObjectFacts.get_set_same. intros [= <-].
        split; [apply MergeFacts.length_pos_nonempty, Hl|].
        rewrite <- (MergeFacts.isArray_elements _ Ha).
        destruct e. apply Hincl. left. reflexivity.
      * apply String.eqb_neq in E.
        rewrite JsObjectFacts.get_set_other by exact E. apply Ho.
Qed.

Lemma proto_kept_plain l o :
  snd o = Prototype.Plain ->
  (forall items, In ("__proto__", JArray items) l -> items = []) ->
  snd (fold_left keepNonEmpty l o) = Prototype.Plain.
Proof.
  revert o. induction l as [|e r IH]; intros [own proto] Ho Hnone; simpl;
    [exact Ho|].
  apply IH; [|intros items Hin; apply Hnone; right; exact Hin].
  unfold keepNonEmpty.
  destruct (isArray (snd e)) eqn:Ha; simpl; [|exact Ho].
  destruct (0 <? List.length (elements (snd e)))%nat eqn:Hl; [|exact Ho].
  unfold Prototype.assign.
  destruct (String.eqb (fst e) "__proto__") eqn:E; simpl; [|exact Ho].
  apply String.eqb_eq in E. exfalso.
  apply (MergeFacts.length_pos_nonempty _ Hl). apply Hnone. left.
  rewrite <- (MergeFacts.isArray_elements _ Ha), <- E. destruct e; reflexivity.
Qed.

(** X14: loading the cache snapshot replaces the per-colour state by the
    non-empty arrays of the snapshot: every array held afterwards is a
    non-empty array the snapshot reports for that colour, every colour
    but [__proto__] with a non-empty array in the snapshot is held, and
    the stage shown is module3 at 95 percent; without a snapshot nothing
    changes. A non-empty array under [__proto__] is not held under any
    key: it becomes the prototype of the new state; without such an
    array the prototype is [Object.prototype]. *)
Theorem loadCache_keeps_non_empty_arrays s :
  (cacheSnapshotRef s = None -> exec loadCache s = s) /\
  (forall snapshot,
      cacheSnapshotRef s = Some snapshot ->
      let s' := exec loadCache s in
      (forall c held,
          JsObject.get c (perspectivesByColor s') = Some held ->
          c <> "__proto__" /\ held <> [] /\ In (c, JArray held) snapshot) /\
      (forall c items,
          In (c, JArray items) snapshot -> items <> [] -> c <> "__proto__" ->
          In c (JsObject.keys (perspectivesByColor s'))) /\
      (forall items,
          In ("__proto__", JArray items) snapshot -> items <> [] ->
          exists arr,
            perspectivesProto s' = Prototype.ArrayProto arr /\
            arr <> [] /\ In ("__proto__", JArray arr) snapshot) /\
      ((forall items, In ("__proto__", JArray items) snapshot -> items = []) ->
       perspectivesProto s' = Prototype.Plain) /\
      stage s' = "module3" /\ progress s' = 95).
Proof.
  split.
  - intros Hnone. rewrite RunInvariants.exec_loadCache, Hnone. reflexivity.
  - intros snapshot Hsnap s'. subst s'.
    rewrite RunInvariants.exec_loadCache, Hsnap.
    cbn [perspectivesByColor perspectivesProto stage progress
         with_progress with_stage with_perspectivesProto
         with_perspectivesByColor].
    rewrite RunInvariants.nonEmptyArrays_fold.
    split; [|split; [|split; [|split; [|split; reflexivity]]]].
    + intros c held Hget. split.
      * intros ->.
        pose proof (RunInvariants.no_proto_key_kept
                      snapshot (JsObject.empty, Prototype.Plain) eq_refl)
          as Hno.
        unfold JsObject.has in Hno. rewrite Hget in Hno. discriminate Hno.
      * apply (get_kept_origin snapshot snapshot
                 (JsObject.empty, Prototype.Plain) c held).
        -- apply incl_refl.
        -- reflexivity.
        -- intros h Hh. discriminate Hh.
        -- exact Hget.
    + intros c items Hin Hne Hc. apply JsObjectFacts.in_keys_get.
      apply (RunInvariants.has_kept_entry
               snapshot (JsObject.empty, Prototype.Plain)
               (c, JArray items) Hin); [|exact Hc].
      simpl. destruct items; [contradiction | reflexivity].
    + intros items Hin Hne.
      destruct (RunInvariants.proto_kept_entry
                  snapshot (JsObject.empty, Prototype.Plain) items
                  eq_refl Hin Hne) as (arr & Harr).
      exists arr. split; [exact Harr|].
      apply (RunInvariants.proto_kept_origin
               snapshot snapshot (JsObject.empty, Prototype.Plain) arr).
      * apply incl_refl.
      * intros a Ha. discriminate Ha.
      * exact Harr.
    + intros Hnone. apply proto_kept_plain; [reflexivity | exact Hnone].
Qed.

Lemma loadCache_keeps_non_empty_arrays_witness :
  In "red"
     (JsObject.keys
        (perspectivesByColor
           (exec loadCache
                 (run [CacheProbed
                         (CacheOk [("red", JArray Scenarios.three);
                                   ("blue", JArray [])])]
                      initialState)))) /\
  exec loadCache initialState = initialState.
Proof.
  split.
  - apply (proj1 (proj2 (proj2 (loadCache_keeps_non_empty_arrays
                    (run [CacheProbed
                            (CacheOk [("red", JArray Scenarios.three);
                                      ("blue", JArray [])])]
                         initialState))
                 [("red", JArray Scenarios.three); ("blue", JArray [])]
                 eq_refl))
             "red" Scenarios.three).
    + left. reflexivity.
    + discriminate.
    + discriminate.
  - apply (proj1 (loadCache_keeps_non_empty_arrays initialState)).
    reflexivity.
Defined.

End ResultsFacts.


(* ================================================================== *)
(** * The order of the cards *)
(* ================================================================== *)

Module CardGridFacts.
Import Pipeline CardGrid.

Lemma insertCard_perm a l : Permutation (insertCard a l) (a :: l).
Proof.
  induction l as [|b r IH]; simpl; [reflexivity|].
  destruct (before a b); [reflexivity|].
  rewrite IH. apply perm_swap.
Qed.

Lemma sortCards_perm l : Permutation (sortCards l) l.
Proof.
  induction l as [|a r IH]; simpl; [reflexivity|].
  rewrite insertCard_perm, IH. reflexivity.
Qed.

Lemma insertCard_sorted a l :
  StronglySorted (fun x y => (position x <= position y)%nat) l ->
  StronglySorted (fun x y => (position x <= position y)%nat)
                 (insertCard a l).
Proof.
  induction 1 as [|b r Hr IH Hb]; simpl.
  - constructor; constructor.
  - unfold before. fold (position a). fold (position b).
    destruct (position a <=? position b)%nat eqn:E.
    + apply Nat.leb_le in E. constructor.
      * constructor; assumption.
      * constructor; [exact E|].
        rewrite Forall_forall in Hb |- *. intros x Hx.
        specialize (Hb x Hx). lia.
    + apply Nat.leb_gt in E. constructor; [exact IH|].
      rewrite Forall_forall in Hb |- *. intros x Hx.
      apply (Permutation_in _ (insertCard_perm a r)) in Hx.
      destruct Hx as [<- | Hx]; [lia | apply Hb, Hx].
Qed.

Lemma sortCards_sorted l :
  StronglySorted (fun x y => (position x <= position y)%nat) (sortCards l).
Proof.
  induction l as [|a r IH]; simpl; [constructor|].
  apply insertCard_sorted, IH.
Qed.

Lemma insertCard_stable i a l :
  filter (fun x => (position x =? i)%nat) (insertCard a l) =
  filter (fun x => (position x =? i)%nat) (a :: l).
Proof.
  induction l as [|b r IH]; [reflexivity|].
  simpl insertCard. unfold before. fold (position a). fold (position b).
  destruct (position a <=? position b)%nat eqn:E; [reflexivity|].
  apply Nat.leb_gt in E. simpl. simpl in IH. rewrite IH.
  destruct (position a =? i)%nat eqn:Ea; [|reflexivity].
  apply Nat.eqb_eq in Ea.
  destruct (position b =? i)%nat eqn:Eb; [|reflexivity].
  apply Nat.eqb_eq in Eb. lia.
Qed.

Lemma sortCards_stable i l :
  filter (fun x => (position x =? i)%nat) (sortCards l) =
  filter (fun x => (position x =? i)%nat) l.
Proof.
  induction l as [|a r IH]; [reflexivity|].
  simpl sortCards. rewrite insertCard_stable. simpl. rewrite IH.
  reflexivity.
Qed.

Lemma indexOf_bound c l i :
  Cards.indexOf c l = Some i -> (i < List.length l)%nat /\ In c l.
Proof.
  revert i. induction l as [|x r IH]; intros i; simpl; [discriminate|].
  destruct (String.eqb x c) eqn:E.
  - intros [= <-]. apply String.eqb_eq in E. split; [lia | left; exact E].
  - destruct (Cards.indexOf c r) as [j|]; [|discriminate].
    intros [= <-]. destruct (IH j eq_refl). split; [lia | right; assumption].
Qed.

Lemma indexOf_none c l : Cards.indexOf c l = None -> ~ In c l.
Proof.
  induction l as [|x r IH]; simpl; [intros _ []|].
  destruct (String.eqb x c) eqn:E; [discriminate|].
  apply String.eqb_neq in E.
  destruct (Cards.indexOf c r); [discriminate|].
  intros _ [H | H]; [contradiction | apply IH; auto].
Qed.

(** X15: the cards are the entries of the per-colour state, one card per
    entry with the count of its items, sorted by spectral position and
    otherwise in the order of the entries: colours of the spectrum come in
    the order red ... purple, every colour outside it comes after all of
    them, and such colours keep their arrival order. *)
Theorem cards_are_sorted_by_spectrum perspectivesByColor :
  Permutation (cards perspectivesByColor) (map toCard perspectivesByColor) /\
  StronglySorted (fun a b => (position a <= position b)%nat)
                 (cards perspectivesByColor) /\
  (forall i,
      filter (fun a => (position a =? i)%nat) (cards perspectivesByColor) =
      filter (fun a => (position a =? i)%nat)
             (map toCard perspectivesByColor)) /\
  (forall a, In a (cards perspectivesByColor) ->
             card_count a = List.length (card_items a) /\
             JsObject.get (card_color a) perspectivesByColor <> None) /\
  (forall c, (In c Cards.order -> (Cards.idx c < 9)%nat) /\
             (~ In c Cards.order -> Cards.idx c = 10%nat)).
Proof.
  unfold cards. split; [apply sortCards_perm|].
  split; [apply sortCards_sorted|]. split; [intros i; apply sortCards_stable|].
  split.
  - intros a Ha. apply (Permutation_in _ (sortCards_perm _)) in Ha.
    apply in_map_iff in Ha. destruct Ha as ([c items] & <- & Hin).
    split; [reflexivity|]. simpl.
    assert (Hk : In c (JsObject.keys perspectivesByColor)).
    { change c with (fst (c, items)). apply in_map, Hin. }
    apply JsObjectFacts.in_keys_get in Hk. unfold JsObject.has in Hk.
    destruct (JsObject.get c perspectivesByColor); [discriminate | discriminate].
  - intros c. unfold Cards.idx. split.
    + intros Hin. destruct (Cards.indexOf c Cards.order) as [i|] eqn:E.
      * apply indexOf_bound in E. simpl in E. lia.
      * apply indexOf_none in E. contradiction.
    + intros Hnot. destruct (Cards.indexOf c Cards.order) as [i|] eqn:E.
      * apply indexOf_bound in E. destruct E. contradiction.
      * reflexivity.
Qed.

End CardGridFacts.


(* ================================================================== *)
(** * The points of the chart *)
(* ================================================================== *)

Module ChartFacts.
Import Pipeline Chart.

Lemma In_skipn {A} n (l : list A) x : In x (skipn n l) -> In x l.
Proof.
  intros H. rewrite <- (firstn_skipn n l). apply in_or_app. right. exact H.
Qed.

Lemma In_sliceLast {A} n (l : list A) x : In x (sliceLast n l) -> In x l.
Proof.
  unfold sliceLast. destruct (n =? 0)%nat; [auto | apply In_skipn].
Qed.

Lemma In_pointsOf hiddenColors e pt :
  In pt (pointsOf hiddenColors e) ->
  pt_color pt = fst e /\ includes (fst e) hiddenColors = false /\
  exists p,
    In p (snd e) /\ p_bias_x p = Some (pt_x pt) /\
    p_significance_y p = Some (pt_y pt) /\
    pt_id pt = firstTruthy (p_id p) (p_text p).
Proof.
  unfold pointsOf. intros H. apply in_flat_map in H.
  destruct H as (p & Hp & Hpt).
  destruct (p_bias_x p) as [x|] eqn:Hx; [|destruct Hpt].
  destruct (p_significance_y p) as [y|] eqn:Hy; [|destruct Hpt].
  destruct (includes (fst e) hiddenColors) eqn:Hh; [destruct Hpt|].
  destruct Hpt as [<- | []]. simpl.
  split; [reflexivity|]. split; [reflexivity|].
  exists p. repeat split; assumption.
Qed.

(** X16: the chart plots exactly what can be plotted. Every point stems
    from a perspective of an entry of its input whose two coordinates are
    numbers and whose colour is not hidden, and carries the entry's key as
    its colour; with a positive [maxPoints] at most [maxPoints] points are
    kept, the last ones, and none is dropped when there are no more than
    that; with [maxPoints] zero all points are kept. *)
Theorem points_are_plottable perspectivesByColor hiddenColors maxPoints :
  (forall pt,
      In pt (points perspectivesByColor hiddenColors maxPoints) ->
      includes (pt_color pt) hiddenColors = false /\
      exists items p,
        In (pt_color pt, items) perspectivesByColor /\ In p items /\
        p_bias_x p = Some (pt_x pt) /\
        p_significance_y p = Some (pt_y pt)) /\
  ((0 < maxPoints)%nat ->
   (List.length (points perspectivesByColor hiddenColors maxPoints)
    <= maxPoints)%nat /\
   exists dropped,
     flatPoints perspectivesByColor hiddenColors
     = dropped ++ points perspectivesByColor hiddenColors maxPoints) /\
  ((List.length (flatPoints perspectivesByColor hiddenColors)
    <= maxPoints)%nat ->
   points perspectivesByColor hiddenColors maxPoints
   = flatPoints perspectivesByColor hiddenColors) /\
  points perspectivesByColor hiddenColors 0
  = flatPoints perspectivesByColor hiddenColors.
Proof.
  split; [|split; [|split]].
  - intros pt Hin. unfold points in Hin. apply In_sliceLast in Hin.
    unfold flatPoints in Hin. apply in_flat_map in Hin.
    destruct Hin as ([c items] & He & Hpt).
    apply In_pointsOf in Hpt. simpl in Hpt.
    destruct Hpt as (Hc & Hh & p & Hp & Hx & Hy & _).
    rewrite Hc. split; [exact Hh|].
    exists items, p. repeat split; assumption.
  - intros Hpos. unfold points, sliceLast.
    destruct (maxPoints =? 0)%nat eqn:Hz; [apply Nat.eqb_eq in Hz; lia|].
    split.
    + rewrite length_skipn. lia.
    + exists (firstn (List.length (flatPoints perspectivesByColor hiddenColors)
                      - maxPoints)
                     (flatPoints perspectivesByColor hiddenColors)).
      symmetry. apply firstn_skipn.
  - intros Hle. unfold points, sliceLast.
    destruct (maxPoints =? 0)%nat; [reflexivity|].
    replace (List.length (flatPoints perspectivesByColor hiddenColors)
             - maxPoints)%nat with 0%nat by lia.
    reflexivity.
  - reflexivity.
Qed.

Lemma points_are_plottable_witness :
  (List.length
     (points [("red", [{| p_id := Some "a"; p_color := Some "red";
                          p_bias_x := Some (1 # 4);
                          p_significance_y := Some (3 # 4);
                          p_text := Some "t" |};
                       {| p_id := Some "b"; p_color := Some "red";
                          p_bias_x := Some (1 # 2);
                          p_significance_y := Some (1 # 2);
                          p_text := None |}])]
             [] 1)
   <= 1)%nat.
Proof.
  apply (proj1 (proj2 (points_are_plottable
                         [("red", [{| p_id := Some "a"; p_color := Some "red";
                                      p_bias_x := Some (1 # 4);
                                      p_significance_y := Some (3 # 4);
                                      p_text := Some "t" |};
                                   {| p_id := Some "b"; p_color := Some "red";
                                      p_bias_x := Some (1 # 2);
                                      p_significance_y := Some (1 # 2);
                                      p_text := None |}])]
                         [] 1))).
  lia.
Defined.

(** ** The chart behind the reveal *)

Lemma keys_insertIndex_perm {V} n k (v : V) o :
  Permutation (JsObject.keys (JsObject.insertIndex n k v o))
              (k :: JsObject.keys o).
Proof.
  induction o as [|[k' v'] r IH]; simpl; [reflexivity|].
  destruct (JsObject.arrayIndex k') as [n'|];
    [destruct (n' <? n)%N|]; simpl; try reflexivity.
  unfold JsObject.keys in IH. rewrite IH. apply perm_swap.
Qed.

(** Assignment keeps the keys of an object distinct. *)
Lemma NoDup_keys_set {V} k (v : V) o :
  NoDup (JsObject.keys o) -> NoDup (JsObject.keys (JsObject.set k v o)).
Proof.
  intros Hnd. unfold JsObject.set.
  destruct (JsObject.has k o) eqn:Hhas.
  - rewrite JsObjectFacts.keys_replace. exact Hnd.
  - assert (Hnot : ~ In k (JsObject.keys o)).
    { intros H. apply JsObjectFacts.in_keys_get in H. congruence. }
    destruct (JsObject.arrayIndex k).
    + apply (Permutation_NoDup
               (Permutation_sym (keys_insertIndex_perm _ _ _ _))).
      constructor; assumption.
    + unfold JsObject.keys. rewrite map_app. simpl.
      apply RunInvariants.NoDup_snoc; assumption.
Qed.

Lemma NoDup_keys_chartPerspectives s :
  NoDup (JsObject.keys (chartPerspectives s)).
Proof.
  unfold chartPerspectives. destruct (negb (showChart s)); [constructor|].
  assert (H : forall l (obj : JsObject.t Found),
             NoDup (JsObject.keys obj) ->
             NoDup (JsObject.keys
                      (fold_left
                         (pickRevealed (perspectivesByColor s)
                                       (perspectivesProto s)) l obj))).
  { induction l as [|c r IH]; intros obj Hobj; simpl; [exact Hobj|].
    apply IH. unfold pickRevealed.
    destruct (Prototype.truthy _); [|exact Hobj].
    destruct (String.eqb c "__proto__");
      [exact Hobj | apply NoDup_keys_set, Hobj]. }
  apply H. constructor.
Qed.

(** An array found under a key other than [__proto__] is an own
    property. *)
Lemma lookup_array c (own : ColorMap) (proto : Proto) items :
  Prototype.lookup c own proto = Prototype.AnArray items ->
  c <> "__proto__" ->
  JsObject.get c own = Some items.
Proof.
  unfold Prototype.lookup. intros H Hne. apply String.eqb_neq in Hne.
  destruct (JsObject.get c own); [congruence|]. exfalso.
  assert (Hobj : Prototype.inObjectPrototype proto c
                 <> Prototype.AnArray items).
  { unfold Prototype.inObjectPrototype. rewrite Hne.
    destruct (JsObject.get c Prototype.objectMethods); discriminate. }
  unfold Prototype.inherited in H. destruct proto as [|arr];
    [exact (Hobj H)|].
  destruct (JsObject.arrayIndex c);
    [destruct (nth_error arr _); discriminate H|].
  destruct (String.eqb c "length"); [discriminate H|].
  destruct (JsObject.get c Prototype.arrayMethods); [discriminate H|].
  exact (Hobj H).
Qed.

(** What the fold of the filter holds under a key. *)
Lemma get_picked held proto l obj c :
  JsObject.get c (fold_left (pickRevealed held proto) l obj) =
  if includes c l && negb (String.eqb c "__proto__")
     && Prototype.truthy (Prototype.lookup c held proto)
  then Some (Prototype.lookup c held proto)
  else JsObject.get c obj.
Proof.
  revert obj. induction l as [|a r IH]; intros obj; [reflexivity|].
  simpl fold_left. rewrite IH. unfold includes. simpl existsb.
  fold (includes c r).
  destruct (includes c r && negb (String.eqb c "__proto__")
            && Prototype.truthy (Prototype.lookup c held proto)) eqn:Hr.
  - apply andb_true_iff in Hr. destruct Hr as [Hr Ht].
    apply andb_true_iff in Hr. destruct Hr as [Hin Hp].
    rewrite Hin, orb_true_r, Hp, Ht. reflexivity.
  - unfold pickRevealed.
    destruct (String.eqb c a) eqn:E; simpl.
    + apply String.eqb_eq in E. subst a.
      destruct (Prototype.truthy (Prototype.lookup c held proto));
        [|rewrite andb_false_r; reflexivity].
      destruct (String.eqb c "__proto__"); simpl; [reflexivity|].
      apply JsObjectFacts.get_set_same.
    + rewrite Hr. apply String.eqb_neq in E.
      destruct (Prototype.truthy (Prototype.lookup a held proto));
        [|reflexivity].
      destruct (String.eqb a "__proto__"); [reflexivity|].
      apply JsObjectFacts.get_set_other, E.
Qed.

Lemma arraysOf_entry input o c items :
  arraysOf input = Some o -> In (c, items) o ->
  exists v,
    In (c, v) input /\
    (v = Prototype.AnArray items \/
     (Prototype.truthy v = false /\ items = [])).
Proof.
  revert o. induction input as [|[k v] r IH]; intros o; simpl.
  - intros [= <-] [].
  - destruct (Prototype.truthy v) eqn:Ht.
    + destruct v as [arr| | | | |]; try discriminate.
      destruct (arraysOf r) as [o'|]; [|discriminate].
      intros [= <-] [[= <- <-] | Hin].
      * exists (Prototype.AnArray arr). split; [left; reflexivity|].
        left. reflexivity.
      * destruct (IH o' eq_refl Hin) as (v' & Hv & Hor).
        exists v'. split; [right; exact Hv | exact Hor].
    + destruct (arraysOf r) as [o'|]; [|discriminate].
      intros [= <-] [[= <- <-] | Hin].
      * exists v. split; [left; reflexivity|]. right. split; [exact Ht|].
        reflexivity.
      * destruct (IH o' eq_refl Hin) as (v' & Hv & Hor).
        exists v'. split; [right; exact Hv | exact Hor].
Qed.

Lemma arraysOf_throws input :
  arraysOf input = None <->
  exists c v,
    In (c, v) input /\ Prototype.truthy v = true /\
    forall items, v <> Prototype.AnArray items.
Proof.
  induction input as [|[k v] r IH]; simpl.
  - split; [discriminate | intros (c & v & [] & _)].
  - destruct (Prototype.truthy v) eqn:Ht.
    + destruct v as [arr| | | | |]; try discriminate Ht;
        try (split; [intros _; eexists; eexists;
                     split; [left; reflexivity|];
                     split; [exact Ht | discriminate]
                    | reflexivity]).
      destruct (arraysOf r) as [o'|].
      * split; [discriminate|].
        intros (c & v & [[= <- <-] | Hin] & Htv & Hna).
        -- exfalso. apply (Hna arr). reflexivity.
        -- assert (H : Some o' = None)
             by (apply (proj2 IH); exists c, v; repeat split; assumption).
           discriminate H.
      * split; [|reflexivity]. intros _.
        destruct (proj1 IH eq_refl) as (c & v & Hin & Htv & Hna).
        exists c, v. split; [right; exact Hin|]. split; assumption.
    + destruct (arraysOf r) as [o'|].
      * split; [discriminate|].
        intros (c & v' & [[= <- <-] | Hin] & Htv & Hna); [congruence|].
        assert (H : Some o' = None)
          by (apply (proj2 IH); exists c, v'; repeat split; assumption).
        discriminate H.
      * split; [|reflexivity]. intros _.
        destruct (proj1 IH eq_refl) as (c & v' & Hin & Htv & Hna).
        exists c, v'. split; [right; exact Hin|]. split; assumption.
Qed.

(** X17: the chart, fed with the filtered object, plots only revealed
    colours: every point it plots belongs to a colour of the reveal
    sequence and stems from a perspective held for that colour in the
    per-colour state, and the chart is then mounted; before the chart is
    mounted its input yields no point. The points memo throws exactly
    when the chart is mounted and the read of some revealed colour other
    than [__proto__] on the per-colour state finds something that is
    truthy and no array, a member of the prototype chain. *)
Theorem chart_plots_only_revealed_colours s hiddenColors maxPoints :
  (forall pts pt,
      pointsOfInput (chartPerspectives s) hiddenColors maxPoints = Some pts ->
      In pt pts ->
      showChart s = true /\ In (pt_color pt) (revealedColors s) /\
      exists held p,
        JsObject.get (pt_color pt) (perspectivesByColor s) = Some held /\
        In p held /\ p_bias_x p = Some (pt_x pt) /\
        p_significance_y p = Some (pt_y pt)) /\
  (showChart s = false ->
   pointsOfInput (chartPerspectives s) hiddenColors maxPoints = Some []) /\
  (pointsOfInput (chartPerspectives s) hiddenColors maxPoints = None <->
   showChart s = true /\
   exists c,
     In c (revealedColors s) /\ c <> "__proto__" /\
     Prototype.truthy
       (Prototype.lookup c (perspectivesByColor s) (perspectivesProto s))
     = true /\
     forall items,
       Prototype.lookup c (perspectivesByColor s) (perspectivesProto s)
       <> Prototype.AnArray items).
Proof.
  split; [|split].
  - intros pts pt Hpts Hin. unfold pointsOfInput in Hpts.
    destruct (arraysOf (chartPerspectives s)) as [o|] eqn:Ho; [|discriminate].
    injection Hpts as <-.
    unfold points in Hin. apply In_sliceLast in Hin.
    unfold flatPoints in Hin. apply in_flat_map in Hin.
    destruct Hin as ([c items] & He & Hpt).
    apply In_pointsOf in Hpt. simpl in Hpt.
    destruct Hpt as (Hc & _ & p & Hp & Hx & Hy & _). rewrite Hc.
    destruct (arraysOf_entry _ _ _ _ Ho He) as (v & Hv & [-> | [_ ->]]);
      [|destruct Hp].
    apply (MergeFacts.get_of_In _ _ _ (NoDup_keys_chartPerspectives s))
      in Hv.
    destruct (Reveal.get_chartPerspectives s c _ Hv)
      as (Hshow & Hrev & Hne & Hlook & _).
    split; [exact Hshow|]. split; [exact Hrev|].
    exists items, p. split; [|repeat split; assumption].
    apply (lookup_array c _ (perspectivesProto s));
      [symmetry; exact Hlook | exact Hne].
  - intros Hshow. unfold chartPerspectives. rewrite Hshow.
    unfold pointsOfInput, points, flatPoints, sliceLast. simpl.
    destruct (maxPoints =? 0)%nat; reflexivity.
  - unfold pointsOfInput. split.
    + intros Hnone.
      destruct (arraysOf (chartPerspectives s)) eqn:Ho; [discriminate|].
      apply arraysOf_throws in Ho. destruct Ho as (c & v & Hin & Ht & Hna).
      apply (MergeFacts.get_of_In _ _ _ (NoDup_keys_chartPerspectives s))
        in Hin.
      destruct (Reveal.get_chartPerspectives s c v Hin)
        as (Hshow & Hrev & Hne & Hlook & _).
      split; [exact Hshow|]. exists c. rewrite <- Hlook.
      repeat split; assumption.
    + intros (Hshow & c & Hrev & Hne & Ht & Hna).
      assert (Hget : JsObject.get c (chartPerspectives s) =
                     Some (Prototype.lookup c (perspectivesByColor s)
                                            (perspectivesProto s))).
      { unfold chartPerspectives. rewrite Hshow. simpl negb. cbv iota.
        rewrite get_picked.
        apply Reveal.includes_In in Hrev. rewrite Hrev, Ht.
        apply String.eqb_neq in Hne. rewrite Hne. reflexivity. }
      apply MergeFacts.get_In in Hget.
      assert (Hthrow : arraysOf (chartPerspectives s) = None).
      { apply arraysOf_throws. eexists. eexists.
        split; [exact Hget|]. split; assumption. }
      rewrite Hthrow. reflexivity.
Qed.

Lemma chart_plots_only_revealed_colours_witness :
  In "red" (revealedColors (run Scenarios.chartRun initialState)).
Proof.
  destruct (proj1 (chart_plots_only_revealed_colours
                     (run Scenarios.chartRun initialState)
                     [] defaultMaxPoints)
                  [{| pt_id := Some "a"; pt_x := 1 # 4; pt_y := 3 # 4;
                      pt_color := "red"; pt_text := "" |};
                   {| pt_id := Some "b"; pt_x := 1 # 2; pt_y := 1 # 2;
                      pt_color := "red"; pt_text := "" |}]
                  {| pt_id := Some "a"; pt_x := 1 # 4; pt_y := 3 # 4;
                     pt_color := "red"; pt_text := "" |}
                  eq_refl (or_introl eq_refl))
    as (_ & H & _).
  exact H.
Defined.

(** ** Hiding colours *)

Lemma includes_removed c c' hiddenColors :
  includes c' (filter (fun x => negb (String.eqb x c)) hiddenColors)
  = includes c' hiddenColors && negb (String.eqb c' c).
Proof.
  unfold includes. induction hiddenColors as [|h r IH]; [reflexivity|].
  simpl. destruct (String.eqb h c) eqn:Eh; simpl.
  - rewrite IH. apply String.eqb_eq in Eh. subst h.
    destruct (String.eqb c' c); simpl;
      [rewrite andb_false_r; reflexivity | reflexivity].
  - rewrite IH. destruct (String.eqb c' h) eqn:E; simpl; [|reflexivity].
    apply String.eqb_eq in E. subst h. rewrite Eh. reflexivity.
Qed.

Lemma includes_toggleColor c c' hiddenColors :
  includes c' (toggleColor c hiddenColors) =
  if String.eqb c' c then negb (includes c hiddenColors)
  else includes c' hiddenColors.
Proof.
  unfold toggleColor. destruct (includes c hiddenColors) eqn:Hc.
  - rewrite includes_removed. destruct (String.eqb c' c) eqn:E; simpl.
    + apply andb_false_r.
    + apply andb_true_r.
  - unfold includes. rewrite existsb_app. simpl. rewrite orb_false_r.
    destruct (String.eqb c' c) eqn:E.
    + apply orb_true_r.
    + apply orb_false_r.
Qed.

Lemma flatPoints_ext perspectivesByColor h1 h2 :
  (forall c, includes c h1 = includes c h2) ->
  flatPoints perspectivesByColor h1 = flatPoints perspectivesByColor h2.
Proof.
  intros Hext. unfold flatPoints. apply flat_map_ext. intros e.
  unfold pointsOf. apply flat_map_ext. intros p. rewrite Hext. reflexivity.
Qed.

(** X18: the legend toggles visibility. Toggling a colour flips whether
    that colour is hidden and leaves every other colour as it was; after
    hiding a colour none of its points is plotted; toggling the same
    colour twice restores the plotted points. *)
Theorem toggleColor_flips_visibility perspectivesByColor hiddenColors
  maxPoints c :
  (forall c',
      includes c' (toggleColor c hiddenColors) =
      if String.eqb c' c then negb (includes c hiddenColors)
      else includes c' hiddenColors) /\
  (includes c hiddenColors = false ->
   forall pt,
     In pt (points perspectivesByColor (toggleColor c hiddenColors)
                   maxPoints) ->
     pt_color pt <> c) /\
  points perspectivesByColor (toggleColor c (toggleColor c hiddenColors))
         maxPoints
  = points perspectivesByColor hiddenColors maxPoints.
Proof.
  split; [intros c'; apply includes_toggleColor|]. split.
  - intros Hvis pt Hin Hc. unfold points in Hin. apply In_sliceLast in Hin.
    unfold flatPoints in Hin. apply in_flat_map in Hin.
    destruct Hin as (e & _ & Hpt). apply In_pointsOf in Hpt.
    destruct Hpt as (Hcol & Hh & _). rewrite <- Hcol, Hc in Hh.
    rewrite includes_toggleColor, String.eqb_refl, Hvis in Hh.
    discriminate Hh.
  - unfold points. f_equal. apply flatPoints_ext. intros c'.
    rewrite !includes_toggleColor.
    destruct (String.eqb c' c) eqn:E; [|reflexivity].
    apply String.eqb_eq in E. subst c'.
    rewrite String.eqb_refl, negb_involutive. reflexivity.
Qed.

End ChartFacts.


(* ================================================================== *)
(** * The explanation for a supplied significance *)
(* ================================================================== *)

Module SizerFacts.
Import Significance.
Local Open Scope R_scope.

Lemma Math_pow_monotone a b y :
  0 < y -> 0 <= a <= b -> Math_pow a y <= Math_pow b y.
Proof.
  intros Hy [Ha Hab]. unfold Math_pow.
  destruct (Req_dec_T a 0) as [-> | Hna].
  - destruct (Req_dec_T b 0); [lra|]. left. apply exp_pos.
  - destruct (Req_dec_T b 0) as [-> | Hnb]; [lra|].
    apply Rle_Rpower_l; lra.
Qed.

Lemma clamp_monotone x1 x2 :
  x1 <= x2 -> 0 <= Rmin 1 (Rmax 0 x1) <= Rmin 1 (Rmax 0 x2).
Proof.
  intros H. unfold Rmin, Rmax.
  destruct (Rle_dec 0 x1), (Rle_dec 0 x2);
    repeat match goal with |- context [Rle_dec ?a ?b] =>
                             destruct (Rle_dec a b) end; lra.
Qed.

Lemma Zceil_IZR z : Zceil (IZR z) = z.
Proof. apply Zceil_eq. lra. Qed.

(** X19: with a supplied significance (real numbers standing for the
    floating-point ones) the helper clamps it into [[0, 1]], so that the
    raw size lies between 8 and 136 and so does the size it reports, and
    a larger significance never gives a smaller size; for a count of zero
    it returns nothing. *)
Theorem supplied_significance_sizes n x1 x2 :
  buildSignificanceExplanation 0 (Some x1) = None /\
  (n <> 0%Z -> x1 <= x2 ->
   exists e1 e2,
     buildSignificanceExplanation n (Some x1) = Some e1 /\
     buildSignificanceExplanation n (Some x2) = Some e2 /\
     derived e1 = false /\ N e1 = n /\
     0 <= s e1 <= 1 /\ 8 <= raw e1 <= 136 /\
     (8 <= forward e1 <= 136)%Z /\
     (forward e1 <= forward e2)%Z).
Proof.
  split; [reflexivity|].
  intros Hn Hx. unfold buildSignificanceExplanation.
  apply Z.eqb_neq in Hn. rewrite Hn.
  eexists. eexists. split; [reflexivity|]. split; [reflexivity|].
  cbn [derived N s raw forward].
  split; [reflexivity|]. split; [reflexivity|].
  pose proof (clamp_monotone x1 x2 Hx) as [Hs0 Hs12].
  assert (Hs1 : Rmin 1 (Rmax 0 x1) <= 1) by apply Rmin_l.
  assert (He : 0 < exponent) by (unfold exponent; lra).
  pose proof (SignificanceFacts.Math_pow_nonneg (Rmin 1 (Rmax 0 x1)) exponent)
    as Hp0.
  pose proof (SignificanceFacts.Math_pow_at_most_one
                (Rmin 1 (Rmax 0 x1)) exponent (conj Hs0 Hs1) He) as Hp1.
  pose proof (Math_pow_monotone _ _ exponent He (conj Hs0 Hs12)) as Hmono.
  split; [split; assumption|].
  set (p1 := Math_pow (Rmin 1 (Rmax 0 x1)) exponent) in *.
  set (p2 := Math_pow (Rmin 1 (Rmax 0 x2)) exponent) in *.
  clearbody p1 p2.
  assert (H8 : 8 <= 128 * p1 + 8) by lra.
  assert (H136 : 128 * p1 + 8 <= 136) by lra.
  split; [split; assumption|]. split.
  - split.
    + apply Zceil_le in H8. rewrite Zceil_IZR in H8. exact H8.
    + apply Zceil_le in H136. rewrite Zceil_IZR in H136. exact H136.
  - apply Zceil_le. lra.
Qed.

Lemma supplied_significance_sizes_witness :
  exists e1 e2,
    buildSignificanceExplanation 70 (Some (1 / 2)) = Some e1 /\
    buildSignificanceExplanation 70 (Some 1) = Some e2 /\
    (forward e1 <= forward e2)%Z.
Proof.
  destruct (proj2 (supplied_significance_sizes 70 (1 / 2) 1)
                  ltac:(discriminate) ltac:(lra))
    as (e1 & e2 & H1 & H2 & _ & _ & _ & _ & _ & H3).
  exists e1, e2. repeat split; assumption.
Defined.

End SizerFacts.
